(** * IcePanel diagram reconstruction: a shallow embedding of [main.py]

    The Python program fetches JSON documents from the IcePanel REST API,
    reconstructs a diagram (flowchart mode) or a flow (sequence mode) and
    prints Mermaid text.  This development embeds the program as Rocq
    functions and proves properties of the embedding.

    Conventions of the embedding.
    - Python values are the JSON-shaped ones ([value]): [None], booleans,
      integers, strings, lists and string-keyed dictionaries.  JSON numbers
      are integers here; a string is a sequence of code points below 256.
    - A Python dictionary is an association list in insertion order; its
      keys are pairwise distinct in every dictionary Python builds, and
      lookup takes the first binding.
    - A Python exception is a [Raise] result; mutations made before the
      exception persist, as in Python.
    - Every HTTP request is answered ([network]); a body that is not JSON
      makes [.json()] raise.  What [print] writes is not modelled, but an
      exception raised while evaluating its argument is. *)

From Stdlib Require Import List String Ascii ZArith Bool Arith Lia.
From Stdlib Require Import Permutation Sorted.
From Stdlib Require DecimalString.
Import ListNotations.

Local Open Scope list_scope.
Local Set Warnings "-register-all".

Notation "a +++ b" := (String.append a b) (at level 60, right associativity).

(** ** Characters and strings *)

Definition TAB : ascii := ascii_of_nat 9.
Definition NL : ascii := ascii_of_nat 10.
Definition CR : ascii := ascii_of_nat 13.
Definition DQUOTE : ascii := ascii_of_nat 34.
Definition SQUOTE : ascii := ascii_of_nat 39.
Definition BACKSLASH : ascii := ascii_of_nat 92.

Definition str1 (c : ascii) : string := String c EmptyString.
Definition nl : string := str1 NL.
Definition tab : string := str1 TAB.
Definition dquote : string := str1 DQUOTE.

Definition between (lo hi n : nat) : bool := (lo <=? n) && (n <=? hi).

(** [str.isalnum] on one character (letters, digits and the other numeric
    characters of the first 256 code points). *)
Definition isalnum (c : ascii) : bool :=
  let n := nat_of_ascii c in
  between 48 57 n || between 65 90 n || between 97 122 n
  || (n =? 170) || (n =? 178) || (n =? 179) || (n =? 181) || (n =? 185)
  || (n =? 186) || between 188 190 n
  || between 192 214 n || between 216 246 n || between 248 255 n.

(** [str.isspace] on one character. *)
Definition isspace (c : ascii) : bool :=
  let n := nat_of_ascii c in
  between 9 13 n || between 28 32 n || (n =? 133) || (n =? 160).

Definition chars (s : string) : list ascii := list_ascii_of_string s.
Definition join (l : list ascii) : string := string_of_list_ascii l.

Fixpoint concat_str (l : list string) : string :=
  match l with
  | [] => EmptyString
  | s :: r => s +++ concat_str r
  end.

(** ["sep".join(l)] *)
Fixpoint join_with (sep : string) (l : list string) : string :=
  match l with
  | [] => EmptyString
  | [s] => s
  | s :: r => s +++ sep +++ join_with sep r
  end.

(** [s * n] *)
Fixpoint str_repeat (s : string) (n : nat) : string :=
  match n with
  | O => EmptyString
  | S m => s +++ str_repeat s m
  end.

(** [needle in hay] on strings *)
Fixpoint is_substring (needle hay : string) : bool :=
  String.prefix needle hay ||
  match hay with
  | EmptyString => false
  | String _ rest => is_substring needle rest
  end.

(** [s.rstrip()]: trailing whitespace removed. *)
Fixpoint rstrip_chars (l : list ascii) : list ascii :=
  match l with
  | [] => []
  | c :: r =>
      match rstrip_chars r with
      | [] => if isspace c then [] else [c]
      | r' => c :: r'
      end
  end.

Definition rstrip (s : string) : string := join (rstrip_chars (chars s)).

(** [s.replace(one character, new)] *)
Fixpoint replace_char (old : ascii) (new : string) (s : string) : string :=
  match s with
  | EmptyString => EmptyString
  | String c r =>
      (if Ascii.eqb c old then new else str1 c) +++ replace_char old new r
  end.

Definition str_of_Z (z : Z) : string :=
  DecimalString.NilZero.string_of_int (Z.to_int z).

(** ** Python values *)

Inductive value : Type :=
| VNone
| VBool (b : bool)
| VInt (z : Z)
| VStr (s : string)
| VList (l : list value)
| VDict (d : list (string * value)).

Inductive exn : Type :=
| TypeError | AttributeError | KeyError | IndexError | JSONDecodeError.

Inductive result (A : Type) : Type :=
| Ok (a : A)
| Raise (e : exn).
Arguments Ok {A} a.
Arguments Raise {A} e.

Definition rbind {A B} (r : result A) (k : A -> result B) : result B :=
  match r with
  | Ok a => k a
  | Raise e => Raise e
  end.

Declare Scope result_scope.
Delimit Scope result_scope with result.
Notation "x <-- c ; k" := (rbind c (fun x => k))
  (at level 61, c at next level, right associativity) : result_scope.

(** *** Dictionaries *)

Fixpoint dict_lookup {A} (k : string) (d : list (string * A)) : option A :=
  match d with
  | [] => None
  | (k', v) :: r => if String.eqb k k' then Some v else dict_lookup k r
  end.

Definition dict_mem {A} (k : string) (d : list (string * A)) : bool :=
  match dict_lookup k d with Some _ => true | None => false end.

(** [d[k] = v]: an existing key keeps its position. *)
Fixpoint dict_set {A} (k : string) (v : A) (d : list (string * A))
  : list (string * A) :=
  match d with
  | [] => [(k, v)]
  | (k', v') :: r =>
      if String.eqb k k' then (k', v) :: r else (k', v') :: dict_set k v r
  end.

Definition dict_keys {A} (d : list (string * A)) : list string := map fst d.
Definition dict_values {A} (d : list (string * A)) : list A := map snd d.

(** *** Truth value, equality, hashing *)

Definition truthy (v : value) : bool :=
  match v with
  | VNone => false
  | VBool b => b
  | VInt z => negb (Z.eqb z 0)
  | VStr s => negb (String.eqb s EmptyString)
  | VList l => match l with [] => false | _ => true end
  | VDict d => match d with [] => false | _ => true end
  end.

(** [a or b] *)
Definition py_or (a b : value) : value := if truthy a then a else b.

(** [a == b] *)
Fixpoint py_eqb (a b : value) {struct a} : bool :=
  match a, b with
  | VNone, VNone => true
  | VBool x, VBool y => Bool.eqb x y
  | VBool x, VInt y => Z.eqb (Z.b2z x) y
  | VInt x, VBool y => Z.eqb x (Z.b2z y)
  | VInt x, VInt y => Z.eqb x y
  | VStr x, VStr y => String.eqb x y
  | VList xs, VList ys =>
      (fix go (xs ys : list value) {struct xs} : bool :=
         match xs, ys with
         | [], [] => true
         | x :: xs', y :: ys' => py_eqb x y && go xs' ys'
         | _, _ => false
         end) xs ys
  | VDict d1, VDict d2 =>
      (List.length d1 =? List.length d2) &&
      (fix go (d : list (string * value)) {struct d} : bool :=
         match d with
         | [] => true
         | (k, v) :: d' =>
             match dict_lookup k d2 with
             | Some v' => py_eqb v v'
             | None => false
             end && go d'
         end) d1
  | _, _ => false
  end.

Definition hashable (v : value) : bool :=
  match v with
  | VList _ | VDict _ => false
  | _ => true
  end.

Definition is_none (v : value) : bool :=
  match v with VNone => true | _ => false end.
Definition is_dict (v : value) : bool :=
  match v with VDict _ => true | _ => false end.
Definition is_list (v : value) : bool :=
  match v with VList _ => true | _ => false end.

(** *** Attribute and item access *)

(** [x.get(k, default)] *)
Definition py_get (x : value) (k : string) (default : value) : result value :=
  match x with
  | VDict d =>
      Ok (match dict_lookup k d with Some v => v | None => default end)
  | _ => Raise AttributeError
  end.

(** [x.items()] *)
Definition py_items (x : value) : result (list (string * value)) :=
  match x with
  | VDict d => Ok d
  | _ => Raise AttributeError
  end.

(** [x.keys()] *)
Definition py_keys (x : value) : result (list string) :=
  match x with
  | VDict d => Ok (dict_keys d)
  | _ => Raise AttributeError
  end.

(** [key in d] for a dictionary with string keys: the key is hashed first. *)
Definition key_in_dict {A} (key : value) (d : list (string * A))
  : result bool :=
  match key with
  | VStr s => Ok (dict_mem s d)
  | VList _ | VDict _ => Raise TypeError
  | _ => Ok false
  end.

(** [d.get(key)] for a dictionary with string keys. *)
Definition key_lookup {A} (key : value) (d : list (string * A))
  : result (option A) :=
  match key with
  | VStr s => Ok (dict_lookup s d)
  | VList _ | VDict _ => Raise TypeError
  | _ => Ok None
  end.

(** [key in x] *)
Definition py_contains (key x : value) : result bool :=
  match x with
  | VDict d => key_in_dict key d
  | VList l => Ok (existsb (py_eqb key) l)
  | VStr s =>
      match key with
      | VStr t => Ok (is_substring t s)
      | _ => Raise TypeError
      end
  | _ => Raise TypeError
  end.

Definition index_of (z : Z) (len : nat) : option nat :=
  let i := if (z <? 0)%Z then (z + Z.of_nat len)%Z else z in
  if ((0 <=? i) && (i <? Z.of_nat len))%Z then Some (Z.to_nat i) else None.

Definition int_of (key : value) : option Z :=
  match key with
  | VInt z => Some z
  | VBool b => Some (Z.b2z b)
  | _ => None
  end.

(** [x[key]] *)
Definition py_getitem (x key : value) : result value :=
  match x with
  | VDict d =>
      match key with
      | VStr s =>
          match dict_lookup s d with
          | Some v => Ok v
          | None => Raise KeyError
          end
      | VList _ | VDict _ => Raise TypeError
      | _ => Raise KeyError
      end
  | VList l =>
      match int_of key with
      | Some z =>
          match index_of z (List.length l) with
          | Some i =>
              match nth_error l i with
              | Some v => Ok v
              | None => Raise IndexError
              end
          | None => Raise IndexError
          end
      | None => Raise TypeError
      end
  | VStr s =>
      match int_of key with
      | Some z =>
          match index_of z (String.length s) with
          | Some i =>
              match String.get i s with
              | Some c => Ok (VStr (str1 c))
              | None => Raise IndexError
              end
          | None => Raise IndexError
          end
      | None => Raise TypeError
      end
  | _ => Raise TypeError
  end.

(** [len(x)] *)
Definition py_len (x : value) : result nat :=
  match x with
  | VDict d => Ok (List.length d)
  | VList l => Ok (List.length l)
  | VStr s => Ok (String.length s)
  | _ => Raise TypeError
  end.

(** [x.append(v)] *)
Definition py_append (x v : value) : result value :=
  match x with
  | VList l => Ok (VList (l ++ [v]))
  | _ => Raise AttributeError
  end.

(** *** Formatting: [repr] and [str] *)

Local Open Scope string_scope.
Local Open Scope nat_scope.
Local Open Scope list_scope.

Definition hex_digit (n : nat) : ascii :=
  ascii_of_nat (if n <? 10 then 48 + n else 87 + n).

(** [str.isprintable] on one character. *)
Definition isprintable (c : ascii) : bool :=
  let n := nat_of_ascii c in
  between 32 126 n || (between 161 255 n && negb (n =? 173)).

Definition repr_char (quote c : ascii) : string :=
  if Ascii.eqb c quote || Ascii.eqb c BACKSLASH then String BACKSLASH (str1 c)
  else if Ascii.eqb c TAB then String BACKSLASH "t"
  else if Ascii.eqb c NL then String BACKSLASH "n"
  else if Ascii.eqb c CR then String BACKSLASH "r"
  else if isprintable c then str1 c
  else String BACKSLASH
         ("x" +++ str1 (hex_digit (nat_of_ascii c / 16))
              +++ str1 (hex_digit (nat_of_ascii c mod 16))).

Definition has_char (c : ascii) (s : string) : bool :=
  existsb (Ascii.eqb c) (chars s).

Definition str_repr (s : string) : string :=
  let q := if has_char SQUOTE s && negb (has_char DQUOTE s)
           then DQUOTE else SQUOTE in
  str1 q +++ concat_str (map (repr_char q) (chars s)) +++ str1 q.

Fixpoint py_repr (v : value) : string :=
  match v with
  | VNone => "None"
  | VBool true => "True"
  | VBool false => "False"
  | VInt z => str_of_Z z
  | VStr s => str_repr s
  | VList l =>
      "[" +++ join_with ", "
        ((fix go (l : list value) : list string :=
            match l with
            | [] => []
            | x :: r => py_repr x :: go r
            end) l) +++ "]"
  | VDict d =>
      "{" +++ join_with ", "
        ((fix go (d : list (string * value)) : list string :=
            match d with
            | [] => []
            | (k, x) :: r => (str_repr k +++ ": " +++ py_repr x) :: go r
            end) d) +++ "}"
  end.

(** [str(v)], what an f-string writes for [{v}]. *)
Definition py_str (v : value) : string :=
  match v with
  | VStr s => s
  | _ => py_repr v
  end.

(** *** Dictionaries keyed by hashable values *)

Fixpoint vdict_lookup {A} (key : value) (d : list (value * A)) : option A :=
  match d with
  | [] => None
  | (k, v) :: r => if py_eqb key k then Some v else vdict_lookup key r
  end.

(** [key in d] *)
Definition vdict_mem {A} (key : value) (d : list (value * A)) : result bool :=
  if hashable key
  then Ok (match vdict_lookup key d with Some _ => true | None => false end)
  else Raise TypeError.

Fixpoint vdict_set {A} (key : value) (v : A) (d : list (value * A))
  : list (value * A) :=
  match d with
  | [] => [(key, v)]
  | (k, v') :: r =>
      if py_eqb key k then (k, v) :: r else (k, v') :: vdict_set key v r
  end.

(** ** The sequence model: [MermaidSequence] *)

Record SequenceParticipant : Type := mkParticipant {
  participant_id : value;
  participant_name : value
}.

Record SequenceInteraction : Type := mkInteraction {
  interaction_id : value;
  interaction_type : value;
  description : value;
  source_id : value;
  target_id : value
}.

Record MermaidSequence : Type := mkSequence {
  seq_name : value;
  participants : list (value * SequenceParticipant);
  sequence_steps : list SequenceInteraction
}.

Module Sequence.

Definition new (name : value) : MermaidSequence := mkSequence name [] [].

Definition add_participant (self : MermaidSequence) (p : SequenceParticipant)
  : result MermaidSequence :=
  (present <-- vdict_mem (participant_id p) (participants self) ;
   Ok (if present then self
       else mkSequence (seq_name self)
              (vdict_set (participant_id p) p (participants self))
              (sequence_steps self)))%result.

Definition add_sequence_step (self : MermaidSequence) (s : SequenceInteraction)
  : MermaidSequence :=
  mkSequence (seq_name self) (participants self) (sequence_steps self ++ [s]).

Definition participant_line (p : SequenceParticipant) : string :=
  tab +++ "participant " +++ py_str (participant_id p) +++ " as "
      +++ py_str (participant_name p) +++ nl.

Definition step_line (s : SequenceInteraction) : string :=
  if is_none (target_id s)
  then tab +++ py_str (source_id s) +++ " -->> " +++ py_str (source_id s)
           +++ ": " +++ py_str (description s) +++ nl
  else tab +++ py_str (source_id s) +++ " ->> " +++ py_str (target_id s)
           +++ ": " +++ py_str (description s) +++ nl.

Definition generate (self : MermaidSequence) : string :=
  let graph_data := "sequenceDiagram" +++ nl in
  let graph_data := graph_data +++ tab +++ "autonumber" +++ nl in
  let graph_data :=
    fold_left (fun g p => g +++ participant_line p)
              (map snd (participants self)) graph_data in
  fold_left (fun g s => g +++ step_line s) (sequence_steps self) graph_data.

End Sequence.

(** ** The flowchart model: [MermaidDiagram] *)

(** A node dictionary of [MermaidDiagram.nodes].  The [children] list holds
    references to node objects; a reference is the key of the node in
    [nodes].  Only [generate] writes and reads these lists, and it empties
    all of them first. *)
Record node : Type := mkNode {
  node_id : string;
  node_name : string;
  node_parent : value;
  node_children : list string
}.

Record link : Type := mkLink {
  link_source : value;
  link_target : value;
  link_label : value
}.

Record MermaidDiagram : Type := mkDiagram {
  dia_name : string;
  nodes : list (string * node);
  links : list link
}.

Inductive gen_error : Type :=
| PyExn (e : exn)
| OutOfFuel.

Module Diagram.

Definition new (name : string) : MermaidDiagram := mkDiagram name [] [].

Definition safe_id (id : string) : string :=
  join (filter (fun c => isalnum c || Ascii.eqb c "_"%char) (chars id)).

Definition safe_name (name : string) : string :=
  replace_char DQUOTE "&quot;" name.

Definition add_node (self : MermaidDiagram) (id name : string)
  (parent_id : value) : MermaidDiagram :=
  mkDiagram (dia_name self)
    (dict_set id (mkNode (safe_id id) (safe_name name) parent_id []) (nodes self))
    (links self).

Definition add_link (self : MermaidDiagram) (source target label : value)
  : MermaidDiagram :=
  mkDiagram (dia_name self) (nodes self)
    (links self ++ [mkLink source target label]).

Definition set_children (n : node) (cs : list string) : node :=
  mkNode (node_id n) (node_name n) (node_parent n) cs.

(** Lines 100-101: every children list is emptied. *)
Definition reset_children (ns : list (string * node)) : list (string * node) :=
  map (fun kn => (fst kn, set_children (snd kn) [])) ns.

(** [self.nodes[parent]["children"].append(child)] *)
Definition append_child (parent : value) (child : string)
  (ns : list (string * node)) : list (string * node) :=
  match parent with
  | VStr p =>
      match dict_lookup p ns with
      | Some pn =>
          dict_set p (set_children pn (node_children pn ++ [child])) ns
      | None => ns
      end
  | _ => ns
  end.

(** Lines 103-108: the loop over [self.nodes.items()], started with the
    items still to visit, the node store and the roots found so far. *)
Fixpoint build_children (items : list (string * node))
  (ns : list (string * node)) (roots : list string)
  : list (string * node) * result (list string) :=
  match items with
  | [] => (ns, Ok roots)
  | (k, n) :: rest =>
      if truthy (node_parent n) then
        match key_in_dict (node_parent n) ns with
        | Raise e => (ns, Raise e)
        | Ok true => build_children rest (append_child (node_parent n) k ns) roots
        | Ok false => build_children rest ns (roots ++ [k])
        end
      else build_children rest ns (roots ++ [k])
  end.

(** The text of the nodes [ks], each rendered by [render], one after the
    other (the loops at lines 117-118 and 124-125). *)
Fixpoint render_all (render : string -> option string) (ks : list string)
  : option string :=
  match ks with
  | [] => Some EmptyString
  | k :: rest =>
      match render k, render_all render rest with
      | Some a, Some b => Some (a +++ b)
      | _, _ => None
      end
  end.

(** [render_node], lines 112-122.  The recursion follows children lists, so
    it is bounded by [fuel]; [None] means the fuel ran out. *)
Fixpoint render_node (fuel : nat) (ns : list (string * node)) (k : string)
  (indent : nat) : option string :=
  match fuel with
  | O => None
  | S fuel' =>
      match dict_lookup k ns with
      | None => None
      | Some n =>
          let tabs := str_repeat tab indent in
          match node_children n with
          | [] =>
              Some (tabs +++ node_id n +++ "[" +++ dquote +++ node_name n
                         +++ dquote +++ "]" +++ nl)
          | cs =>
              match render_all
                      (fun c => render_node fuel' ns c (indent + 1)) cs with
              | Some body =>
                  Some (tabs +++ "subgraph " +++ node_id n +++ " [" +++ dquote
                             +++ node_name n +++ dquote +++ "]" +++ nl
                             +++ body +++ tabs +++ "end" +++ nl)
              | None => None
              end
          end
      end
  end.

(** Lines 124-125. *)
Definition render_roots (fuel : nat) (ns : list (string * node))
  (roots : list string) : option string :=
  render_all (fun r => render_node fuel ns r 1) roots.

(** One iteration of the loop at lines 127-135: the text the link adds. *)
Definition render_link (ns : list (string * node)) (l : link) : result string :=
  (source <-- key_lookup (link_source l) ns ;
   target <-- key_lookup (link_target l) ns ;
   match source, target with
   | Some s, Some t =>
       if truthy (link_label l)
       then Ok (tab +++ node_id s +++ " -->|" +++ py_str (link_label l)
                    +++ "| " +++ node_id t +++ nl)
       else Ok (tab +++ node_id s +++ " --> " +++ node_id t +++ nl)
   | _, _ => Ok EmptyString
   end)%result.

Fixpoint render_links (ns : list (string * node)) (ls : list link)
  : result string :=
  match ls with
  | [] => Ok EmptyString
  | l :: rest =>
      (a <-- render_link ns l ;
       b <-- render_links ns rest ;
       Ok (a +++ b))%result
  end.

Definition with_nodes (self : MermaidDiagram) (ns : list (string * node))
  : MermaidDiagram :=
  mkDiagram (dia_name self) ns (links self).

(** [generate]: the diagram after the call (children lists rewritten) and
    the text, or the exception. *)
Definition generate (self : MermaidDiagram)
  : MermaidDiagram * (gen_error + string) :=
  let ns0 := reset_children (nodes self) in
  let (ns1, r) := build_children ns0 ns0 [] in
  let self' := with_nodes self ns1 in
  match r with
  | Raise e => (self', inl (PyExn e))
  | Ok roots =>
      match render_roots (List.length ns1) ns1 roots with
      | None => (self', inl OutOfFuel)
      | Some body =>
          match render_links ns1 (links self) with
          | Raise e => (self', inl (PyExn e))
          | Ok edges => (self', inr ("flowchart TD" +++ nl +++ body +++ edges))
          end
      end
  end.

End Diagram.

(** ** File names *)

Definition keepcharacters : list ascii := [" "%char; "."%char; "_"%char].

(** [c.isalnum() or c in keepcharacters] *)
Definition kept (c : ascii) : bool :=
  isalnum c || existsb (Ascii.eqb c) keepcharacters.

Definition create_file_name (filename extension : string) : string :=
  let safe_filename := rstrip (join (filter kept (chars filename))) in
  safe_filename +++ "." +++ extension.

(** ** The API and the process state *)

(** The requests the program sends.  A URL is determined by the resource
    and by the identifiers as the f-strings format them into it (lines 153,
    175, 205 and 520): a request carries the text [str(id)], so that the ids
    [1] and ["1"] give one and the same request. *)
Inductive request : Type :=
| GetDiagram (diagram_id : string) (suffix : string)
| GetModelObject (model_object_id : string)
| GetModelConnections
| GetDiagrams
| GetFlows
| GetFlow (flow_id : string).

(** A response: the status code and the body when it is JSON. *)
Record response : Type := mkResponse {
  status_code : Z;
  body : option value
}.

(** The service: the answer to a request may depend on the requests sent
    before it. *)
Definition network : Type := list request -> request -> response.

(** The module-level dictionaries [model_objects] and [diagram_cache], and
    the requests sent so far. *)
Record world : Type := mkWorld {
  model_objects : list (value * value);
  diagram_cache : list (value * value);
  requests_log : list request
}.

Definition initial_world : world := mkWorld [] [] [].

Definition M (A : Type) : Type := world -> world * result A.

Definition ret {A} (a : A) : M A := fun w => (w, Ok a).

Definition bind {A B} (c : M A) (k : A -> M B) : M B :=
  fun w =>
    match c w with
    | (w', Ok a) => k a w'
    | (w', Raise e) => (w', Raise e)
    end.

Definition lift {A} (r : result A) : M A := fun w => (w, r).

Definition read {A} (f : world -> result A) : M A := fun w => (w, f w).

Declare Scope py_scope.
Delimit Scope py_scope with py.
Notation "x <- c ;; k" := (bind c (fun x => k))
  (at level 61, c at next level, right associativity) : py_scope.
Notation "' pat <- c ;; k" :=
  (bind c (fun x => match x with pat => k end))
  (at level 61, pat pattern, c at next level, right associativity) : py_scope.

Local Open Scope py_scope.

(** [requests.get(url, headers=headers)] *)
Definition requests_get (net : network) (req : request) : M response :=
  fun w =>
    (mkWorld (model_objects w) (diagram_cache w) (requests_log w ++ [req]),
     Ok (net (requests_log w) req)).

(** [r.json()] *)
Definition response_json (r : response) : result value :=
  match body r with
  | Some v => Ok v
  | None => Raise JSONDecodeError
  end.

(** [model_objects[key] = v] *)
Definition store_model_object (key v : value) : M unit :=
  fun w =>
    (mkWorld (vdict_set key v (model_objects w)) (diagram_cache w)
             (requests_log w), Ok tt).

(** ** [get_model_object] *)

Definition unknown_object : value :=
  VDict [("id", VNone); ("name", VStr "Unknown"); ("type", VStr "unknown")].

Definition dummy_object (model_object_id : value) : value :=
  VDict [("id", model_object_id); ("name", VStr "Unknown Model Object");
         ("type", VStr "unknown")].

Definition get_model_object (net : network) (model_object_id : value)
  : M value :=
  cached <- read (fun w => vdict_mem model_object_id (model_objects w)) ;;
  if cached then
    read (fun w => match vdict_lookup model_object_id (model_objects w) with
                   | Some v => Ok v
                   | None => Raise KeyError
                   end)
  else if is_none model_object_id then ret unknown_object
  else
    rmodel <- requests_get net (GetModelObject (py_str model_object_id)) ;;
    model_object <- lift (response_json rmodel) ;;
    wrapped <- lift (py_contains (VStr "modelObject") model_object) ;;
    model_object <-
      (if wrapped then lift (py_getitem model_object (VStr "modelObject"))
       else
         has_id <- lift (py_contains (VStr "id") model_object) ;;
         if has_id then ret model_object
         else ret (dummy_object model_object_id)) ;;
    _ <- store_model_object model_object_id model_object ;;
    ret model_object.

(** ** [get_diagram_data] *)

Definition sub_resources : list (string * list string) :=
  [("/content", ["diagramContent"; "objects"]);
   ("/objects", ["objects"]);
   ("/elements", ["elements"]);
   ("/relationships", ["relationships"])].

(** [isinstance(v, dict) and k in v] *)
Definition dict_has (v : value) (k : string) : bool :=
  match v with
  | VDict d => dict_mem k d
  | _ => false
  end.

(** [if relationships: print(f"... {len(relationships)} ...")] *)
Definition debug_len (relationships : value) : result unit :=
  if truthy relationships
  then (_ <-- py_len relationships ; Ok tt)%result
  else Ok tt.

(** Lines 210-222, entered when [relationships] is falsy: the value the
    branch assigns, or [None] when it assigns nothing. *)
Definition probe_relationships (data : value) : result (option value) :=
  (has_content <-- py_contains (VStr "diagramContent") data ;
   content_is_dict <--
     (if has_content
      then (c <-- py_getitem data (VStr "diagramContent") ; Ok (is_dict c))
      else Ok false) ;
   if content_is_dict then
     c <-- py_getitem data (VStr "diagramContent") ;
     rels <-- py_get c "relationships" (VList []) ;
     _ <-- debug_len rels ;
     Ok (Some rels)
   else
     has_rels <-- py_contains (VStr "relationships") data ;
     if has_rels then
       rels <-- py_getitem data (VStr "relationships") ;
       _ <-- debug_len rels ;
       Ok (Some rels)
     else Ok None)%result.

(** Lines 224-233: the [/relationships] endpoint. *)
Definition relationships_endpoint (data relationships : value) : result value :=
  match data with
  | VList _ => Ok data
  | VDict _ =>
      (has_rels <-- py_contains (VStr "relationships") data ;
       if has_rels then py_getitem data (VStr "relationships")
       else Ok relationships)%result
  | _ => Ok relationships
  end.

(** Lines 239-246: the drill-down along [keys]; the object reached and
    [valid_path]. *)
Fixpoint drill_down (keys : list string) (temp_obj : value) : value * bool :=
  match keys with
  | [] => (temp_obj, true)
  | key :: rest =>
      if dict_has temp_obj key then
        match py_getitem temp_obj (VStr key) with
        | Ok v => drill_down rest v
        | Raise _ => (temp_obj, false)
        end
      else if is_dict temp_obj && String.eqb key "objects"
              && negb (dict_has temp_obj "objects")
      then drill_down rest temp_obj
      else (temp_obj, false)
  end.

(** The body of the loop at lines 203-258 for a response with status 200:
    the new [objects] and [relationships]. *)
Definition scan_sub_resource (suffix : string) (keys : list string)
  (data objects relationships : value) : result (value * value) :=
  (relationships <--
     (if negb (truthy relationships) then
        found <-- probe_relationships data ;
        Ok (match found with Some r => r | None => relationships end)
      else Ok relationships) ;
   relationships <--
     (if String.eqb suffix "/relationships"
      then relationships_endpoint data relationships
      else Ok relationships) ;
   let (temp_obj, valid_path) := drill_down keys data in
   let objects :=
     if valid_path && is_dict temp_obj && truthy temp_obj
     then (if negb (truthy objects) then temp_obj else objects)
     else objects in
   if String.eqb suffix "/objects" && negb (truthy objects) && is_dict data
   then
     let objects := data in
     if negb (truthy relationships) then
       has_rels <-- py_contains (VStr "relationships") data ;
       if has_rels then
         r <-- py_getitem data (VStr "relationships") ; Ok (objects, r)
       else Ok (objects, relationships)
     else Ok (objects, relationships)
   else Ok (objects, relationships))%result.

(** The loop at lines 203-258, with its [break]. *)
Fixpoint scan_sub_resources (net : network) (diagram_id : value)
  (subs : list (string * list string)) (objects relationships : value)
  : M (value * value) :=
  match subs with
  | [] => ret (objects, relationships)
  | (suffix, keys) :: rest =>
      r_sub <- requests_get net (GetDiagram (py_str diagram_id) suffix) ;;
      if Z.eqb (status_code r_sub) 200 then
        data <- lift (response_json r_sub) ;;
        '(objects, relationships) <-
          lift (scan_sub_resource suffix keys data objects relationships) ;;
        if truthy objects && truthy relationships
        then ret (objects, relationships)
        else scan_sub_resources net diagram_id rest objects relationships
      else scan_sub_resources net diagram_id rest objects relationships
  end.

(** [dia[k] = v] on the dictionary [dia]. *)
Definition py_setitem (dia : value) (k : string) (v : value) : result value :=
  match dia with
  | VDict d => Ok (VDict (dict_set k v d))
  | _ => Raise TypeError
  end.

Definition get_diagram_data (net : network) (diagram_id : value) : M value :=
  cached <- read (fun w => vdict_mem diagram_id (diagram_cache w)) ;;
  if cached then
    read (fun w => match vdict_lookup diagram_id (diagram_cache w) with
                   | Some v => Ok v
                   | None => Raise KeyError
                   end)
  else
    rdia <- requests_get net (GetDiagram (py_str diagram_id) "") ;;
    if negb (Z.eqb (status_code rdia) 200) then ret VNone
    else
      response_json <- lift (response_json rdia) ;;
      dia <- lift (py_get response_json "diagram" (VDict [])) ;;
      objects <- lift (py_get dia "objects" VNone) ;;
      relationships <- lift (py_get dia "relationships" (VList [])) ;;
      objects <-
        (if negb (truthy objects) && dict_has response_json "diagramContent"
         then
           c <- lift (py_getitem response_json (VStr "diagramContent")) ;;
           lift (py_get c "objects" VNone)
         else ret objects) ;;
      relationships <-
        (if negb (truthy relationships)
            && dict_has response_json "diagramContent"
         then
           c <- lift (py_getitem response_json (VStr "diagramContent")) ;;
           lift (py_get c "relationships" VNone)
         else ret relationships) ;;
      '(objects, relationships) <-
        (if negb (truthy objects) || negb (truthy relationships)
         then scan_sub_resources net diagram_id sub_resources
                objects relationships
         else ret (objects, relationships)) ;;
      let relationships :=
        match relationships with
        | VDict d => if truthy relationships then VList (dict_values d)
                     else relationships
        | _ => relationships
        end in
      dia <- lift (py_setitem dia "objects"
                     (if is_none objects then VDict [] else objects)) ;;
      dia <- lift (py_setitem dia "relationships"
                     (if negb (truthy relationships) then VList []
                      else relationships)) ;;
      ret dia.

(** ** [get_diagram_object] *)

Definition get_diagram_object (net : network) (diagram_id object_id : value)
  : M value :=
  if is_none object_id then ret VNone
  else
    dia <- get_diagram_data net diagram_id ;;
    if negb (truthy dia) then ret VNone
    else
      objects <- lift (py_getitem dia (VStr "objects")) ;;
      present <- lift (py_contains object_id objects) ;;
      if negb present then ret VNone
      else
        objects <- lift (py_getitem dia (VStr "objects")) ;;
        lift (py_getitem objects object_id).

(** ** Loops, iteration and [sorted] *)

(** A [for] loop threading the loop variables [s]. *)
Fixpoint for_each {A S} (body : S -> A -> M S) (l : list A) (s : S) : M S :=
  match l with
  | [] => ret s
  | a :: rest => s' <- body s a ;; for_each body rest s'
  end.

(** The same for a loop that sends no request. *)
Fixpoint rfold {A S} (body : S -> A -> result S) (l : list A) (s : S)
  : result S :=
  match l with
  | [] => Ok s
  | a :: rest => (s' <-- body s a ; rfold body rest s')%result
  end.

Fixpoint rmap {A B} (f : A -> result B) (l : list A) : result (list B) :=
  match l with
  | [] => Ok []
  | a :: rest => (b <-- f a ; bs <-- rmap f rest ; Ok (b :: bs))%result
  end.

(** [for x in v] *)
Definition py_iter (v : value) : result (list value) :=
  match v with
  | VList l => Ok l
  | VDict d => Ok (map VStr (dict_keys d))
  | VStr s => Ok (map (fun c => VStr (str1 c)) (chars s))
  | _ => Raise TypeError
  end.

(** [a < b]: numbers (booleans are numbers) by value, strings by code
    points, lists by the first pair of items that are not equal (a proper
    prefix is smaller); any other pair of operands is a [TypeError]. *)
Fixpoint py_lt (a b : value) {struct a} : result bool :=
  match a, b with
  | VBool x, VBool y => Ok (Z.ltb (Z.b2z x) (Z.b2z y))
  | VBool x, VInt y => Ok (Z.ltb (Z.b2z x) y)
  | VInt x, VBool y => Ok (Z.ltb x (Z.b2z y))
  | VInt x, VInt y => Ok (Z.ltb x y)
  | VStr x, VStr y => Ok (String.ltb x y)
  | VList xs, VList ys =>
      (fix go (xs ys : list value) {struct xs} : result bool :=
         match xs, ys with
         | [], [] => Ok false
         | [], _ :: _ => Ok true
         | _ :: _, [] => Ok false
         | x :: xs', y :: ys' => if py_eqb x y then go xs' ys' else py_lt x y
         end) xs ys
  | _, _ => Raise TypeError
  end.

(** [a < b] holds. *)
Definition key_ltb (a b : value) : bool :=
  match py_lt a b with
  | Ok c => c
  | Raise _ => false
  end.

(** [a < b] raises nothing. *)
Definition comparable (a b : value) : bool :=
  match py_lt a b with
  | Ok _ => true
  | Raise _ => false
  end.

(** Stable insertion into a list sorted by key: the new item goes before
    the first item whose key is not smaller. *)
Fixpoint insert_by_key {A} (x : value * A) (l : list (value * A))
  : list (value * A) :=
  match l with
  | [] => [x]
  | y :: r =>
      if key_ltb (fst y) (fst x) then y :: insert_by_key x r else x :: y :: r
  end.

Fixpoint sort_by_key {A} (l : list (value * A)) : list (value * A) :=
  match l with
  | [] => []
  | x :: r => insert_by_key x (sort_by_key r)
  end.

(** [sorted(l, key=key)]: the keys are computed first, then the list is
    sorted stably by [<] on the keys.  Keys are compared only when there
    are two items or more; the sort raises the [TypeError] of a comparison
    when two of the keys cannot be compared. *)
Definition py_sorted {A} (key : A -> result value) (l : list A)
  : result (list A) :=
  (keys <-- rmap key l ;
   if List.length l <=? 1 then Ok l
   else if forallb (fun a => forallb (comparable a) keys) keys
   then Ok (map snd (sort_by_key (combine keys l)))
   else Raise TypeError)%result.

(** ** [main], diagram mode *)

(** Lines 366-370: the map from diagram object id to model id. *)
Definition build_dia_to_model (objects : value)
  : result (list (string * value)) :=
  if truthy objects then
    (items <-- py_items objects ;
     rfold (fun dia_to_model item =>
              m <-- py_get (snd item) "modelId" VNone ;
              if truthy m then
                m' <-- py_getitem (snd item) (VStr "modelId") ;
                Ok (dict_set (fst item) m' dia_to_model)
              else Ok dia_to_model)
           items [])%result
  else Ok [].

(** [set(values)] *)
Definition py_set (l : list value) : result (list value) :=
  if forallb hashable l then Ok l else Raise TypeError.

(** [x in s] for a set [s] *)
Definition set_mem (x : value) (s : list value) : result bool :=
  if hashable x then Ok (existsb (py_eqb x) s) else Raise TypeError.

(** [[k for k, v in dia_to_model.items() if v == model_id][0]] *)
Definition reverse_lookup (dia_to_model : list (string * value))
  (model_id : value) : result value :=
  match filter (fun kv => py_eqb (snd kv) model_id) dia_to_model with
  | kv :: _ => Ok (VStr (fst kv))
  | [] => Raise IndexError
  end.

(** Lines 392-413: one connection of the loop over [all_conns]. *)
Definition infer_connection (dia_id : value)
  (dia_to_model : list (string * value)) (diagram_model_ids : list value)
  (relationships conn : value) : result value :=
  (origin <-- py_get conn "originId" VNone ;
   source_model <--
     (if truthy origin then Ok origin else py_get conn "sourceId" VNone) ;
   target <-- py_get conn "targetId" VNone ;
   target_model <--
     (if truthy target then Ok target else py_get conn "destinationId" VNone) ;
   source_in <-- set_mem source_model diagram_model_ids ;
   both_in <--
     (if source_in then set_mem target_model diagram_model_ids else Ok false) ;
   if both_in then
     diagrams <-- py_get conn "diagrams" (VDict []) ;
     dia_keys <-- py_keys diagrams ;
     listed <-- key_in_dict dia_id (map (fun k => (k, tt)) dia_keys) ;
     accepted <--
       (if listed then Ok true
        else
          s <-- set_mem source_model diagram_model_ids ;
          if s then set_mem target_model diagram_model_ids else Ok false) ;
     if accepted then
       source_id <-- reverse_lookup dia_to_model source_model ;
       target_id <-- reverse_lookup dia_to_model target_model ;
       label <-- py_get conn "name" VNone ;
       model_id <-- py_get conn "id" VNone ;
       py_append relationships
         (VDict [("sourceId", source_id); ("targetId", target_id);
                 ("label", label); ("modelId", model_id)])
     else Ok relationships
   else Ok relationships)%result.

(** Lines 376-414: the fallback on model connections. *)
Definition infer_relationships (net : network) (dia_id : value)
  (dia_to_model : list (string * value)) (relationships : value) : M value :=
  if negb (truthy relationships) then
    r_conns <- requests_get net GetModelConnections ;;
    if Z.eqb (status_code r_conns) 200 then
      conns_json <- lift (response_json r_conns) ;;
      all_conns <- lift (py_get conns_json "modelConnections" (VList [])) ;;
      _ <- lift (py_len all_conns) ;;
      diagram_model_ids <- lift (py_set (dict_values dia_to_model)) ;;
      conns <- lift (py_iter all_conns) ;;
      relationships <-
        lift (rfold (infer_connection dia_id dia_to_model diagram_model_ids)
                    conns relationships) ;;
      _ <- lift (py_len relationships) ;;
      ret relationships
    else ret relationships
  else ret relationships.

(** [mdia.add_node(id, name, parent_id)] with the arguments as Python
    passes them: [id] is iterated (line 84) and [isalnum] is called on every
    item, then [name.replace] is called (line 86), then the node is stored
    under [id] (line 87).  A string is iterated by characters, a list by its
    items and a dictionary by its keys; nothing else can be iterated. *)
Definition add_node_call (mdia : MermaidDiagram) (id name parent_id : value)
  : result MermaidDiagram :=
  let replaced (unhashable : bool) : result MermaidDiagram :=
    match name with
    | VStr _ => if unhashable then Raise TypeError else Raise AttributeError
    | _ => Raise AttributeError
    end in
  match id with
  | VStr i =>
      match name with
      | VStr n => Ok (Diagram.add_node mdia i n parent_id)
      | _ => Raise AttributeError
      end
  | VList l =>
      (* the items are iterated: [c.isalnum()] exists on strings only; the
         store under an unhashable key fails last *)
      if forallb (fun c => match c with VStr _ => true | _ => false end) l
      then replaced true
      else Raise AttributeError
  | VDict _ => replaced true
  | VNone | VBool _ | VInt _ => Raise TypeError
  end.

(** Lines 452-456 and 473-474: the node of a parent that is not a node yet
    is made from the parent's entry in [objects]. *)
Definition ensure_parent (objects : value) (parent_id : value)
  (mdia : MermaidDiagram) : result MermaidDiagram :=
  if truthy parent_id then
    (is_node <-- key_in_dict parent_id (nodes mdia) ;
     if negb is_node then
       known <-- py_contains parent_id objects ;
       if known then
         p_data <-- py_getitem objects parent_id ;
         p_name <-- py_get p_data "name" (VStr "Group") ;
         p_parent <-- py_get p_data "parentId" VNone ;
         add_node_call mdia parent_id p_name p_parent
       else Ok mdia
     else Ok mdia)%result
  else Ok mdia.

(** Lines 441-449: the parent of a model-backed object. *)
Definition resolve_parent (dia_to_model : list (string * value))
  (parent_dia_id model_obj : value) : result value :=
  if negb (truthy parent_dia_id) then
    (has_parent <-- py_contains (VStr "parentId") model_obj ;
     if has_parent then
       p_struct <-- py_getitem model_obj (VStr "parentId") ;
       match filter (fun kv => py_eqb (snd kv) p_struct) dia_to_model with
       | kv :: _ => Ok (VStr (fst kv))
       | [] => Ok parent_dia_id
       end
     else Ok parent_dia_id)%result
  else Ok parent_dia_id.

(** Lines 434-477: the body of the loop over [sorted_items]. *)
Definition place_object (net : network) (objects : value)
  (dia_to_model : list (string * value)) (mdia : MermaidDiagram)
  (item : string * value) : M MermaidDiagram :=
  let (obj_id, obj_data) := item in
  model_id <- lift (py_get obj_data "modelId" VNone) ;;
  parent_dia_id <- lift (py_get obj_data "parentId" VNone) ;;
  if truthy model_id then
    model_obj <- get_model_object net model_id ;;
    final_parent_id <- lift (resolve_parent dia_to_model parent_dia_id model_obj) ;;
    mdia <- lift (ensure_parent objects final_parent_id mdia) ;;
    name <- lift (py_getitem model_obj (VStr "name")) ;;
    lift (add_node_call mdia (VStr obj_id) name final_parent_id)
  else
    name <- lift (py_get obj_data "name" VNone) ;;
    named <-
      (if negb (truthy name) then
         type <- lift (py_get obj_data "type" VNone) ;;
         if py_eqb type (VStr "boundary") then ret (Some (VStr "Group"))
         else
           styled <- lift (py_contains (VStr "style") obj_data) ;;
           if styled then ret (Some (VStr "Group")) else ret None
       else ret (Some name)) ;;
    match named with
    | None => ret mdia
    | Some name =>
        parent_id <- lift (py_get obj_data "parentId" VNone) ;;
        mdia <- lift (ensure_parent objects parent_id mdia) ;;
        if dict_mem obj_id (nodes mdia) then ret mdia
        else lift (add_node_call mdia (VStr obj_id) name parent_id)
    end.

(** Line 431: groups (no [modelId]) before model-backed objects. *)
Definition sorted_items (objects : value) : result (list (string * value)) :=
  (items <-- py_items objects ;
   py_sorted (fun item =>
                m <-- py_get (snd item) "modelId" VNone ;
                Ok (VInt (if truthy m then 1 else 0)))
             items)%result.

(** Lines 431-477: the hierarchy pass. *)
Definition build_hierarchy (net : network) (objects : value)
  (dia_to_model : list (string * value)) (mdia : MermaidDiagram)
  : M MermaidDiagram :=
  items <- lift (sorted_items objects) ;;
  for_each (place_object net objects dia_to_model) items mdia.

(** Lines 483-495: the body of the loop over [relationships]. *)
Definition place_relationship (net : network) (objects : value)
  (mdia : MermaidDiagram) (rel : value) : M MermaidDiagram :=
  source_id <- lift (py_get rel "sourceId" VNone) ;;
  target_id <- lift (py_get rel "targetId" VNone) ;;
  label <- lift (py_get rel "label" VNone) ;;
  label <- (if truthy label then ret label else lift (py_get rel "name" VNone)) ;;
  rel_model_id <- lift (py_get rel "modelId" VNone) ;;
  label <-
    (if negb (truthy label) && truthy rel_model_id then
       rel_model <- get_model_object net rel_model_id ;;
       lift (py_get rel_model "name" VNone)
     else ret label) ;;
  source_known <- lift (py_contains source_id objects) ;;
  source_ok <-
    (if source_known then ret true
     else lift (key_in_dict source_id (nodes mdia))) ;;
  both_ok <-
    (if source_ok then
       target_known <- lift (py_contains target_id objects) ;;
       if target_known then ret true
       else lift (key_in_dict target_id (nodes mdia))
     else ret false) ;;
  if both_ok then ret (Diagram.add_link mdia source_id target_id label)
  else ret mdia.

(** Lines 479-495: the relationship pass. *)
Definition build_links (net : network) (objects relationships : value)
  (mdia : MermaidDiagram) : M MermaidDiagram :=
  rels <- lift (match relationships with
                | VDict d => Ok (dict_values d)
                | _ => py_iter relationships
                end) ;;
  for_each (place_relationship net objects) rels mdia.

(** Lines 355-497 of [main] for a diagram id found by name: the diagram
    built, or [None] when the diagram data could not be fetched. *)
Definition build_diagram (net : network) (dia_id : value)
  (diagram_name : string) : M (option MermaidDiagram) :=
  dia <- get_diagram_data net dia_id ;;
  if negb (truthy dia) then ret None
  else
    objects <- lift (py_get dia "objects" (VDict [])) ;;
    relationships <- lift (py_get dia "relationships" (VList [])) ;;
    let mdia := Diagram.new diagram_name in
    dia_to_model <- lift (build_dia_to_model objects) ;;
    _ <- lift (py_len objects) ;;
    relationships <- infer_relationships net dia_id dia_to_model relationships ;;
    n <- lift (py_len relationships) ;;
    _ <- (if n =? 0 then lift (py_items objects) else ret []) ;;
    mdia <- build_hierarchy net objects dia_to_model mdia ;;
    mdia <- build_links net objects relationships mdia ;;
    ret (Some mdia).

(** ** [main], flow mode *)

(** Lines 532-552: the body of the loop over the sorted steps. *)
Definition place_step (net : network) (flow : value) (seq : MermaidSequence)
  (step : string * value) : M MermaidSequence :=
  let (k, v) := step in
  diagram_id <- lift (py_getitem flow (VStr "diagramId")) ;;
  origin_id <- lift (py_getitem v (VStr "originId")) ;;
  dia_obj_ori <- get_diagram_object net diagram_id origin_id ;;
  if is_none dia_obj_ori then ret seq
  else
    target_id <- lift (py_getitem v (VStr "targetId")) ;;
    dia_obj_tar <-
      (if negb (is_none target_id) then
         diagram_id <- lift (py_getitem flow (VStr "diagramId")) ;;
         target_id <- lift (py_getitem v (VStr "targetId")) ;;
         get_diagram_object net diagram_id target_id
       else ret VNone) ;;
    ori_model_id <- lift (py_getitem dia_obj_ori (VStr "modelId")) ;;
    model_obj_ori <- get_model_object net ori_model_id ;;
    model_obj_tar <-
      (if negb (is_none dia_obj_tar) then
         tar_model_id <- lift (py_getitem dia_obj_tar (VStr "modelId")) ;;
         get_model_object net tar_model_id
       else ret VNone) ;;
    ori_id <- lift (py_getitem model_obj_ori (VStr "id")) ;;
    ori_name <- lift (py_getitem model_obj_ori (VStr "name")) ;;
    let participant_ori := mkParticipant ori_id ori_name in
    seq <- lift (Sequence.add_participant seq participant_ori) ;;
    '(seq, participant_tar) <-
      (if negb (is_none model_obj_tar) then
         tar_id <- lift (py_getitem model_obj_tar (VStr "id")) ;;
         tar_name <- lift (py_getitem model_obj_tar (VStr "name")) ;;
         let participant_tar := mkParticipant tar_id tar_name in
         seq <- lift (Sequence.add_participant seq participant_tar) ;;
         ret (seq, Some participant_tar)
       else ret (seq, None)) ;;
    step_id <- lift (py_getitem v (VStr "id")) ;;
    step_type <- lift (py_getitem v (VStr "type")) ;;
    step_description <- lift (py_getitem v (VStr "description")) ;;
    let interaction :=
      mkInteraction step_id step_type step_description
        (participant_id participant_ori)
        (match participant_tar with
         | Some p => participant_id p
         | None => VNone
         end) in
    ret (Sequence.add_sequence_step seq interaction).

(** Line 529: the steps in the order of their [index]. *)
Definition sorted_steps (flow : value) : result (list (string * value)) :=
  (steps <-- py_getitem flow (VStr "steps") ;
   items <-- py_items steps ;
   py_sorted (fun item => py_getitem (snd item) (VStr "index")) items)%result.

(** Lines 527-553 of [main] for a fetched [flow]: the sequence built. *)
Definition build_sequence (net : network) (flow : value) : M MermaidSequence :=
  name <- lift (py_getitem flow (VStr "name")) ;;
  let seq := Sequence.new name in
  steps <- lift (sorted_steps flow) ;;
  for_each (place_step net flow) steps seq.


(** ** Vocabulary of the properties *)

(** The parent a node is attached to by [generate]: its [parent] field when
    that is truthy and a key of the node store. *)
Definition parent_of (ns : list (string * node)) (k : string) : option string :=
  match dict_lookup k ns with
  | Some n =>
      if truthy (node_parent n) then
        match key_in_dict (node_parent n) ns, node_parent n with
        | Ok true, VStr p => Some p
        | _, _ => None
        end
      else None
  | None => None
  end.

(** [ancestry ns k l]: [l] lists [k], its parent, the parent of that, and so
    on up to a node that [generate] makes a root. *)
Inductive ancestry (ns : list (string * node)) : string -> list string -> Prop :=
| ancestry_root k :
    dict_mem k ns = true -> parent_of ns k = None -> ancestry ns k [k]
| ancestry_child k p l :
    dict_mem k ns = true -> parent_of ns k = Some p -> ancestry ns p l ->
    ancestry ns k (k :: l).

(** Every child listed by a node is attached to that node. *)
Definition children_attached (ns : list (string * node)) : Prop :=
  forall k n c,
    dict_lookup k ns = Some n -> In c (node_children n) ->
    parent_of ns c = Some k.

(** The roots are nodes that are attached to no node. *)
Definition roots_detached (ns : list (string * node)) (roots : list string)
  : Prop :=
  forall r, In r roots -> dict_mem r ns = true /\ parent_of ns r = None.

(** The items still to visit are nodes of the store, with their parents. *)
Definition items_current (ns items : list (string * node)) : Prop :=
  forall k n,
    In (k, n) items ->
    exists n', dict_lookup k ns = Some n' /\ node_parent n' = node_parent n.

(** ** Sample services and inputs *)

(** A service that answers every request with status 404 and an empty JSON
    object. *)
Definition net_not_found : network :=
  fun _ _ => mkResponse 404 (Some (VDict [])).

(** A service whose diagram ["d1"] comes complete in the first response. *)
Definition net_complete : network :=
  fun _ req =>
    match req with
    | GetDiagram _ "" =>
        mkResponse 200
          (Some (VDict
             [("diagram",
               VDict [("objects",
                       VDict [("o1", VDict [("name", VStr "Orders")]);
                              ("o2", VDict [("name", VStr "Billing")])]);
                      ("relationships",
                       VList [VDict [("sourceId", VStr "o1");
                                     ("targetId", VStr "o2")]])])]))
    | _ => mkResponse 404 None
    end.

(** A step of a program changes the process state only by sending
    requests and by caching model objects: [diagram_cache] stays and the
    log of requests grows at its end. *)
Definition steady {A} (c : M A) : Prop :=
  forall w,
    diagram_cache (fst (c w)) = diagram_cache w /\
    exists sent, requests_log (fst (c w)) = requests_log w ++ sent.

(** *** Shapes of the diagram responses *)

Definition null_or_dict (v : value) : bool :=
  match v with
  | VNone | VDict _ => true
  | _ => false
  end.

Definition null_or_collection (v : value) : bool :=
  match v with
  | VNone | VList _ | VDict _ => true
  | _ => false
  end.

(** The entry of key [k], when there is one, satisfies [p]. *)
Definition entry (p : value -> bool) (d : list (string * value)) (k : string)
  : bool :=
  match dict_lookup k d with
  | Some v => p v
  | None => true
  end.

(** A diagram payload: an object whose [objects] is an object or null and
    whose [relationships] is an array, an object or null. *)
Definition payload_shaped (c : value) : bool :=
  match c with
  | VDict d => entry null_or_dict d "objects"
               && entry null_or_collection d "relationships"
  | _ => false
  end.

(** A response body the resolver handles without exception: a JSON object
    whose [diagram] and [diagramContent] entries are payloads and whose own
    [relationships] is an array, an object or null. *)
Definition well_shaped (b : value) : bool :=
  match b with
  | VDict d => entry payload_shaped d "diagram"
               && entry payload_shaped d "diagramContent"
               && entry null_or_collection d "relationships"
  | _ => false
  end.

(** Every response with status 200 to a request about diagram [id] has a
    well-shaped JSON body. *)
Definition answers_well_shaped (net : network) (id : value) : Prop :=
  forall log suffix,
    status_code (net log (GetDiagram (py_str id) suffix)) = 200%Z ->
    exists b, body (net log (GetDiagram (py_str id) suffix)) = Some b /\
              well_shaped b = true.

(** *** Model connections *)

(** The entry [k] of a JSON object, [None] when it is missing. *)
Definition field (v : value) (k : string) : value :=
  match v with
  | VDict d => match dict_lookup k d with Some x => x | None => VNone end
  | _ => VNone
  end.

(** The origin and the destination model id of a connection. *)
Definition conn_source (conn : value) : value :=
  py_or (field conn "originId") (field conn "sourceId").

Definition conn_target (conn : value) : value :=
  py_or (field conn "targetId") (field conn "destinationId").

(** A connection as the API documents it: a JSON object with hashable
    endpoint ids whose [diagrams] entry, when present, is an object. *)
Definition connection_shaped (conn : value) : bool :=
  match conn with
  | VDict d => entry is_dict d "diagrams"
               && hashable (conn_source conn) && hashable (conn_target conn)
  | _ => false
  end.

(** Both endpoints of the connection are model ids of the diagram. *)
Definition both_present (diagram_model_ids : list value) (conn : value) : bool :=
  existsb (py_eqb (conn_source conn)) diagram_model_ids
  && existsb (py_eqb (conn_target conn)) diagram_model_ids.

(** The first diagram object id mapped to the model id [m]. *)
Definition first_key (dia_to_model : list (string * value)) (m : value) : value :=
  match find (fun kv => py_eqb (snd kv) m) dia_to_model with
  | Some kv => VStr (fst kv)
  | None => VNone
  end.

(** The relationship synthesized for a connection. *)
Definition synthesized (dia_to_model : list (string * value)) (conn : value)
  : value :=
  VDict [("sourceId", first_key dia_to_model (conn_source conn));
         ("targetId", first_key dia_to_model (conn_target conn));
         ("label", field conn "name");
         ("modelId", field conn "id")].

(** *** Endpoints of relationships and links *)

(** The id is a key of [objects] or of the node store. *)
Definition known (objects : value) (ns : list (string * node)) (id : value)
  : Prop :=
  py_contains id objects = Ok true \/ key_in_dict id ns = Ok true.

(** The id is a key neither of [objects] nor of the node store. *)
Definition absent (objects : value) (ns : list (string * node)) (id : value)
  : Prop :=
  py_contains id objects = Ok false /\ key_in_dict id ns = Ok false.

(** Both ends of the link are nodes. *)
Definition both_nodes (ns : list (string * node)) (l : link) : bool :=
  match key_lookup (link_source l) ns, key_lookup (link_target l) ns with
  | Ok (Some _), Ok (Some _) => true
  | _, _ => false
  end.

(** The edge line of a link between two nodes. *)
Definition edge_line (ns : list (string * node)) (l : link) : string :=
  match key_lookup (link_source l) ns, key_lookup (link_target l) ns with
  | Ok (Some s), Ok (Some t) =>
      if truthy (link_label l)
      then tab +++ node_id s +++ " -->|" +++ py_str (link_label l)
               +++ "| " +++ node_id t +++ nl
      else tab +++ node_id s +++ " --> " +++ node_id t +++ nl
  | _, _ => EmptyString
  end.

(** *** Flows *)

(** The key of an item under the key function [key]. *)
Definition key_of {A : Type} (key : A -> result value) (a : A) : value :=
  match key a with
  | Ok v => v
  | Raise _ => VNone
  end.

(** [a <= b] for keys: [b < a] does not hold. *)
Definition key_le (a b : value) : Prop := key_ltb b a = false.

(** The key is a number. *)
Definition is_number (v : value) : bool :=
  match v with
  | VBool _ | VInt _ => true
  | _ => false
  end.

(** The key is a string. *)
Definition is_string (v : value) : bool :=
  match v with
  | VStr _ => true
  | _ => false
  end.

(** The keys are numbers, or they are strings. *)
Definition scalar_keys (keys : list value) : bool :=
  forallb is_number keys || forallb is_string keys.

(** The declared index of a step. *)
Definition step_index (step : string * value) : value :=
  key_of (fun item => py_getitem (snd item) (VStr "index")) step.











(** A flow of two steps, listed in the reverse of their index order: at
    index 0 a call from object ["X"] to object ["Y"], at index 1 a step of
    ["Y"] without target. *)
Definition flow_two_steps : value :=
  VDict
    [("name", VStr "Checkout");
     ("diagramId", VStr "d1");
     ("steps",
      VDict
        [("s2", VDict [("id", VStr "s2"); ("index", VInt 1);
                       ("type", VStr "self-action");
                       ("description", VStr "process");
                       ("originId", VStr "Y"); ("targetId", VNone)]);
         ("s1", VDict [("id", VStr "s1"); ("index", VInt 0);
                       ("type", VStr "outgoing");
                       ("description", VStr "call");
                       ("originId", VStr "X"); ("targetId", VStr "Y")])])].

(** A service with the diagram of that flow and the two model objects. *)
Definition net_flow : network :=
  fun _ req =>
    match req with
    | GetDiagram _ "" =>
        mkResponse 200
          (Some (VDict
             [("diagram",
               VDict [("objects",
                       VDict [("X", VDict [("modelId", VStr "mx")]);
                              ("Y", VDict [("modelId", VStr "my")])]);
                      ("relationships",
                       VList [VDict [("sourceId", VStr "X");
                                     ("targetId", VStr "Y")]])])]))
    | GetModelObject "mx" =>
        mkResponse 200
          (Some (VDict [("modelObject",
                         VDict [("id", VStr "mx"); ("name", VStr "Web")])]))
    | GetModelObject "my" =>
        mkResponse 200
          (Some (VDict [("modelObject",
                         VDict [("id", VStr "my"); ("name", VStr "Api")])]))
    | _ => mkResponse 404 None
    end.

(** *** The hierarchy pass *)

(** The object is rendered by the hierarchy pass: it is model-backed, or
    named, or a boundary, or styled. *)
Definition renderable (obj_data : value) : bool :=
  truthy (field obj_data "modelId") || truthy (field obj_data "name")
  || py_eqb (field obj_data "type") (VStr "boundary")
  || dict_has obj_data "style".

(** What [ensure_parent] does to the diagram for the parent id [p]: nothing,
    and then [p] is a node already unless it is empty or no key of the
    objects; or one node is added for [p], made from the entry of [p] in the
    objects, with the [parentId] of that entry as parent. *)
Definition ensured (od : list (string * value)) (p : value)
  (mdia mdia1 : MermaidDiagram) : Prop :=
  (mdia1 = mdia /\
   (truthy p = true -> key_in_dict p od = Ok true ->
    key_in_dict p (nodes mdia) = Ok true)) \/
  (exists ps p_data p_name p_parent,
      p = VStr ps /\ dict_mem ps (nodes mdia) = false /\
      dict_lookup ps od = Some p_data /\
      py_get p_data "parentId" VNone = Ok p_parent /\
      mdia1 = Diagram.add_node mdia ps p_name p_parent).

(** The loop invariant of the hierarchy pass, after the items [done]:
    every node is a diagram object; every renderable object of [done] is a
    node; and the parent of a node, when it is a key of the objects, is a
    node, unless the node was only made as the parent of another one and
    its own object is still to come or is not renderable. *)
Definition hierarchy_inv (od done : list (string * value))
  (mdia : MermaidDiagram) : Prop :=
  (forall n, dict_mem n (nodes mdia) = true -> dict_mem n od = true) /\
  (forall n data,
      In (n, data) done -> renderable data = true ->
      dict_mem n (nodes mdia) = true) /\
  (forall n nd,
      dict_lookup n (nodes mdia) = Some nd ->
      truthy (node_parent nd) = true ->
      key_in_dict (node_parent nd) od = Ok true ->
      key_in_dict (node_parent nd) (nodes mdia) = Ok true \/
      exists data,
        dict_lookup n od = Some data /\
        py_get data "parentId" VNone = Ok (node_parent nd) /\
        (In (n, data) done -> renderable data = false)).

(** The roots [generate] computes. *)
Definition roots_of (self : MermaidDiagram) : result (list string) :=
  snd (Diagram.build_children (Diagram.reset_children (nodes self))
                              (Diagram.reset_children (nodes self)) []).

(** A service with one model object, ["M1"], named "Service". *)
Definition net_service : network :=
  fun _ req =>
    match req with
    | GetModelObject "M1" =>
        mkResponse 200
          (Some (VDict [("modelObject",
                         VDict [("id", VStr "M1"); ("name", VStr "Service")])]))
    | _ => mkResponse 404 None
    end.

(** Three nested objects: ["C"] is model-backed and lies in ["P"], which
    lies in ["G"]; ["P"] and ["G"] carry no name, type or style. *)
Definition objects_nested : list (string * value) :=
  [("G", VDict []);
   ("P", VDict [("parentId", VStr "G")]);
   ("C", VDict [("modelId", VStr "M1"); ("parentId", VStr "P")])].

(** A group "G" and a model-backed object in it. *)
Definition objects_grouped : list (string * value) :=
  [("A", VDict [("name", VStr "G")]);
   ("B", VDict [("modelId", VStr "M1"); ("parentId", VStr "A")])].

(** A service listing two model connections: one between the model objects
    ["M1"] and ["M2"], one from ["M1"] to a model object ["M9"]. *)
Definition net_connections : network :=
  fun _ req =>
    match req with
    | GetModelConnections =>
        mkResponse 200
          (Some (VDict
             [("modelConnections",
               VList [VDict [("id", VStr "c1"); ("name", VStr "uses");
                             ("originId", VStr "M1"); ("targetId", VStr "M2");
                             ("diagrams", VDict [])]; 
                      VDict [("id", VStr "c2"); ("name", VStr "calls");
                             ("originId", VStr "M1"); ("targetId", VStr "M9")]])]))
    | _ => mkResponse 404 None
    end.

(** A diagram with the node ["P"] made as a group. *)
Definition diagram_with_group : MermaidDiagram :=
  mkDiagram "d" [("P", mkNode "P" "Group" VNone [])] [].

(** ** [find_flow_by_name] and [find_diagram_by_name] *)

(** The loops at lines 308-311 and 328-331: the [id] of the first item
    whose [name] equals [name], [None] when there is none. *)
Fixpoint find_named (items : list value) (name : string) : result value :=
  match items with
  | [] => Ok VNone
  | item :: rest =>
      (n <-- py_getitem item (VStr "name") ;
       if py_eqb n (VStr name) then py_getitem item (VStr "id")
       else find_named rest name)%result
  end.

Definition find_flow_by_name (net : network) (name : string) : M value :=
  rflow <- requests_get net GetFlows ;;
  flows_json <- lift (response_json rflow) ;;
  flows <- lift (py_getitem flows_json (VStr "flows")) ;;
  items <- lift (py_iter flows) ;;
  lift (find_named items name).

Definition find_diagram_by_name (net : network) (name : string) : M value :=
  rdiagrams <- requests_get net GetDiagrams ;;
  if negb (Z.eqb (status_code rdiagrams) 200) then ret VNone
  else
    diagrams_json <- lift (response_json rdiagrams) ;;
    diagrams <- lift (py_get diagrams_json "diagrams" (VList [])) ;;
    items <- lift (py_iter diagrams) ;;
    lift (find_named items name).

(** ** [main] *)

(** What a run of [main] ends with: a message in red and a return, or the
    text printed, the name of the file written and the text written to it.
    The directory, the file system and the conversion command are outside
    the embedding. *)
Inductive outcome : Type :=
| Message (text : string)
| Written (printed : string) (file_name : string) (content : string).

Definition run_result : Type := (gen_error + outcome)%type.

(** Runs [c] and continues with [k]; an exception ends the run. *)
Definition and_then {A} (c : M A) (k : A -> world -> world * run_result)
  : world -> world * run_result :=
  fun w =>
    match c w with
    | (w', Ok a) => k a w'
    | (w', Raise e) => (w', inl (PyExn e))
    end.

Definition finish (r : run_result) : world -> world * run_result :=
  fun w => (w, r).

(** Lines 497-503: [print(mdia.generate())], then the file named after the
    diagram receives [mdia.generate()]. *)
Definition write_diagram (mdia : MermaidDiagram) (diagram_name : string)
  : run_result :=
  let (mdia1, printed) := Diagram.generate mdia in
  match printed with
  | inl e => inl e
  | inr text =>
      let filename := create_file_name diagram_name "mmd" in
      match snd (Diagram.generate mdia1) with
      | inl e => inl e
      | inr content => inr (Written text filename content)
      end
  end.

(** Lines 553-560. *)
Definition write_sequence (seq : MermaidSequence) (flow_name : string)
  : run_result :=
  inr (Written (Sequence.generate seq) (create_file_name flow_name "mmd")
               (Sequence.generate seq)).

(** Lines 349-508: the diagram mode. *)
Definition main_diagram (net : network) (diagram_name : string)
  : world -> world * run_result :=
  and_then (find_diagram_by_name net diagram_name) (fun dia_id =>
    if is_none dia_id
    then finish (inr (Message ("Unable to find diagram [" +++ diagram_name
                               +++ "]")))
    else
      and_then (build_diagram net dia_id diagram_name) (fun built =>
        match built with
        | None => finish (inr (Message "Unable to fetch diagram data"))
        | Some mdia => finish (write_diagram mdia diagram_name)
        end)).

(** Lines 514-560: the flow mode for a flow name. *)
Definition main_flow (net : network) (flow_name : string)
  : world -> world * run_result :=
  and_then (find_flow_by_name net flow_name) (fun flow_id =>
    if is_none flow_id
    then finish (inr (Message ("Unable to find flow [" +++ flow_name +++ "]")))
    else
      and_then (requests_get net (GetFlow (py_str flow_id))) (fun rflow =>
        and_then
          (if negb (Z.eqb (status_code rflow) 200) then ret true
           else
             flow_json <- lift (response_json rflow) ;;
             has_flow <- lift (py_contains (VStr "flow") flow_json) ;;
             ret (negb has_flow))
          (fun missing =>
             if missing then
               and_then (lift (response_json rflow)) (fun flow_json =>
                 finish (inr (Message ("Unable to find flow ["
                                       +++ py_str flow_json +++ "]"))))
             else
               and_then
                 (flow_json <- lift (response_json rflow) ;;
                  flow <- lift (py_getitem flow_json (VStr "flow")) ;;
                  build_sequence net flow)
                 (fun seq => finish (write_sequence seq flow_name))))).

(** [main(flow_name, diagram_name, ...)]: a non-empty diagram name selects
    the diagram mode. *)
Definition main (net : network) (flow_name diagram_name : option string)
  : world -> world * run_result :=
  match diagram_name with
  | Some dn =>
      if negb (String.eqb dn EmptyString) then main_diagram net dn
      else
        match flow_name with
        | None => finish (inr (Message
                    "Please provide --flow-name or --diagram-name"))
        | Some fn => main_flow net fn
        end
  | None =>
      match flow_name with
      | None => finish (inr (Message
                  "Please provide --flow-name or --diagram-name"))
      | Some fn => main_flow net fn
      end
  end.

(** *** Footprints of programs *)

(** The entries of [model_objects] that exist before the program are the
    same after it. *)
Definition keeps_cache {A} (c : M A) : Prop :=
  forall w id v,
    vdict_lookup id (model_objects w) = Some v ->
    vdict_lookup id (model_objects (fst (c w))) = Some v.

(** The program only appends requests satisfying [P] to the log. *)
Definition sends_only {A} (P : request -> Prop) (c : M A) : Prop :=
  forall w,
    exists sent,
      requests_log (fst (c w)) = requests_log w ++ sent /\ Forall P sent.

Definition is_model_request (r : request) : bool :=
  match r with
  | GetModelObject _ => true
  | _ => false
  end.

(** The keys of the cache of model objects are strings. *)
Definition string_keys (cache : list (value * value)) : bool :=
  forallb (fun kv => match fst kv with VStr _ => true | _ => false end) cache.

(** Since the log was [base] and as long as the cached ids are strings, no
    model object was requested twice, and every model object requested is
    cached. *)
Definition fetched_once (base : list request) (w : world) : Prop :=
  exists sent,
    requests_log w = base ++ sent /\
    (string_keys (model_objects w) = true ->
     NoDup (filter is_model_request sent) /\
     forall id, In (GetModelObject id) sent ->
                vdict_lookup (VStr id) (model_objects w) <> None).

(** The program keeps [I] whenever it ends without exception. *)
Definition on_success {A} (I : world -> Prop) (c : M A) : Prop :=
  forall w w' a, I w -> c w = (w', Ok a) -> I w'.

(** The same for a whole run of [main]. *)
Definition run_keeps_cache (r : world -> world * run_result) : Prop :=
  forall w id v,
    vdict_lookup id (model_objects w) = Some v ->
    vdict_lookup id (model_objects (fst (r w))) = Some v.

Definition run_on_success (I : world -> Prop)
  (r : world -> world * run_result) : Prop :=
  forall w w' o, I w -> r w = (w', inr o) -> I w'.

(** The sub-resources of a diagram, in the order they are requested. *)
Definition sub_resource_suffixes : list string := map fst sub_resources.

(** The request for the diagram followed by the requests for the first [n]
    of its sub-resources. *)
Definition diagram_requests (id : value) (n : nat) : list request :=
  GetDiagram (py_str id) ""
  :: map (GetDiagram (py_str id)) (firstn n sub_resource_suffixes).


(** *** Vocabulary for the searches by name *)

(** The item's [name] is [name]. *)
Definition named (name : string) (item : value) : Prop :=
  py_getitem item (VStr "name") = Ok (VStr name).

(** The item has a [name], and it is not [name]. *)
Definition named_otherwise (name : string) (item : value) : Prop :=
  exists n, py_getitem item (VStr "name") = Ok n /\
            py_eqb n (VStr name) = false.

(** The world after the requests [reqs] have been sent, the caches being as
    they were. *)
Definition sent (w : world) (reqs : list request) : world :=
  mkWorld (model_objects w) (diagram_cache w) (requests_log w ++ reqs).

(** The command line selects the flow mode: no diagram name, or an empty
    one. *)
Definition flow_mode (diagram_name : option string) : Prop :=
  diagram_name = None \/ diagram_name = Some EmptyString.

(** *** Vocabulary for the runs of [main] *)

(** The name the output file is made from: the diagram's in the diagram
    mode, the flow's in the flow mode. *)
Definition output_name (flow_name diagram_name : option string)
  : option string :=
  match diagram_name with
  | Some dn => if negb (String.eqb dn EmptyString) then Some dn else flow_name
  | None => flow_name
  end.

(** No two nodes of the diagram under one key. *)
Definition keys_distinct (mdia : MermaidDiagram) : Prop :=
  NoDup (dict_keys (nodes mdia)).

(** The same for a whole run of [main]. *)
Definition run_sends_only (P : request -> Prop)
  (r : world -> world * run_result) : Prop :=
  forall w,
    exists sent,
      requests_log (fst (r w)) = requests_log w ++ sent /\ Forall P sent.

(** The requests of the diagram mode: everything but the flows. *)
Definition diagram_mode_request (r : request) : bool :=
  match r with
  | GetFlows | GetFlow _ => false
  | _ => true
  end.

(** The requests of the flow mode: the flows, single diagrams and model
    objects. *)
Definition flow_mode_request (r : request) : bool :=
  match r with
  | GetDiagrams | GetModelConnections => false
  | _ => true
  end.

(** *** Vocabulary for the sequences built by [main] *)

(** The id is the key of a declared participant. *)
Definition declared (seq : MermaidSequence) (id : value) : Prop :=
  vdict_mem id (participants seq) = Ok true.

(** Every arrow starts at a declared participant and, when it has a target,
    ends at one. *)
Definition arrows_declared (seq : MermaidSequence) : Prop :=
  Forall (fun i => declared seq (source_id i) /\
                   (target_id i = VNone \/ declared seq (target_id i)))
         (sequence_steps seq).

(** Every participant is stored under its own id, and no id equal to the id
    of an earlier participant is declared again. *)
Definition declared_once (seq : MermaidSequence) : Prop :=
  forall pre k p post,
    participants seq = pre ++ (k, p) :: post ->
    participant_id p = k /\ vdict_lookup k pre = None.

(** *** Vocabulary for the order of the hierarchy pass *)

(** The diagram object refers to a model object. *)
Definition model_backed (obj_data : value) : bool :=
  truthy (field obj_data "modelId").

(** The map from diagram object id to model id: the model-backed objects
    of the diagram, in their order, each with its [modelId]. *)
Definition model_ids_of (od : list (string * value))
  : list (string * value) :=
  map (fun kv => (fst kv, field (snd kv) "modelId"))
      (filter (fun kv => model_backed (snd kv)) od).

(** The relationships inferred for a diagram with the objects [od] from
    the model connections [conns]. *)
Definition inferred_relationships (od : list (string * value))
  (conns : list value) : list value :=
  map (synthesized (model_ids_of od))
      (filter (both_present (dict_values (model_ids_of od))) conns).

(** The items of the list whose key equals [k], in the order of the
    list. *)
Definition with_key {A : Type} (key : A -> result value) (k : value)
  (l : list A) : list A :=
  filter (fun a => py_eqb (key_of key a) k) l.

(** *** Vocabulary for the nesting computed by [generate] *)

(** The places given to nodes: the roots, then the children lists of the
    node store. *)
Definition placed (ns : list (string * node)) (roots : list string)
  : list string :=
  roots ++ flat_map (fun kn => node_children (snd kn)) ns.

(** *** Vocabulary for the sanitized fields of a node *)

(** The characters [add_node] keeps in an id. *)
Definition id_char (c : ascii) : bool := isalnum c || Ascii.eqb c "_"%char.

(** *** Vocabulary for the labels of links *)

(** The label a relationship carries itself: its [label], else its
    [name]. *)
Definition own_label (rel : value) : value :=
  py_or (field rel "label") (field rel "name").

(** *** A sample landscape *)

(** A service with four diagrams, two of them named "Overview", and three
    flows, two of them named "Checkout".  The diagram ["d1"] comes complete,
    its relationships keyed by id; the diagram ["d2"] comes with objects
    only; the diagram ["d9"] is listed and not served.  The flow ["f1"] is
    [flow_two_steps]; the flow ["f2"] is listed and not served. *)
Definition net_landscape : network :=
  fun _ req =>
    match req with
    | GetDiagrams =>
        mkResponse 200
          (Some (VDict
             [("diagrams",
               VList [VDict [("id", VStr "d0"); ("name", VStr "Context")];
                      VDict [("id", VStr "d1"); ("name", VStr "Overview")];
                      VDict [("id", VStr "d2"); ("name", VStr "Overview")];
                      VDict [("id", VStr "d9"); ("name", VStr "Archive")]])]))
    | GetDiagram "d1" "" =>
        mkResponse 200
          (Some (VDict
             [("diagram",
               VDict [("objects",
                       VDict [("X", VDict [("modelId", VStr "mx")]);
                              ("Y", VDict [("modelId", VStr "my")])]);
                      ("relationships",
                       VDict [("r1", VDict [("sourceId", VStr "X");
                                            ("targetId", VStr "Y");
                                            ("label", VStr "calls")])])])]))
    | GetDiagram "d2" "" =>
        mkResponse 200
          (Some (VDict
             [("diagram",
               VDict [("objects",
                       VDict [("X", VDict [("name", VStr "Shop")])])])]))
    | GetModelObject "mx" =>
        mkResponse 200
          (Some (VDict [("modelObject",
                         VDict [("id", VStr "mx"); ("name", VStr "Web")])]))
    | GetModelObject "my" =>
        mkResponse 200
          (Some (VDict [("modelObject",
                         VDict [("id", VStr "my"); ("name", VStr "Api")])]))
    | GetFlows =>
        mkResponse 200
          (Some (VDict
             [("flows",
               VList [VDict [("id", VStr "f2"); ("name", VStr "Refund")];
                      VDict [("id", VStr "f1"); ("name", VStr "Checkout")];
                      VDict [("id", VStr "f3"); ("name", VStr "Checkout")]])]))
    | GetFlow "f1" =>
        mkResponse 200 (Some (VDict [("flow", flow_two_steps)]))
    | GetFlow "f2" =>
        mkResponse 404 (Some (VDict [("message", VStr "gone")]))
    | _ => mkResponse 404 None
    end.

(** The steps of a flow whose indexes are strings, listed in the reverse of
    their order. *)
Definition flow_lettered : value :=
  VDict [("steps",
          VDict [("s1", VDict [("index", VStr "b")]);
                 ("s2", VDict [("index", VStr "a")])])].

(** The objects of a diagram with the model-backed object listed before
    its group. *)
Definition objects_model_first : list (string * value) :=
  [("B", VDict [("modelId", VStr "M1"); ("parentId", VStr "A")]);
   ("A", VDict [("name", VStr "G")])].

(** A relationship that carries a name and refers to a model connection. *)
Definition relationship_named : value :=
  VDict [("sourceId", VStr "o1"); ("targetId", VStr "o2");
         ("name", VStr "uses"); ("modelId", VStr "c1")].

(** *** Vocabulary for the parent of a model-backed node *)

(** The parent a model-backed object is placed under: the [parentId] of
    the diagram object when it has one; else the first diagram object that
    stands for the parent of the model object; else none. *)
Definition resolved_parent (dia_to_model : list (string * value))
  (parent_dia_id model_obj : value) : value :=
  if truthy parent_dia_id then parent_dia_id
  else
    match model_obj with
    | VDict md =>
        match dict_lookup "parentId" md with
        | Some p_struct =>
            match find (fun kv => py_eqb (snd kv) p_struct) dia_to_model with
            | Some kv => VStr (fst kv)
            | None => parent_dia_id
            end
        | None => parent_dia_id
        end
    | _ => parent_dia_id
    end.

(** *** Vocabulary for the nodes of the hierarchy pass *)

(** The name of a node made for a parent from its entry in the objects
    (lines 455 and 474): the entry's [name], "Group" when it has none. *)
Definition parent_name (p_data : value) : value :=
  match p_data with
  | VDict d =>
      match dict_lookup "name" d with
      | Some v => v
      | None => VStr "Group"
      end
  | _ => VNone
  end.

(** The name of the node of an object without model object (lines
    463-468): its [name], "Group" when that is empty. *)
Definition group_name (obj_data : value) : value :=
  if truthy (field obj_data "name") then field obj_data "name"
  else VStr "Group".

(** What the lines 452-456 and 473-474 do for the parent id [p]: nothing,
    when [p] is empty, a node already or no key of the objects; else one
    node is added for [p], made from the entry of [p] in the objects, with
    the name and the [parentId] of that entry. *)
Definition parent_made (od : list (string * value)) (p : value)
  (mdia mdia1 : MermaidDiagram) : Prop :=
  (mdia1 = mdia /\
   (truthy p = false \/ key_in_dict p (nodes mdia) = Ok true \/
    key_in_dict p od = Ok false)) \/
  (exists ps p_data p_name,
      p = VStr ps /\ dict_mem ps (nodes mdia) = false /\
      dict_lookup ps od = Some p_data /\
      parent_name p_data = VStr p_name /\
      mdia1 = Diagram.add_node mdia ps p_name (field p_data "parentId")).

(** The node of an object as the pass makes it from the object's own
    entry: its parent is the [parentId] of the entry and its name is the
    entry's name or "Group". *)
Definition plain_node (n : string) (obj_data : value) (nd : node) : Prop :=
  node_id nd = Diagram.safe_id n /\
  node_parent nd = field obj_data "parentId" /\
  node_children nd = [] /\
  exists s,
    node_name nd = Diagram.safe_name s /\
    (group_name obj_data = VStr s \/ parent_name obj_data = VStr s).

(** The node of a model-backed object: it has the name of the model object
    cached for its [modelId], and the parent resolved from the diagram
    object and the model object. *)
Definition model_node (dia_to_model : list (string * value)) (w : world)
  (n : string) (obj_data : value) (nd : node) : Prop :=
  exists m s,
    vdict_lookup (field obj_data "modelId") (model_objects w) = Some m /\
    py_getitem m (VStr "name") = Ok (VStr s) /\
    nd = mkNode (Diagram.safe_id n) (Diagram.safe_name s)
                (resolved_parent dia_to_model (field obj_data "parentId") m)
                [].

(** The nodes of the hierarchy pass after the objects [done], the objects
    [rest] being still to come: the node of a model-backed object of [done]
    is its model node, and every other node is a plain node. *)
Definition nodes_inv (od dia_to_model done rest : list (string * value))
  (w : world) (mdia : MermaidDiagram) : Prop :=
  (forall n kd,
      In (n, kd) done -> model_backed kd = true ->
      exists nd, dict_lookup n (nodes mdia) = Some nd /\
                 model_node dia_to_model w n kd nd) /\
  (forall n nd kd,
      dict_lookup n (nodes mdia) = Some nd ->
      dict_lookup n od = Some kd ->
      model_backed kd = false \/ In (n, kd) rest ->
      plain_node n kd nd).

(** The parent of a model-backed object in terms of the objects of the
    diagram: the [parentId] of the diagram object when it has one; else the
    first object of the diagram, in the order of its objects, whose model
    object is the parent of this model object; else none. *)
Definition structural_parent (od : list (string * value))
  (parent_dia_id model_obj : value) : value :=
  if truthy parent_dia_id then parent_dia_id
  else
    match model_obj with
    | VDict md =>
        match dict_lookup "parentId" md with
        | Some p_struct =>
            match find (fun kv => model_backed (snd kv)
                                  && py_eqb (field (snd kv) "modelId") p_struct)
                       od with
            | Some kv => VStr (fst kv)
            | None => parent_dia_id
            end
        | None => parent_dia_id
        end
    | _ => parent_dia_id
    end.
(** * Properties *)

(** ** File names *)

Section FileNames.

Lemma chars_join (l : list ascii) : chars (join l) = l.
Proof. apply list_ascii_of_string_of_list_ascii. Qed.

Lemma kept_space_only (c : ascii) :
  kept c = true -> isspace c = true -> c = " "%char.
Proof.
  destruct c as [[|] [|] [|] [|] [|] [|] [|] [|]]; vm_compute;
    intros Hk Hs; try reflexivity; discriminate.
Qed.

(** [rstrip] removes a suffix of whitespace and leaves no whitespace at the
    end. *)
Lemma rstrip_chars_split (l : list ascii) :
  exists ws,
    l = rstrip_chars l ++ ws /\
    Forall (fun c => isspace c = true) ws /\
    (forall s c, rstrip_chars l = s ++ [c] -> isspace c = false).
Proof.
  induction l as [|c r IH]; simpl.
  - exists []. split; [reflexivity | split; [constructor|]].
    intros [|? ?] ? H; discriminate.
  - destruct IH as (ws & Hr & Hws & Hlast).
    destruct (rstrip_chars r) as [|a r'] eqn:E.
    + simpl in Hr. subst r. destruct (isspace c) eqn:Hc.
      * exists (c :: ws). split; [reflexivity | split; [now constructor|]].
        intros [|? ?] ? H; discriminate.
      * exists ws. split; [reflexivity | split; [assumption|]].
        intros [|x s] c' H; simpl in H.
        -- now inversion H; subst.
        -- inversion H as [[Hx Hs]]. destruct s; discriminate.
    + exists ws. split; [|split; [assumption|]].
      * simpl. now rewrite Hr at 1.
      * intros [|x s] c' H; simpl in H; [discriminate|].
        inversion H as [[Hx Hs]]. now apply (Hlast s c').
Qed.

Lemma all_spaces (ws : list ascii) :
  Forall (fun c => c = " "%char) ws -> ws = repeat " "%char (List.length ws).
Proof.
  induction 1 as [|c ws Hc _ IH]; simpl; [reflexivity|].
  now rewrite Hc, <- IH.
Qed.

End FileNames.

(** C9 (as amended).  [create_file_name] keeps exactly the alphanumeric
    characters, spaces, periods and underscores of the name, in order, then
    drops the spaces left at the end of that filtered name, and appends a
    period and the extension: the filtered name is [stem] followed by [n]
    spaces, [stem] does not end with a space, and the result is
    [stem.extension]. *)
Theorem create_file_name_strips_and_appends (filename extension : string) :
  exists (stem : list ascii) (n : nat),
    filter kept (chars filename) = stem ++ repeat " "%char n /\
    (forall s, stem <> s ++ [" "%char]) /\
    create_file_name filename extension = join stem +++ "." +++ extension.
Proof.
  unfold create_file_name, rstrip. rewrite chars_join.
  set (l := filter kept (chars filename)).
  destruct (rstrip_chars_split l) as (ws & Hl & Hws & Hlast).
  exists (rstrip_chars l), (List.length ws). repeat split.
  - rewrite <- all_spaces; [exact Hl|].
    rewrite Forall_forall in *. intros c Hc.
    apply kept_space_only; [|now apply Hws].
    assert (Hin : In c l) by (rewrite Hl; apply in_or_app; now right).
    unfold l in Hin. now apply filter_In in Hin.
  - intros s Hs. now specialize (Hlast s " "%char Hs).
Qed.

(** C9 (as stated) fails: a space is one of the kept characters, yet the
    name ["a "] does not keep it. *)
Lemma create_file_name_drops_trailing_space :
  create_file_name "a " "mmd" = "a.mmd" /\
  create_file_name "a " "mmd" <> join (filter kept (chars "a ")) +++ "." +++ "mmd".
Proof. split; [reflexivity | vm_compute; discriminate]. Qed.

(** ** Dictionaries *)

Section DictFacts.

Context {A : Type}.
Implicit Types (d : list (string * A)) (k : string) (v : A).

Lemma dict_lookup_set_same d k v : dict_lookup k (dict_set k v d) = Some v.
Proof.
  induction d as [|[k' v'] r IH]; simpl.
  - now rewrite String.eqb_refl.
  - destruct (String.eqb k k') eqn:E; simpl; rewrite E; auto.
Qed.

Lemma dict_lookup_set_other d k k' v :
  k' <> k -> dict_lookup k' (dict_set k v d) = dict_lookup k' d.
Proof.
  intros Hne. induction d as [|[k0 v0] r IH]; simpl.
  - destruct (String.eqb_spec k' k); [contradiction | reflexivity].
  - destruct (String.eqb_spec k k0) as [->|Hk]; simpl.
    + destruct (String.eqb_spec k' k0); [contradiction | reflexivity].
    + now rewrite IH.
Qed.

Lemma dict_keys_set_present d k v :
  dict_mem k d = true -> dict_keys (dict_set k v d) = dict_keys d.
Proof.
  unfold dict_mem, dict_keys. induction d as [|[k0 v0] r IH]; simpl.
  - discriminate.
  - destruct (String.eqb k k0) eqn:E; simpl; [reflexivity|].
    intros H. now rewrite IH.
Qed.

Lemma dict_keys_set_absent d k v :
  dict_mem k d = false -> dict_keys (dict_set k v d) = dict_keys d ++ [k].
Proof.
  unfold dict_mem, dict_keys. induction d as [|[k0 v0] r IH]; simpl.
  - reflexivity.
  - destruct (String.eqb k k0) eqn:E; simpl; [discriminate|].
    intros H. now rewrite IH.
Qed.

Lemma dict_mem_In d k : dict_mem k d = true <-> In k (dict_keys d).
Proof.
  unfold dict_mem, dict_keys. induction d as [|[k0 v0] r IH]; simpl.
  - split; [discriminate | contradiction].
  - destruct (String.eqb_spec k k0) as [->|Hk].
    + split; auto.
    + rewrite IH. split; [auto | intros [H|H]; [congruence | exact H]].
Qed.

Lemma dict_mem_set d k k' v :
  dict_mem k' (dict_set k v d) = String.eqb k' k || dict_mem k' d.
Proof.
  unfold dict_mem. destruct (String.eqb_spec k' k) as [->|Hk]; simpl.
  - now rewrite dict_lookup_set_same.
  - now rewrite dict_lookup_set_other.
Qed.

Lemma dict_lookup_In d k v :
  NoDup (dict_keys d) -> In (k, v) d -> dict_lookup k d = Some v.
Proof.
  unfold dict_keys. induction d as [|[k0 v0] r IH]; simpl; [contradiction|].
  intros Hnd [H|H]; inversion Hnd as [|? ? Hnot Hnd']; subst.
  - inversion H; subst. now rewrite String.eqb_refl.
  - destruct (String.eqb_spec k k0) as [->|Hk]; [|now apply IH].
    exfalso. apply Hnot. now apply (in_map fst) in H.
Qed.

Lemma dict_lookup_Some_In d k v : dict_lookup k d = Some v -> In (k, v) d.
Proof.
  induction d as [|[k0 v0] r IH]; simpl; [discriminate|].
  destruct (String.eqb_spec k k0) as [->|Hk].
  - intros H. inversion H. now left.
  - intros H. right. now apply IH.
Qed.

End DictFacts.

(** ** The state and error monad *)

Section MonadFacts.

Context {A B : Type}.

Lemma rbind_ok (r : result A) (k : A -> result B) (b : B) :
  rbind r k = Ok b -> exists a, r = Ok a /\ k a = Ok b.
Proof. destruct r as [a|e]; simpl; [eauto | discriminate]. Qed.

Lemma bind_ok (c : M A) (k : A -> M B) (w w' : world) (b : B) :
  bind c k w = (w', Ok b) ->
  exists a w1, c w = (w1, Ok a) /\ k a w1 = (w', Ok b).
Proof.
  unfold bind. destruct (c w) as [w1 [a|e]]; [eauto | discriminate].
Qed.

Lemma lift_ok (r : result A) (w w' : world) (a : A) :
  lift r w = (w', Ok a) -> w' = w /\ r = Ok a.
Proof. unfold lift. intros H. now inversion H. Qed.

Lemma ret_ok (a a' : A) (w w' : world) :
  ret a w = (w', Ok a') -> w' = w /\ a' = a.
Proof. unfold ret. intros H. now inversion H. Qed.

End MonadFacts.

(** Decomposes a successful run of a monadic program into its steps. *)
Ltac step_ok H :=
  lazymatch type of H with
  | bind _ _ _ = (_, Ok _) =>
      let a := fresh "v" in
      let w1 := fresh "w" in
      let H1 := fresh "Hc" in
      apply bind_ok in H; destruct H as (a & w1 & H1 & H);
      cbv beta in H; step_ok H1; step_ok H
  | lift _ _ = (_, Ok _) =>
      let E := fresh "Ew" in
      apply lift_ok in H; destruct H as [E H]; subst
  | ret _ _ = (_, Ok _) =>
      let E := fresh "Ew" in
      apply ret_ok in H; destruct H as [E H]; subst
  | rbind _ _ = Ok _ =>
      let a := fresh "v" in
      let H1 := fresh "Hc" in
      apply rbind_ok in H; destruct H as (a & H1 & H);
      cbv beta in H; step_ok H1; step_ok H
  | _ => idtac
  end.

(** ** Fields of JSON objects *)

Lemma py_get_field_ok x k v :
  py_get x k VNone = Ok v -> v = field x k /\ is_dict x = true.
Proof.
  destruct x; simpl; try discriminate. intros H. inversion H. auto.
Qed.

Lemma py_getitem_field v k x :
  py_getitem v (VStr k) = Ok x -> x = field v k.
Proof.
  destruct v as [|b|z|s|l|d]; simpl; try discriminate.
  destruct (dict_lookup k d); intros H; now inversion H.
Qed.

(** ** [MermaidDiagram.add_node] *)

Section AddNode.

Import Diagram.

Lemma add_node_lookup_same self id name parent_id :
  dict_lookup id (nodes (add_node self id name parent_id))
  = Some (mkNode (safe_id id) (safe_name name) parent_id []).
Proof. apply dict_lookup_set_same. Qed.

Lemma add_node_lookup_other self id name parent_id k :
  k <> id ->
  dict_lookup k (nodes (add_node self id name parent_id))
  = dict_lookup k (nodes self).
Proof. apply dict_lookup_set_other. Qed.

Lemma add_node_call_ok mdia id name parent_id mdia' :
  add_node_call mdia id name parent_id = Ok mdia' ->
  exists i n, id = VStr i /\ name = VStr n /\
              mdia' = add_node mdia i n parent_id.
Proof.
  unfold add_node_call.
  destruct id as [|b|z|i|l|d], name; try discriminate;
    try (destruct (forallb _ l); discriminate).
  intros H. inversion H. eauto.
Qed.

End AddNode.

(** C10.  [add_node] with an id that is already a key replaces the entry of
    that id by a fresh one (sanitized id, escaped name, the given parent, no
    children) at the same position; the other entries and the links stay.
    Hence, when the object of such an id is model-backed and is processed by
    the hierarchy pass, its node carries the name of its model object,
    whatever an earlier synthesis from a child had written. *)
Theorem add_node_last_write_wins
  (self : MermaidDiagram) (id name : string) (parent_id : value) :
  dict_mem id (nodes self) = true ->
  let self' := Diagram.add_node self id name parent_id in
  dict_lookup id (nodes self')
  = Some (mkNode (Diagram.safe_id id) (Diagram.safe_name name) parent_id []) /\
  (forall k, k <> id -> dict_lookup k (nodes self') = dict_lookup k (nodes self)) /\
  dict_keys (nodes self') = dict_keys (nodes self) /\
  links self' = links self /\
  (forall net objects dia_to_model obj_data model_id w w' mdia',
      py_get obj_data "modelId" VNone = Ok model_id ->
      truthy model_id = true ->
      place_object net objects dia_to_model self (id, obj_data) w
      = (w', Ok mdia') ->
      exists model_obj model_name final_parent_id w1,
        get_model_object net model_id w = (w1, Ok model_obj) /\
        py_getitem model_obj (VStr "name") = Ok (VStr model_name) /\
        dict_lookup id (nodes mdia')
        = Some (mkNode (Diagram.safe_id id) (Diagram.safe_name model_name)
                       final_parent_id [])).
Proof.
  intros Hmem self'. subst self'.
  split; [apply add_node_lookup_same|].
  split; [intros k Hk; now apply add_node_lookup_other|].
  split; [now apply dict_keys_set_present|].
  split; [reflexivity|].
  intros net objects dia_to_model obj_data model_id w w' mdia' Hget Htruthy Hrun.
  unfold place_object in Hrun.
  step_ok Hrun. rewrite Hget in Hc. inversion Hc; subst v. clear Hc.
  rewrite Htruthy in Hrun. step_ok Hrun.
  apply add_node_call_ok in Hrun. destruct Hrun as (i & n & Hi & Hn & ->).
  inversion Hi; subst i. subst.
  eexists _, n, _, _. split; [eassumption|]. split; [assumption|].
  apply add_node_lookup_same.
Qed.

(** ** [MermaidDiagram.generate] *)

Section Generate.

Import Diagram.

Lemma reset_children_idem ns : reset_children (reset_children ns) = reset_children ns.
Proof.
  unfold reset_children. rewrite map_map. apply map_ext. now intros [k n].
Qed.

Lemma reset_children_set ns p pn cs :
  dict_lookup p ns = Some pn ->
  reset_children (dict_set p (set_children pn cs) ns) = reset_children ns.
Proof.
  induction ns as [|[k n] r IH]; simpl; [discriminate|].
  destruct (String.eqb p k) eqn:E; simpl.
  - intros H. inversion H. reflexivity.
  - intros H. now rewrite IH.
Qed.

Lemma reset_children_append_child parent child ns :
  reset_children (append_child parent child ns) = reset_children ns.
Proof.
  unfold append_child. destruct parent; try reflexivity.
  destruct (dict_lookup s ns) eqn:E; [|reflexivity].
  now apply reset_children_set.
Qed.

Lemma build_children_reset items ns roots :
  reset_children (fst (build_children items ns roots)) = reset_children ns.
Proof.
  revert ns roots.
  induction items as [|[k n] rest IH]; intros ns roots; simpl; [reflexivity|].
  destruct (truthy (node_parent n)); [|apply IH].
  destruct (key_in_dict (node_parent n) ns) as [[|]|e]; simpl.
  - rewrite IH. apply reset_children_append_child.
  - apply IH.
  - reflexivity.
Qed.

Lemma generate_fst self :
  fst (generate self)
  = with_nodes self
      (fst (build_children (reset_children (nodes self))
                           (reset_children (nodes self)) [])).
Proof.
  unfold generate.
  destruct (build_children _ _ _) as [ns1 [roots|e]]; simpl; [|reflexivity].
  destruct (render_roots _ _ _); [|reflexivity].
  destruct (render_links _ _); reflexivity.
Qed.

Lemma generate_again self : generate (fst (generate self)) = generate self.
Proof.
  rewrite generate_fst.
  unfold generate at 1. simpl nodes. simpl links.
  rewrite build_children_reset, reset_children_idem.
  unfold generate.
  destruct (build_children _ _ []) as [ns1 [roots|e]]; simpl; [|reflexivity].
  destruct (render_roots _ _ _); [|reflexivity].
  destruct (render_links _ _); reflexivity.
Qed.

End Generate.

(** *** The recursion of [render_node] ends *)

Section Ancestry.

Variable ns : list (string * node).

Lemma ancestry_head k l : ancestry ns k l -> exists t, l = k :: t.
Proof. destruct 1; eauto. Qed.

Lemma ancestry_functional k l1 :
  ancestry ns k l1 -> forall l2, ancestry ns k l2 -> l1 = l2.
Proof.
  induction 1 as [k Hk Hp | k p l Hk Hp Hl IH]; intros l2 H2;
    inversion H2; subst; try congruence.
  f_equal. apply IH. congruence.
Qed.

Lemma ancestry_suffix k l :
  ancestry ns k l ->
  forall l1 k' l2, l = l1 ++ k' :: l2 -> ancestry ns k' (k' :: l2).
Proof.
  induction 1 as [k Hk Hp | k p l Hk Hp Hl IH]; intros l1 k' l2 E.
  - destruct l1 as [|x [|y l1]]; simpl in E; inversion E; subst.
    now constructor.
  - destruct l1 as [|x l1]; simpl in E; inversion E; subst.
    + now apply ancestry_child with p.
    + now apply (IH l1).
Qed.

Lemma ancestry_NoDup k l : ancestry ns k l -> NoDup l.
Proof.
  induction 1 as [k Hk Hp | k p l Hk Hp Hl IH].
  - constructor; [intros [] | constructor].
  - constructor; [|assumption].
    intros Hin. apply in_split in Hin. destruct Hin as (a & b & E).
    assert (H1 : ancestry ns k (k :: b)) by now apply (ancestry_suffix p l Hl a).
    assert (H2 : ancestry ns k (k :: l)) by now apply ancestry_child with p.
    pose proof (ancestry_functional _ _ H1 _ H2) as E'.
    injection E' as Eb. rewrite E in Eb.
    apply (f_equal (@List.length string)) in Eb.
    rewrite length_app in Eb. simpl in Eb. lia.
Qed.

Lemma ancestry_keys k l : ancestry ns k l -> incl l (dict_keys ns).
Proof.
  induction 1 as [k Hk Hp | k p l Hk Hp Hl IH]; intros x [<-|Hx].
  - now apply dict_mem_In.
  - contradiction.
  - now apply dict_mem_In.
  - now apply IH.
Qed.

Lemma ancestry_length k l : ancestry ns k l -> List.length l <= List.length ns.
Proof.
  intros H. replace (List.length ns) with (List.length (dict_keys ns))
    by apply length_map.
  apply NoDup_incl_length; [now apply ancestry_NoDup with k | now apply ancestry_keys with k].
Qed.

End Ancestry.

Section BuildChildren.

Import Diagram.

Lemma append_child_lookup parent c ns k :
  match dict_lookup k (append_child parent c ns), dict_lookup k ns with
  | Some n', Some n =>
      node_parent n' = node_parent n /\
      forall x, In x (node_children n') ->
                In x (node_children n) \/ (x = c /\ parent = VStr k)
  | None, None => True
  | _, _ => False
  end.
Proof.
  assert (Hsame : match dict_lookup k ns, dict_lookup k ns with
                  | Some n', Some n =>
                      node_parent n' = node_parent n /\
                      forall x, In x (node_children n') ->
                        In x (node_children n) \/ (x = c /\ parent = VStr k)
                  | None, None => True
                  | _, _ => False
                  end)
    by (destruct (dict_lookup k ns); auto).
  unfold append_child. destruct parent as [|b|z|p|l|d]; try exact Hsame.
  destruct (dict_lookup p ns) as [pn|] eqn:Ep; [|exact Hsame].
  destruct (String.eqb_spec k p) as [->|Hk].
  - rewrite dict_lookup_set_same, Ep. split; [reflexivity|].
    simpl. intros x Hx. apply in_app_or in Hx.
    destruct Hx as [Hx|[<-|[]]]; auto.
  - rewrite dict_lookup_set_other by assumption. exact Hsame.
Qed.

Lemma append_child_mem parent c ns k :
  dict_mem k (append_child parent c ns) = dict_mem k ns.
Proof.
  pose proof (append_child_lookup parent c ns k) as H. unfold dict_mem.
  destruct (dict_lookup k (append_child parent c ns)), (dict_lookup k ns);
    tauto.
Qed.

Lemma append_child_length parent c ns :
  List.length (append_child parent c ns) = List.length ns.
Proof.
  unfold append_child. destruct parent; try reflexivity.
  destruct (dict_lookup s ns) as [pn|] eqn:Ep; [|reflexivity].
  rewrite <- !(length_map fst). fold (dict_keys ns).
  change (map fst ?d) with (dict_keys d).
  rewrite dict_keys_set_present; [reflexivity|].
  unfold dict_mem. now rewrite Ep.
Qed.

Lemma key_in_dict_append_child parent c ns v :
  key_in_dict v (append_child parent c ns) = key_in_dict v ns.
Proof.
  destruct v; simpl; try reflexivity. now rewrite append_child_mem.
Qed.

Lemma parent_of_append_child parent c ns k :
  parent_of (append_child parent c ns) k = parent_of ns k.
Proof.
  unfold parent_of.
  pose proof (append_child_lookup parent c ns k) as H.
  destruct (dict_lookup k (append_child parent c ns)) as [n'|],
           (dict_lookup k ns) as [n|]; try tauto.
  destruct H as [Hp _]. rewrite Hp, key_in_dict_append_child. reflexivity.
Qed.

Lemma key_in_dict_true {A} v (d : list (string * A)) :
  key_in_dict v d = Ok true -> exists p, v = VStr p /\ dict_mem p d = true.
Proof.
  destruct v; simpl; try discriminate. intros H. inversion H. eauto.
Qed.

Lemma build_children_invariant items :
  forall ns roots ns1 roots1,
    children_attached ns -> roots_detached ns roots -> items_current ns items ->
    build_children items ns roots = (ns1, Ok roots1) ->
    children_attached ns1 /\ roots_detached ns1 roots1 /\
    List.length ns1 = List.length ns.
Proof.
  induction items as [|[k n] rest IH]; intros ns roots ns1 roots1 Hc Hr Hi Hb;
    simpl in Hb.
  - inversion Hb; subst. auto.
  - destruct (Hi k n (or_introl eq_refl)) as (n' & Hk & Hp).
    assert (Hrest : items_current ns rest)
      by (intros k0 n0 H0; apply Hi; now right).
    assert (Hroot : parent_of ns k = None ->
                    roots_detached ns (roots ++ [k])).
    { intros Hnone r Hin. apply in_app_or in Hin.
      destruct Hin as [Hin|[<-|[]]]; [now apply Hr|].
      split; [unfold dict_mem; now rewrite Hk | assumption]. }
    destruct (truthy (node_parent n)) eqn:Ht.
    + destruct (key_in_dict (node_parent n) ns) as [[|]|e] eqn:Ein;
        [| |discriminate].
      * destruct (key_in_dict_true _ _ Ein) as (p & Ep & Hmem).
        specialize (IH (append_child (node_parent n) k ns) roots ns1 roots1).
        rewrite append_child_length in IH. apply IH; try assumption.
        -- intros k0 n0 c H0 Hin.
           rewrite parent_of_append_child.
           pose proof (append_child_lookup (node_parent n) k ns k0) as Hl.
           rewrite H0 in Hl.
           destruct (dict_lookup k0 ns) as [m|] eqn:Em; [|contradiction].
           destruct Hl as [_ Hl]. destruct (Hl c Hin) as [Hold|[-> Hnew]].
           ++ now apply (Hc k0 m).
           ++ unfold parent_of. rewrite Hk, Hp, Ht, Ein, Hnew. reflexivity.
        -- intros r Hin. rewrite append_child_mem, parent_of_append_child.
           now apply Hr.
        -- intros k0 n0 H0. destruct (Hrest k0 n0 H0) as (m & Hm & Hpm).
           pose proof (append_child_lookup (node_parent n) k ns k0) as Hl.
           rewrite Hm in Hl.
           destruct (dict_lookup k0 (append_child (node_parent n) k ns)) as [m'|];
             [|contradiction].
           exists m'. split; [reflexivity|]. destruct Hl as [Hl _]. congruence.
      * apply (IH ns (roots ++ [k])); try assumption.
        apply Hroot. unfold parent_of. now rewrite Hk, Hp, Ht, Ein.
    + apply (IH ns (roots ++ [k])); try assumption.
      apply Hroot. unfold parent_of. now rewrite Hk, Hp, Ht.
Qed.

Lemma render_all_some render ks :
  (forall k, In k ks -> render k <> None) -> render_all render ks <> None.
Proof.
  induction ks as [|k rest IH]; simpl; intros H; [discriminate|].
  pose proof (H k (or_introl eq_refl)) as Hk.
  assert (Hrest : render_all render rest <> None)
    by (apply IH; intros k' Hk'; apply H; now right).
  destruct (render k); [|contradiction].
  destruct (render_all render rest); [discriminate | contradiction].
Qed.

Lemma render_node_some ns :
  children_attached ns ->
  forall fuel k indent l,
    ancestry ns k l -> List.length ns < fuel + List.length l ->
    render_node fuel ns k indent <> None.
Proof.
  intros Hc. induction fuel as [|fuel IH]; intros k indent l Ha Hlen.
  - apply ancestry_length in Ha. simpl in Hlen. lia.
  - cbn [render_node].
    assert (Hk : dict_mem k ns = true) by (destruct Ha; assumption).
    unfold dict_mem in Hk.
    destruct (dict_lookup k ns) as [n|] eqn:En; [|discriminate].
    destruct (node_children n) as [|c cs] eqn:Ecs; [discriminate|].
    match goal with
    | |- match ?r with _ => _ end <> None =>
        assert (Hr : r <> None); [|destruct r; [discriminate | contradiction]]
    end.
    apply render_all_some. intros c' Hin.
    assert (Hp : parent_of ns c' = Some k)
      by (apply (Hc k n); [assumption | now rewrite Ecs]).
    apply IH with (l := c' :: l).
    + apply ancestry_child with k; [|assumption|assumption].
      unfold parent_of in Hp. unfold dict_mem.
      destruct (dict_lookup c' ns); [reflexivity | discriminate].
    + simpl. lia.
Qed.

Lemma reset_children_keys ns : dict_keys (reset_children ns) = dict_keys ns.
Proof. unfold dict_keys, reset_children. rewrite map_map. reflexivity. Qed.

Lemma reset_children_lookup ns k :
  dict_lookup k (reset_children ns)
  = option_map (fun n => set_children n []) (dict_lookup k ns).
Proof.
  induction ns as [|[k0 n0] r IH]; simpl; [reflexivity|].
  destruct (String.eqb k k0); [reflexivity | assumption].
Qed.

(** With distinct keys, [generate] never exhausts the fuel: it returns the
    text or raises a Python exception. *)
Lemma generate_fuel_suffices self :
  NoDup (dict_keys (nodes self)) -> snd (generate self) <> inl OutOfFuel.
Proof.
  intros Hnd. unfold generate.
  set (ns0 := reset_children (nodes self)).
  destruct (build_children ns0 ns0 []) as [ns1 [roots|e]] eqn:Eb; simpl;
    [|discriminate].
  assert (Hinv : children_attached ns1 /\ roots_detached ns1 roots /\
                 List.length ns1 = List.length ns0).
  { apply (build_children_invariant ns0 ns0 []); [| | |assumption].
    - intros k n c Hk Hin. unfold ns0 in Hk.
      rewrite reset_children_lookup in Hk.
      destruct (dict_lookup k (nodes self)); inversion Hk; subst.
      contradiction.
    - intros r [].
    - intros k n Hin. exists n. split; [|reflexivity].
      apply dict_lookup_In; [|assumption].
      unfold ns0. now rewrite reset_children_keys. }
  destruct Hinv as (Hc & Hr & Hlen).
  assert (Hsome : render_roots (List.length ns1) ns1 roots <> None).
  { apply render_all_some. intros r Hin. destruct (Hr r Hin) as [Hm Hp].
    apply render_node_some with (l := [r]); [assumption| |simpl; lia].
    now constructor. }
  destruct (render_roots (List.length ns1) ns1 roots); [|contradiction].
  destruct (render_links ns1 (links self)); discriminate.
Qed.

End BuildChildren.

(** C5.  Calling [generate] twice in succession gives the same outcome both
    times, the same text byte for byte (or the same exception), and leaves
    the same node store: the children lists are emptied and rebuilt from
    the parent fields by each call, never accumulated.  Whenever the keys
    are distinct, as in every Python dictionary, the outcome is the text or
    a Python exception: the recursion of [render_node] ends within the
    fuel. *)
Theorem generate_twice_same_text (self : MermaidDiagram) :
  snd (Diagram.generate (fst (Diagram.generate self)))
  = snd (Diagram.generate self) /\
  nodes (fst (Diagram.generate (fst (Diagram.generate self))))
  = nodes (fst (Diagram.generate self)) /\
  (NoDup (dict_keys (nodes self)) ->
   snd (Diagram.generate self) <> inl OutOfFuel).
Proof.
  rewrite generate_again. split; [reflexivity|]. split; [reflexivity|].
  apply generate_fuel_suffices.
Qed.

(** ** [get_model_object] *)

Section ModelObjects.

Lemma py_eqb_refl_hashable v : hashable v = true -> py_eqb v v = true.
Proof.
  destruct v; simpl; try discriminate; intros _.
  - reflexivity.
  - apply Bool.eqb_reflx.
  - apply Z.eqb_refl.
  - apply String.eqb_refl.
Qed.

Lemma vdict_lookup_set_same {A} key (v : A) d :
  hashable key = true -> vdict_lookup key (vdict_set key v d) = Some v.
Proof.
  intros Hh. induction d as [|[k0 v0] r IH]; simpl.
  - now rewrite py_eqb_refl_hashable.
  - destruct (py_eqb key k0) eqn:E; simpl; rewrite E; auto.
Qed.

Lemma py_eqb_None v : py_eqb VNone v = is_none v.
Proof. now destruct v. Qed.

Lemma vdict_lookup_None_set {A} key (v : A) d :
  is_none key = false ->
  vdict_lookup VNone d = None ->
  vdict_lookup VNone (vdict_set key v d) = None.
Proof.
  intros Hk. induction d as [|[k0 v0] r IH]; cbn [vdict_lookup vdict_set].
  - now rewrite py_eqb_None, Hk.
  - rewrite py_eqb_None. destruct (is_none k0) eqn:E0; [discriminate|].
    intros H. destruct (py_eqb key k0); cbn [vdict_lookup];
      rewrite py_eqb_None, E0; auto.
Qed.

(** [None] never becomes a key of [model_objects]. *)
Lemma get_model_object_None_uncached net id w :
  vdict_lookup VNone (model_objects w) = None ->
  vdict_lookup VNone (model_objects (fst (get_model_object net id w))) = None.
Proof.
  intros Hw. unfold get_model_object, bind, read, vdict_mem.
  destruct (hashable id); [|assumption].
  destruct (vdict_lookup id (model_objects w)); [assumption|].
  destruct (is_none id) eqn:En; [assumption|].
  unfold requests_get, lift, response_json, ret, store_model_object.
  simpl.
  destruct (body _) as [j|]; [|assumption].
  destruct (py_contains (VStr "modelObject") j) as [[|]|e]; simpl;
    try assumption.
  - destruct (py_getitem j (VStr "modelObject")); simpl; [|assumption].
    now apply vdict_lookup_None_set.
  - destruct (py_contains (VStr "id") j) as [[|]|e]; simpl; try assumption;
      now apply vdict_lookup_None_set.
Qed.

End ModelObjects.

(** C3 (as amended).  For the id [None] that is not cached (it never is),
    [get_model_object] returns [{id: None, name: "Unknown", type: "unknown"}]
    and sends no request.  For a hashable id other than [None] that is not
    cached, when the response body is JSON in which neither ["modelObject"]
    nor ["id"] is found, it sends one request and returns, and caches under
    the id, the object [{id, name: "Unknown Model Object", type: "unknown"}];
    it does not raise. *)
Theorem get_model_object_sentinels (net : network) (w : world) :
  (vdict_lookup VNone (model_objects w) = None ->
   get_model_object net VNone w = (w, Ok unknown_object)) /\
  (forall id j,
      hashable id = true -> is_none id = false ->
      vdict_lookup id (model_objects w) = None ->
      body (net (requests_log w) (GetModelObject (py_str id))) = Some j ->
      py_contains (VStr "modelObject") j = Ok false ->
      py_contains (VStr "id") j = Ok false ->
      exists w',
        get_model_object net id w = (w', Ok (dummy_object id)) /\
        vdict_lookup id (model_objects w') = Some (dummy_object id) /\
        requests_log w' = requests_log w ++ [GetModelObject (py_str id)]).
Proof.
  split.
  - intros Hw. unfold get_model_object, bind, read, vdict_mem. simpl.
    now rewrite Hw.
  - intros id j Hh Hn Hw Hb Hmo Hid.
    unfold get_model_object, bind, read, vdict_mem.
    rewrite Hh, Hw, Hn.
    unfold requests_get, lift, response_json, ret, store_model_object.
    simpl. rewrite Hb, Hmo. simpl. rewrite Hid. simpl.
    eexists. split; [reflexivity|]. simpl. split; [|reflexivity].
    now apply vdict_lookup_set_same.
Qed.

(** C3 (as stated) fails on the name of the sentinel: for the id ["m1"] and
    a response without object body, the object returned is named
    ["Unknown Model Object"], not ["Unknown"]. *)
Lemma get_model_object_sentinel_name :
  snd (get_model_object net_not_found (VStr "m1") initial_world)
  = Ok (VDict [("id", VStr "m1"); ("name", VStr "Unknown Model Object");
               ("type", VStr "unknown")]) /\
  snd (get_model_object net_not_found (VStr "m1") initial_world)
  <> Ok (VDict [("id", VStr "m1"); ("name", VStr "Unknown");
                ("type", VStr "unknown")]).
Proof. split; [reflexivity | vm_compute; discriminate]. Qed.

(** ** [get_diagram_data]: the cache is read and never written *)

Section Steady.

Lemma steady_ret {A} (a : A) : steady (ret a).
Proof. intros w. split; [reflexivity|]. exists []. simpl. now rewrite app_nil_r. Qed.

Lemma steady_lift {A} (r : result A) : steady (lift r).
Proof. intros w. split; [reflexivity|]. exists []. simpl. now rewrite app_nil_r. Qed.

Lemma steady_read {A} (f : world -> result A) : steady (read f).
Proof. intros w. split; [reflexivity|]. exists []. simpl. now rewrite app_nil_r. Qed.

Lemma steady_requests_get net req : steady (requests_get net req).
Proof. intros w. split; [reflexivity|]. now exists [req]. Qed.

Lemma steady_store key v : steady (store_model_object key v).
Proof. intros w. split; [reflexivity|]. exists []. simpl. now rewrite app_nil_r. Qed.

Lemma steady_bind {A B} (c : M A) (k : A -> M B) :
  steady c -> (forall a, steady (k a)) -> steady (bind c k).
Proof.
  intros Hc Hk w. unfold bind. destruct (Hc w) as (Hd & sent & Hl).
  destruct (c w) as [w1 [a|e]]; simpl in *.
  - destruct (Hk a w1) as (Hd' & sent' & Hl'). split; [congruence|].
    exists (sent ++ sent'). rewrite Hl', Hl. now rewrite app_assoc.
  - split; [assumption|]. now exists sent.
Qed.

End Steady.

Create HintDb steady.

#[local] Hint Resolve steady_ret steady_lift steady_read steady_requests_get
  steady_store : steady.

(** Proves [steady] for a program built from the steps above. *)
Ltac steady_tac :=
  repeat first
    [ progress eauto with steady
    | apply steady_bind; [|intros ?]
    | match goal with
      | |- steady (if ?b then _ else _) => destruct b
      | |- steady (match ?x with _ => _ end) => destruct x
      end ].

Section SteadyPrograms.

Variable net : network.

Lemma steady_get_model_object id : steady (get_model_object net id).
Proof. unfold get_model_object. steady_tac. Qed.

Lemma steady_scan_sub_resources id subs :
  forall objects relationships,
    steady (scan_sub_resources net id subs objects relationships).
Proof.
  induction subs as [|[suffix keys] rest IH]; intros objects relationships;
    simpl; steady_tac.
Qed.

Lemma steady_get_diagram_data id : steady (get_diagram_data net id).
Proof.
  unfold get_diagram_data.
  pose proof (steady_scan_sub_resources id) as Hscan.
  steady_tac.
Qed.

Lemma requests_get_first {B} req (k : response -> M B) w :
  (forall a, steady (k a)) ->
  exists sent,
    requests_log (fst (bind (requests_get net req) k w))
    = requests_log w ++ req :: sent.
Proof.
  intros Hk. unfold bind, requests_get.
  match goal with
  | |- context [k ?a ?w1] => destruct (Hk a w1) as (_ & sent & Hl)
  end.
  exists sent. rewrite Hl. simpl. now rewrite <- app_assoc.
Qed.

(** Without a cached entry, a call sends the request for the diagram. *)
Lemma get_diagram_data_requests id w :
  hashable id = true -> diagram_cache w = [] ->
  exists sent,
    requests_log (fst (get_diagram_data net id w))
    = requests_log w ++ GetDiagram (py_str id) "" :: sent.
Proof.
  intros Hh Hc. unfold get_diagram_data.
  unfold bind at 1. unfold read at 1. unfold vdict_mem. rewrite Hh, Hc.
  cbn [vdict_lookup]. cbv beta iota.
  apply requests_get_first.
  intros rdia. pose proof (steady_scan_sub_resources id) as Hscan.
  steady_tac.
Qed.

End SteadyPrograms.

(** C1 (the code falls short of it).  [get_diagram_data] looks its
    argument up in [diagram_cache] but stores nothing there: after a first
    call from an empty cache the cache is still empty, and the next call
    for the same id sends the request for the diagram again. *)
Theorem get_diagram_data_never_caches (net : network) (id : value) (w : world) :
  hashable id = true -> diagram_cache w = [] ->
  let w1 := fst (get_diagram_data net id w) in
  diagram_cache w1 = [] /\
  exists sent,
    requests_log (fst (get_diagram_data net id w1))
    = requests_log w1 ++ GetDiagram (py_str id) "" :: sent.
Proof.
  intros Hh Hc w1.
  assert (Hc1 : diagram_cache w1 = []).
  { unfold w1. destruct (steady_get_diagram_data net id w) as [H _]. congruence. }
  split; [assumption|]. now apply get_diagram_data_requests.
Qed.

(** ** [get_diagram_data]: the shape of the result *)

Section Shapes.

Lemma entry_lookup p d k v :
  entry p d k = true -> dict_lookup k d = Some v -> p v = true.
Proof. unfold entry. intros H E. now rewrite E in H. Qed.

Lemma debug_len_ok v : null_or_collection v = true -> debug_len v = Ok tt.
Proof. destruct v as [| | | |[|]|[|]]; simpl; try discriminate; reflexivity. Qed.

Lemma probe_relationships_shaped data :
  well_shaped data = true ->
  exists r, probe_relationships data = Ok r /\
            match r with
            | Some v => null_or_collection v = true
            | None => True
            end.
Proof.
  destruct data as [| | | | |d]; simpl; try discriminate.
  intros H. apply andb_prop in H. destruct H as [H Hrels].
  apply andb_prop in H. destruct H as [_ Hcontent].
  unfold probe_relationships. simpl. unfold dict_mem.
  destruct (dict_lookup "diagramContent" d) as [c|] eqn:Ec; simpl.
  - pose proof (entry_lookup _ _ _ _ Hcontent Ec) as Hc.
    destruct c as [| | | | |dc]; simpl in Hc; try discriminate. simpl.
    apply andb_prop in Hc. destruct Hc as [_ Hr].
    unfold entry in Hr.
    destruct (dict_lookup "relationships" dc) as [v|] eqn:Ev.
    + rewrite (debug_len_ok v Hr). simpl. eauto.
    + simpl. eauto.
  - destruct (dict_lookup "relationships" d) as [v|] eqn:Ev; simpl.
    + pose proof (entry_lookup _ _ _ _ Hrels Ev) as Hv.
      rewrite (debug_len_ok v Hv). simpl. eauto.
    + now exists None.
Qed.

Lemma relationships_endpoint_shaped data rels :
  well_shaped data = true -> null_or_collection rels = true ->
  exists r, relationships_endpoint data rels = Ok r /\
            null_or_collection r = true.
Proof.
  destruct data as [| | | | |d]; simpl; try discriminate.
  intros H Hr. apply andb_prop in H. destruct H as [_ Hrels].
  unfold dict_mem.
  destruct (dict_lookup "relationships" d) as [v|] eqn:Ev; simpl.
  - exists v. split; [reflexivity|]. now apply (entry_lookup _ _ _ _ Hrels Ev).
  - eauto.
Qed.

Lemma scan_sub_resource_shaped suffix keys data objects relationships :
  well_shaped data = true ->
  null_or_dict objects = true -> null_or_collection relationships = true ->
  exists o r,
    scan_sub_resource suffix keys data objects relationships = Ok (o, r) /\
    null_or_dict o = true /\ null_or_collection r = true.
Proof.
  intros Hd Ho Hr. unfold scan_sub_resource.
  assert (H1 : exists r1,
             (if negb (truthy relationships)
              then (found <-- probe_relationships data ;
                    Ok (match found with
                        | Some r => r
                        | None => relationships
                        end))%result
              else Ok relationships) = Ok r1 /\
             null_or_collection r1 = true).
  { destruct (negb (truthy relationships)); [|eauto].
    destruct (probe_relationships_shaped data Hd) as (r & -> & Hshape).
    simpl. destruct r; eauto. }
  destruct H1 as (r1 & -> & Hr1). simpl.
  assert (H2 : exists r2,
             (if String.eqb suffix "/relationships"
              then relationships_endpoint data r1
              else Ok r1) = Ok r2 /\
             null_or_collection r2 = true).
  { destruct (String.eqb suffix "/relationships"); [|eauto].
    now apply relationships_endpoint_shaped. }
  destruct H2 as (r2 & -> & Hr2). simpl.
  destruct (drill_down keys data) as [temp_obj valid_path].
  set (o1 := if valid_path && is_dict temp_obj && truthy temp_obj
             then if negb (truthy objects) then temp_obj else objects
             else objects).
  assert (Ho1 : null_or_dict o1 = true).
  { unfold o1.
    destruct valid_path, temp_obj as [| | | | |[|]]; simpl; try assumption.
    destruct (negb (truthy objects)); auto. }
  destruct (String.eqb suffix "/objects" && negb (truthy o1) && is_dict data)
    eqn:Eo; [|eauto].
  assert (Hdata : null_or_dict data = true)
    by (destruct data; simpl in *; try discriminate; reflexivity).
  destruct (negb (truthy r2)); [|eauto].
  destruct data as [| | | | |d]; simpl in Hd; try discriminate.
  apply andb_prop in Hd. destruct Hd as [_ Hrels].
  simpl. unfold dict_mem.
  destruct (dict_lookup "relationships" d) as [v|] eqn:Ev; simpl.
  - exists (VDict d), v. repeat split.
    now apply (entry_lookup _ _ _ _ Hrels Ev).
  - eauto.
Qed.

Variables (net : network) (id : value).
Hypothesis Hnet : answers_well_shaped net id.

Lemma scan_sub_resources_shaped subs :
  forall objects relationships w,
    null_or_dict objects = true -> null_or_collection relationships = true ->
    exists w' o r,
      scan_sub_resources net id subs objects relationships w = (w', Ok (o, r)) /\
      null_or_dict o = true /\ null_or_collection r = true.
Proof.
  induction subs as [|[suffix keys] rest IH]; intros objects relationships w Ho Hr.
  - simpl. unfold ret. eauto 6.
  - cbn [scan_sub_resources]. unfold bind at 1. unfold requests_get at 1.
    set (w1 := mkWorld _ _ _).
    destruct (Z.eqb_spec (status_code (net (requests_log w)
                                           (GetDiagram (py_str id) suffix))) 200)
      as [E|E]; [|now apply IH].
    destruct (Hnet _ _ E) as (b & Hb & Hshape).
    unfold bind at 1. unfold lift at 1. unfold response_json. rewrite Hb.
    destruct (scan_sub_resource_shaped suffix keys b objects relationships
                Hshape Ho Hr) as (o & r & Hscan & Ho' & Hr').
    unfold bind at 1. unfold lift at 1. rewrite Hscan.
    destruct (truthy o && truthy r); [|now apply IH].
    unfold ret. eauto 6.
Qed.

End Shapes.

Section ResolverResult.

Lemma payload_entries c :
  payload_shaped c = true ->
  exists d, c = VDict d /\
            (exists o, py_get c "objects" VNone = Ok o /\ null_or_dict o = true) /\
            (forall default, null_or_collection default = true ->
               exists r, py_get c "relationships" default = Ok r /\
                         null_or_collection r = true).
Proof.
  destruct c as [| | | | |d]; simpl; try discriminate.
  intros H. apply andb_prop in H. destruct H as [Ho Hr].
  exists d. split; [reflexivity|]. unfold entry in *. split.
  - destruct (dict_lookup "objects" d); eauto.
  - intros default Hdef. destruct (dict_lookup "relationships" d); eauto.
Qed.

Lemma normalized_objects o :
  null_or_dict o = true ->
  exists objs, (if is_none o then VDict [] else o) = VDict objs.
Proof. destruct o; simpl; try discriminate; eauto. Qed.

Lemma normalized_relationships r :
  null_or_collection r = true ->
  exists rels,
    (let r' := match r with
               | VDict d => if truthy r then VList (dict_values d) else r
               | _ => r
               end in
     if negb (truthy r') then VList [] else r') = VList rels.
Proof.
  destruct r as [| | | |[|]|[|]]; simpl; try discriminate; eauto.
Qed.

End ResolverResult.

(** C2 (as amended).  For a hashable diagram id and an empty diagram cache:
    when the diagram request is answered with a status other than 200,
    [get_diagram_data] returns [None]; when it is answered with status 200
    and every response with status 200 about the diagram is a well-shaped
    JSON object, it returns a dictionary whose ["objects"] is a dictionary
    and whose ["relationships"] is a list, possibly empty.  In both cases
    it raises no exception. *)
Theorem get_diagram_data_result (net : network) (id : value) (w : world) :
  hashable id = true -> diagram_cache w = [] ->
  answers_well_shaped net id ->
  exists w' v,
    get_diagram_data net id w = (w', Ok v) /\
    if (status_code (net (requests_log w) (GetDiagram (py_str id) "")) =? 200)%Z
    then exists d objs rels,
        v = VDict d /\
        dict_lookup "objects" d = Some (VDict objs) /\
        dict_lookup "relationships" d = Some (VList rels)
    else v = VNone.
Proof.
  intros Hh Hc Hnet. unfold get_diagram_data.
  unfold bind at 1. unfold read at 1. unfold vdict_mem. rewrite Hh, Hc.
  cbn [vdict_lookup]. cbv beta iota.
  unfold bind at 1. unfold requests_get at 1.
  set (w1 := mkWorld _ _ _).
  destruct (Z.eqb_spec (status_code (net (requests_log w) (GetDiagram (py_str id) ""))) 200)
    as [E|E]; cbn [negb]; [|unfold ret; eauto].
  destruct (Hnet _ _ E) as (b & Hb & Hshape).
  unfold bind at 1. unfold lift at 1. unfold response_json at 1. rewrite Hb.
  destruct b as [| | | | |bd]; simpl in Hshape; try discriminate.
  apply andb_prop in Hshape. destruct Hshape as [Hshape Hrels].
  apply andb_prop in Hshape. destruct Hshape as [Hdia Hcontent].
  assert (Hdia' : exists dia, py_get (VDict bd) "diagram" (VDict []) = Ok dia /\
                              payload_shaped dia = true).
  { simpl. unfold entry in Hdia. destruct (dict_lookup "diagram" bd); eauto. }
  destruct Hdia' as (dia & Edia & Sdia).
  unfold bind at 1. unfold lift at 1. rewrite Edia.
  destruct (payload_entries dia Sdia) as (dd & -> & (o & Eo & So) & Hr).
  destruct (Hr (VList []) eq_refl) as (r & Er & Sr).
  unfold bind at 1. unfold lift at 1. rewrite Eo.
  unfold bind at 1. unfold lift at 1. rewrite Er.
  assert (Hcont : dict_has (VDict bd) "diagramContent" = true ->
                  exists c, py_getitem (VDict bd) (VStr "diagramContent") = Ok c /\
                            payload_shaped c = true).
  { simpl. unfold dict_mem, entry in *.
    destruct (dict_lookup "diagramContent" bd); [eauto | discriminate]. }
  assert (Ho0 : exists o0,
             (if negb (truthy o) && dict_has (VDict bd) "diagramContent"
              then c <- lift (py_getitem (VDict bd) (VStr "diagramContent")) ;;
                   lift (py_get c "objects" VNone)
              else ret o) w1 = (w1, Ok o0) /\ null_or_dict o0 = true).
  { destruct (negb (truthy o)); cbn [andb]; [|unfold ret; eauto].
    destruct (dict_has (VDict bd) "diagramContent") eqn:Eh; [|unfold ret; eauto].
    destruct (Hcont eq_refl) as (c & Ec & Sc).
    destruct (payload_entries c Sc) as (dc & -> & (o0 & Eo0 & So0) & _).
    unfold bind, lift. rewrite Ec, Eo0. eauto. }
  destruct Ho0 as (o0 & Eo0 & So0).
  unfold bind at 1. rewrite Eo0.
  assert (Hr0 : exists r0,
             (if negb (truthy r) && dict_has (VDict bd) "diagramContent"
              then c <- lift (py_getitem (VDict bd) (VStr "diagramContent")) ;;
                   lift (py_get c "relationships" VNone)
              else ret r) w1 = (w1, Ok r0) /\ null_or_collection r0 = true).
  { destruct (negb (truthy r)); cbn [andb]; [|unfold ret; eauto].
    destruct (dict_has (VDict bd) "diagramContent") eqn:Eh; [|unfold ret; eauto].
    destruct (Hcont eq_refl) as (c & Ec & Sc).
    destruct (payload_entries c Sc) as (dc & -> & _ & Hr').
    destruct (Hr' VNone eq_refl) as (r0 & Er0 & Sr0).
    unfold bind, lift. rewrite Ec, Er0. eauto. }
  destruct Hr0 as (r0 & Er0 & Sr0).
  unfold bind at 1. rewrite Er0.
  assert (Hscan : exists w2 o2 r2,
             (if negb (truthy o0) || negb (truthy r0)
              then scan_sub_resources net id sub_resources o0 r0
              else ret (o0, r0)) w1 = (w2, Ok (o2, r2)) /\
             null_or_dict o2 = true /\ null_or_collection r2 = true).
  { destruct (negb (truthy o0) || negb (truthy r0)).
    - now apply scan_sub_resources_shaped.
    - unfold ret. eauto 6. }
  destruct Hscan as (w2 & o2 & r2 & Escan & So2 & Sr2).
  unfold bind at 1. rewrite Escan.
  destruct (normalized_objects o2 So2) as (objs & Eobjs).
  destruct (normalized_relationships r2 Sr2) as (rels & Erels).
  cbv zeta in Erels. rewrite Eobjs. cbn [py_setitem lift bind].
  rewrite Erels. cbn [py_setitem ret].
  eexists _, _. split; [reflexivity|].
  eexists _, objs, rels. split; [reflexivity|]. split.
  - rewrite dict_lookup_set_other by discriminate. apply dict_lookup_set_same.
  - apply dict_lookup_set_same.
Qed.

(** C2 (as stated) fails for a status other than 200: the result is [None],
    which has no [objects] and no [relationships]. *)
Lemma get_diagram_data_not_found :
  snd (get_diagram_data net_not_found (VStr "d1") initial_world) = Ok VNone /\
  ~ (exists d objs rels,
        snd (get_diagram_data net_not_found (VStr "d1") initial_world)
        = Ok (VDict d) /\
        dict_lookup "objects" d = Some objs /\ is_none objs = false /\
        dict_lookup "relationships" d = Some rels /\ is_none rels = false).
Proof.
  split; [reflexivity|]. intros (d & objs & rels & H & _). vm_compute in H.
  discriminate.
Qed.

(** ** Relationships inferred from model connections *)

Section Inference.

Lemma py_eqb_sym_hashable a b : hashable a = true -> py_eqb a b = py_eqb b a.
Proof.
  destruct a, b; simpl; try discriminate; intros _; try reflexivity.
  - destruct b, b0; reflexivity.
  - apply Z.eqb_sym.
  - apply Z.eqb_sym.
  - apply Z.eqb_sym.
  - apply String.eqb_sym.
Qed.

Lemma py_get_field (conn : value) k default :
  is_dict conn = true ->
  py_get conn k default
  = Ok (match conn with
        | VDict d => match dict_lookup k d with Some x => x | None => default end
        | _ => default
        end).
Proof. destruct conn; simpl; try discriminate; reflexivity. Qed.

Lemma reverse_lookup_present dia_to_model m :
  hashable m = true ->
  existsb (py_eqb m) (dict_values dia_to_model) = true ->
  reverse_lookup dia_to_model m = Ok (first_key dia_to_model m).
Proof.
  intros Hm. unfold reverse_lookup, first_key, dict_values.
  induction dia_to_model as [|[k v] r IH]; simpl; [discriminate|].
  rewrite (py_eqb_sym_hashable m v Hm).
  destruct (py_eqb v m); simpl; [reflexivity|]. exact IH.
Qed.

Variables (dia_id : value) (dia_to_model : list (string * value)).
Hypothesis Hdia : hashable dia_id = true.

Lemma infer_connection_shaped acc conn :
  connection_shaped conn = true ->
  infer_connection dia_id dia_to_model (dict_values dia_to_model)
                   (VList acc) conn
  = Ok (VList (if both_present (dict_values dia_to_model) conn
               then acc ++ [synthesized dia_to_model conn] else acc)).
Proof.
  destruct conn as [| | | | |d]; try discriminate.
  intros H. cbn [connection_shaped] in H.
  apply andb_prop in H. destruct H as [H Ht].
  apply andb_prop in H. destruct H as [Hd Hs].
  unfold infer_connection, both_present.
  assert (Es : (origin <-- py_get (VDict d) "originId" VNone ;
                if truthy origin then Ok origin
                else py_get (VDict d) "sourceId" VNone)%result
               = Ok (conn_source (VDict d))).
  { unfold conn_source, py_or, field. simpl.
    destruct (dict_lookup "originId" d) as [x|]; simpl.
    - destruct (truthy x); reflexivity.
    - reflexivity. }
  assert (Et : (target <-- py_get (VDict d) "targetId" VNone ;
                if truthy target then Ok target
                else py_get (VDict d) "destinationId" VNone)%result
               = Ok (conn_target (VDict d))).
  { unfold conn_target, py_or, field. simpl.
    destruct (dict_lookup "targetId" d) as [x|]; simpl.
    - destruct (truthy x); reflexivity.
    - reflexivity. }
  set (s := conn_source (VDict d)) in *.
  set (t := conn_target (VDict d)) in *.
  cbn [rbind] in Es, Et |- *.
  destruct (py_get (VDict d) "originId" VNone) as [origin|e] eqn:Eo;
    [|discriminate Es].
  cbn [rbind] in Es |- *. rewrite Es. cbn [rbind].
  destruct (py_get (VDict d) "targetId" VNone) as [target|e] eqn:Etg;
    [|discriminate Et].
  cbn [rbind] in Et |- *. rewrite Et. cbn [rbind].
  unfold set_mem. rewrite Hs, Ht. cbn [rbind].
  destruct (existsb (py_eqb s) (dict_values dia_to_model)) eqn:Ins;
    cbn [andb rbind]; [|reflexivity].
  destruct (existsb (py_eqb t) (dict_values dia_to_model)) eqn:Int;
    cbn [rbind]; [|reflexivity].
  assert (Ek : exists ks, (diagrams <-- py_get (VDict d) "diagrams" (VDict []) ;
                           py_keys diagrams)%result = Ok ks).
  { simpl. unfold entry in Hd.
    destruct (dict_lookup "diagrams" d) as [x|]; simpl; [|eauto].
    destruct x; try discriminate. simpl. eauto. }
  destruct Ek as (ks & Ek). cbn [rbind] in Ek.
  destruct (py_get (VDict d) "diagrams" (VDict [])) as [diagrams|e];
    [|discriminate Ek].
  cbn [rbind] in Ek |- *. rewrite Ek. cbn [rbind].
  assert (El : exists listed,
             key_in_dict dia_id (map (fun k => (k, tt)) ks) = Ok listed).
  { destruct dia_id; simpl in *; try discriminate; eauto. }
  destruct El as (listed & ->). cbn [rbind].
  rewrite (reverse_lookup_present dia_to_model s Hs Ins).
  rewrite (reverse_lookup_present dia_to_model t Ht Int).
  destruct listed; reflexivity.
Qed.

Lemma infer_connections_shaped conns :
  forall acc,
    forallb connection_shaped conns = true ->
    rfold (infer_connection dia_id dia_to_model (dict_values dia_to_model))
          conns (VList acc)
    = Ok (VList (acc ++ map (synthesized dia_to_model)
                            (filter (both_present (dict_values dia_to_model))
                                    conns))).
Proof.
  induction conns as [|conn rest IH]; intros acc H; simpl.
  - now rewrite app_nil_r.
  - simpl in H. apply andb_prop in H. destruct H as [Hc Hrest].
    rewrite (infer_connection_shaped acc conn Hc). cbn [rbind].
    rewrite IH by assumption.
    destruct (both_present (dict_values dia_to_model) conn); simpl;
      [now rewrite <- app_assoc | reflexivity].
Qed.

End Inference.

Lemma infer_relationships_empty
  (net : network) (dia_id : value) (dia_to_model : list (string * value))
  (w : world) bd conns :
  hashable dia_id = true ->
  forallb hashable (dict_values dia_to_model) = true ->
  status_code (net (requests_log w) GetModelConnections) = 200%Z ->
  body (net (requests_log w) GetModelConnections) = Some (VDict bd) ->
  dict_lookup "modelConnections" bd = Some (VList conns) ->
  forallb connection_shaped conns = true ->
  infer_relationships net dia_id dia_to_model (VList []) w
  = (sent w [GetModelConnections],
     Ok (VList (map (synthesized dia_to_model)
                    (filter (both_present (dict_values dia_to_model))
                            conns)))).
Proof.
  intros Hdia Hids Hstatus Hbody Hconns Hshaped.
  unfold infer_relationships. cbn [truthy negb].
  unfold bind at 1. unfold requests_get at 1. rewrite Hstatus.
  cbn [Z.eqb Pos.eqb].
  unfold bind at 1. unfold lift at 1. unfold response_json. rewrite Hbody.
  unfold bind at 1. unfold lift at 1. cbn [py_get]. rewrite Hconns.
  unfold bind at 1. unfold lift at 1. cbn [py_len].
  unfold bind at 1. unfold lift at 1. unfold py_set. rewrite Hids.
  unfold bind at 1. unfold lift at 1. cbn [py_iter].
  unfold bind at 1. unfold lift at 1.
  rewrite (infer_connections_shaped dia_id dia_to_model Hdia conns [] Hshaped).
  reflexivity.
Qed.

(** *** The map from diagram objects to model objects *)

Lemma dict_set_absent {X} (d : list (string * X)) k v :
  dict_mem k d = false -> dict_set k v d = d ++ [(k, v)].
Proof.
  unfold dict_mem. induction d as [|[k0 v0] r IH]; simpl; [reflexivity|].
  destruct (String.eqb k k0); [discriminate|]. intros H. now rewrite IH.
Qed.

Lemma model_ids_of_cons k v rest :
  model_ids_of ((k, v) :: rest)
  = (if model_backed v then [(k, field v "modelId")] else [])
    ++ model_ids_of rest.
Proof. unfold model_ids_of. cbn. now destruct (model_backed v). Qed.

Lemma build_dia_to_model_loop items :
  forall acc dtm,
    NoDup (dict_keys acc ++ dict_keys items) ->
    rfold (fun dia_to_model item =>
             (m <-- py_get (snd item) "modelId" VNone ;
              if truthy m then
                m' <-- py_getitem (snd item) (VStr "modelId") ;
                Ok (dict_set (fst item) m' dia_to_model)
              else Ok dia_to_model)%result)
          items acc = Ok dtm ->
    dtm = acc ++ model_ids_of items.
Proof.
  induction items as [|[k v] rest IH]; intros acc dtm Hnd H; simpl in H.
  - inversion H. unfold model_ids_of. simpl. now rewrite app_nil_r.
  - apply rbind_ok in H. destruct H as (acc1 & Hstep & H).
    apply rbind_ok in Hstep. destruct Hstep as (m & Hm & Hstep).
    apply py_get_field_ok in Hm. destruct Hm as [-> Hdict].
    rewrite model_ids_of_cons. unfold model_backed.
    assert (Hk : dict_mem k acc = false).
    { destruct (dict_mem k acc) eqn:E; [|reflexivity].
      apply dict_mem_In in E. apply NoDup_remove_2 in Hnd.
      exfalso. apply Hnd. apply in_or_app. now left. }
    assert (Hnd1 : forall x, NoDup (dict_keys (acc ++ [(k, x)])
                                    ++ dict_keys rest)).
    { intros x. unfold dict_keys in *. rewrite map_app, <- app_assoc.
      exact Hnd. }
    destruct (truthy (field v "modelId")).
    + apply rbind_ok in Hstep. destruct Hstep as (m' & Hm' & Hstep).
      apply py_getitem_field in Hm'. subst m'.
      inversion Hstep; subst acc1. rewrite dict_set_absent in H by assumption.
      rewrite (IH _ _ (Hnd1 _) H). now rewrite <- app_assoc.
    + inversion Hstep; subst acc1. apply IH; [|assumption].
      unfold dict_keys in *. simpl in Hnd.
      apply NoDup_remove_1 in Hnd. exact Hnd.
Qed.

(** The map built by [main]: the model-backed objects with their model
    ids, in the order of the objects. *)
Lemma build_dia_to_model_ok od dtm :
  NoDup (dict_keys od) ->
  build_dia_to_model (VDict od) = Ok dtm -> dtm = model_ids_of od.
Proof.
  intros Hnd. unfold build_dia_to_model.
  destruct (truthy (VDict od)) eqn:Et.
  - cbn [py_items rbind]. intros H.
    now apply (build_dia_to_model_loop od [] dtm Hnd).
  - destruct od; [|discriminate]. intros H. now inversion H.
Qed.

Lemma build_dia_to_model_total od :
  NoDup (dict_keys od) ->
  forallb (fun kv => is_dict (snd kv)) od = true ->
  build_dia_to_model (VDict od) = Ok (model_ids_of od).
Proof.
  intros Hnd Hd.
  destruct (build_dia_to_model (VDict od)) as [dtm|e] eqn:E.
  - now rewrite (build_dia_to_model_ok od dtm Hnd E).
  - exfalso. unfold build_dia_to_model in E.
    destruct (truthy (VDict od)); [|discriminate]. cbn [py_items rbind] in E.
    clear Hnd. generalize dependent (@nil (string * value)).
    induction od as [|[k v] rest IH]; intros acc E; simpl in E;
      [discriminate|].
    simpl in Hd. apply andb_true_iff in Hd. destruct Hd as [Hv Hrest].
    destruct v as [| | | | |vd]; try discriminate Hv.
    cbn [py_get rbind snd] in E.
    destruct (truthy _) eqn:Et.
    + cbn [py_getitem] in E.
      destruct (dict_lookup "modelId" vd); [|discriminate Et].
      cbn [rbind] in E. exact (IH Hrest _ E).
    + cbn [rbind] in E. exact (IH Hrest _ E).
Qed.

Lemma get_diagram_data_hashable net id w w1 v :
  get_diagram_data net id w = (w1, Ok v) -> hashable id = true.
Proof.
  unfold get_diagram_data. intros H. apply bind_ok in H.
  destruct H as (c & w0 & Hc & _). unfold read, vdict_mem in Hc.
  destruct (hashable id); [reflexivity | inversion Hc].
Qed.

(** C4.  The inference from model connections runs only when the resolver
    gave no relationship: with a truthy [relationships] nothing is
    requested and the relationships are returned as they are.  With an
    empty list, a response of status 200 and connections shaped as the API
    documents them, it returns exactly one synthesized relationship for
    every connection whose origin and destination model ids are both model
    ids of the diagram, in the order of the connections; whether the
    [diagrams] entry of a connection lists this diagram plays no part.
    The model ids of the diagram are those of its model-backed objects:
    this is the map [main] builds from the objects the resolver returned,
    and with no relationship from the resolver [main] goes on, for the
    hierarchy and for the links, with this map and with the relationships
    inferred from it. *)
Theorem infer_relationships_both_endpoints
  (net : network) (dia_id : value) (w : world) :
  (forall dia_to_model relationships,
      truthy relationships = true ->
      infer_relationships net dia_id dia_to_model relationships w
      = (w, Ok relationships)) /\
  (forall dia_to_model bd conns,
      hashable dia_id = true ->
      forallb hashable (dict_values dia_to_model) = true ->
      status_code (net (requests_log w) GetModelConnections) = 200%Z ->
      body (net (requests_log w) GetModelConnections) = Some (VDict bd) ->
      dict_lookup "modelConnections" bd = Some (VList conns) ->
      forallb connection_shaped conns = true ->
      infer_relationships net dia_id dia_to_model (VList []) w
      = (mkWorld (model_objects w) (diagram_cache w)
                 (requests_log w ++ [GetModelConnections]),
         Ok (VList (map (synthesized dia_to_model)
                        (filter (both_present (dict_values dia_to_model))
                                conns))))) /\
  (forall od dia_to_model,
      NoDup (dict_keys od) ->
      build_dia_to_model (VDict od) = Ok dia_to_model ->
      dia_to_model = model_ids_of od) /\
  (forall name w0 dia od bd conns,
      get_diagram_data net dia_id w0 = (w, Ok dia) ->
      truthy dia = true ->
      py_get dia "objects" (VDict []) = Ok (VDict od) ->
      py_get dia "relationships" (VList []) = Ok (VList []) ->
      NoDup (dict_keys od) ->
      forallb (fun kv => is_dict (snd kv)) od = true ->
      forallb hashable (dict_values (model_ids_of od)) = true ->
      status_code (net (requests_log w) GetModelConnections) = 200%Z ->
      body (net (requests_log w) GetModelConnections) = Some (VDict bd) ->
      dict_lookup "modelConnections" bd = Some (VList conns) ->
      forallb connection_shaped conns = true ->
      build_diagram net dia_id name w0
      = (mdia <- build_hierarchy net (VDict od) (model_ids_of od)
                                 (Diagram.new name) ;;
         mdia <- build_links net (VDict od)
                             (VList (inferred_relationships od conns)) mdia ;;
         ret (Some mdia))
          (sent w [GetModelConnections])).
Proof.
  split; [|split; [|split]].
  - intros dia_to_model relationships Ht.
    unfold infer_relationships. now rewrite Ht.
  - intros dia_to_model bd conns. apply infer_relationships_empty.
  - apply build_dia_to_model_ok.
  - intros name w0 dia od bd conns Hdata Ht Ho Hr Hnd Hd Hids Hs Hb Hc Hsh.
    pose proof (get_diagram_data_hashable _ _ _ _ _ Hdata) as Hh.
    unfold build_diagram. unfold bind at 1. rewrite Hdata, Ht. cbn [negb].
    unfold bind at 1. unfold lift at 1. rewrite Ho.
    unfold bind at 1. unfold lift at 1. rewrite Hr. cbv zeta.
    unfold bind at 1. unfold lift at 1.
    rewrite (build_dia_to_model_total od Hnd Hd).
    unfold bind at 1. unfold lift at 1. cbn [py_len].
    unfold bind at 1.
    rewrite (infer_relationships_empty net dia_id (model_ids_of od) w bd conns
               Hh Hids Hs Hb Hc Hsh).
    fold (inferred_relationships od conns).
    unfold bind at 1. unfold lift at 1. cbn [py_len].
    unfold bind at 1.
    destruct (List.length (inferred_relationships od conns) =? 0);
      reflexivity.
Qed.

(** ** Links *)

Section Links.

Import Diagram.

Variables (net : network) (objects : value).

Lemma endpoint_check ns id c w1 w2 b :
  py_contains id objects = Ok c ->
  (if c then ret true else lift (key_in_dict id ns)) w1 = (w2, Ok b) ->
  w2 = w1 /\
  if b then known objects ns id else absent objects ns id.
Proof.
  unfold known, absent. intros Hc H. destruct c.
  - apply ret_ok in H. destruct H as [-> ->]. auto.
  - apply lift_ok in H. destruct H as [-> H]. destruct b; auto.
Qed.

Lemma place_relationship_ok mdia rel w w' mdia' :
  place_relationship net objects mdia rel w = (w', Ok mdia') ->
  exists s t,
    py_get rel "sourceId" VNone = Ok s /\
    py_get rel "targetId" VNone = Ok t /\
    ((exists label,
         mdia' = add_link mdia s t label /\
         known objects (nodes mdia) s /\ known objects (nodes mdia) t) \/
     (mdia' = mdia /\
      (absent objects (nodes mdia) s \/ absent objects (nodes mdia) t))).
Proof.
  unfold place_relationship. intros H. step_ok H.
  match goal with
  | Hs : py_get rel "sourceId" VNone = Ok ?s,
    Ht : py_get rel "targetId" VNone = Ok ?t |- _ =>
      exists s, t; split; [exact Hs|]; split; [exact Ht|]
  end.
  match goal with
  | Hin : py_contains ?s objects = Ok ?c,
    Hchk : (if ?c then ret true else lift (key_in_dict ?s _)) _ = (_, Ok ?b)
    |- _ =>
      destruct (endpoint_check _ _ _ _ _ _ Hin Hchk) as [-> Hsrc]; clear Hchk;
      destruct b
  end.
  - match goal with
    | Hboth : bind _ _ _ = (_, Ok _) |- _ => step_ok Hboth
    end.
    match goal with
    | Hin : py_contains ?t objects = Ok ?c,
      Hchk : (if ?c then ret true else lift (key_in_dict ?t _)) _ = (_, Ok ?b)
      |- _ =>
        destruct (endpoint_check _ _ _ _ _ _ Hin Hchk) as [-> Htgt];
        clear Hchk; destruct b
    end; apply ret_ok in H; destruct H as [-> ->].
    + left. eauto.
    + right. auto.
  - match goal with
    | Hboth : ret false _ = (_, Ok ?b) |- _ =>
        apply ret_ok in Hboth; destruct Hboth as [-> ->]
    end.
    apply ret_ok in H. destruct H as [-> ->]. right. auto.
Qed.

Lemma known_not_absent ns id : known objects ns id -> absent objects ns id -> False.
Proof. intros [H|H] [H1 H2]; congruence. Qed.

Lemma place_relationships_ok rels :
  forall mdia w w' mdia',
    for_each (place_relationship net objects) rels mdia w = (w', Ok mdia') ->
    nodes mdia' = nodes mdia /\
    exists added,
      links mdia' = links mdia ++ added /\
      Forall (fun l => known objects (nodes mdia) (link_source l) /\
                       known objects (nodes mdia) (link_target l)) added.
Proof.
  induction rels as [|rel rest IH]; intros mdia w w' mdia' H; simpl in H.
  - apply ret_ok in H. destruct H as [-> ->]. split; [reflexivity|].
    exists []. split; [now rewrite app_nil_r | constructor].
  - step_ok H. apply IH in H. destruct H as (Hn & added & Hl & Hall).
    apply place_relationship_ok in Hc.
    destruct Hc as (s & t & _ & _ & [(label & -> & Hs & Ht) | (-> & _)]).
    + simpl in *. split; [assumption|].
      exists (mkLink s t label :: added). split.
      * rewrite Hl. now rewrite <- app_assoc.
      * constructor; [now split | assumption].
    + split; [assumption|]. now exists added.
Qed.

Lemma render_link_edge ns l text :
  render_link ns l = Ok text ->
  text = if both_nodes ns l then edge_line ns l else EmptyString.
Proof.
  unfold render_link, both_nodes, edge_line.
  destruct (key_lookup (link_source l) ns) as [[sn|]|e]; simpl;
    [| |discriminate];
    (destruct (key_lookup (link_target l) ns) as [[tn|]|e']; simpl;
     [| |discriminate]); try (intros H; now inversion H).
  destruct (truthy (link_label l)); intros H; now inversion H.
Qed.

Lemma render_links_edges ns ls text :
  render_links ns ls = Ok text ->
  text = concat_str (map (edge_line ns) (filter (both_nodes ns) ls)).
Proof.
  revert text. induction ls as [|l rest IH]; intros text H; simpl in H.
  - now inversion H.
  - step_ok H. inversion H; subst text. clear H.
    rewrite (IH _ Hc0), (render_link_edge _ _ _ Hc). simpl.
    destruct (both_nodes ns l); reflexivity.
Qed.

Lemma generate_keys self :
  dict_keys (nodes (fst (generate self))) = dict_keys (nodes self).
Proof.
  rewrite generate_fst. simpl.
  rewrite <- (reset_children_keys (fst _)), build_children_reset.
  now rewrite !reset_children_keys.
Qed.

Lemma generate_text self text :
  snd (generate self) = inr text ->
  exists body edges,
    render_links (nodes (fst (generate self))) (links self) = Ok edges /\
    text = "flowchart TD" +++ nl +++ body +++ edges.
Proof.
  unfold generate.
  destruct (build_children _ _ _) as [ns1 [roots|e]]; simpl; [|discriminate].
  destruct (render_roots _ _ _) as [body|]; simpl; [|discriminate].
  destruct (render_links ns1 (links self)) as [edges|e] eqn:El; simpl;
    [|discriminate].
  intros H. inversion H. eauto.
Qed.

End Links.

(** C6.  A relationship whose [sourceId] or [targetId] is a key neither of
    the diagram objects nor of the nodes built so far adds no link, so the
    text generated has no edge line for it.  Every link the relationship
    pass adds has both ends among the diagram objects or the nodes, and the
    edge lines of the generated text are those of the links whose two ends
    are nodes, in order. *)
Theorem unresolved_endpoint_no_edge (net : network) (objects : value) :
  (forall mdia rel w w' mdia' s t,
      py_get rel "sourceId" VNone = Ok s ->
      py_get rel "targetId" VNone = Ok t ->
      absent objects (nodes mdia) s \/ absent objects (nodes mdia) t ->
      place_relationship net objects mdia rel w = (w', Ok mdia') ->
      mdia' = mdia) /\
  (forall relationships mdia w w' mdia',
      build_links net objects relationships mdia w = (w', Ok mdia') ->
      nodes mdia' = nodes mdia /\
      exists added,
        links mdia' = links mdia ++ added /\
        Forall (fun l => known objects (nodes mdia) (link_source l) /\
                         known objects (nodes mdia) (link_target l)) added) /\
  (forall self text,
      snd (Diagram.generate self) = inr text ->
      let ns := nodes (fst (Diagram.generate self)) in
      dict_keys ns = dict_keys (nodes self) /\
      exists body,
        text = "flowchart TD" +++ nl +++ body
               +++ concat_str (map (edge_line ns)
                                   (filter (both_nodes ns) (links self)))).
Proof.
  split; [|split].
  - intros mdia rel w w' mdia' s t Hs Ht Habs H.
    apply place_relationship_ok in H.
    destruct H as (s' & t' & Hs' & Ht' & [(label & _ & Hks & Hkt) | (-> & _)]);
      [|reflexivity].
    rewrite Hs in Hs'. rewrite Ht in Ht'. inversion Hs'; inversion Ht'; subst.
    exfalso. destruct Habs as [Ha|Ha].
    + exact (known_not_absent _ _ _ Hks Ha).
    + exact (known_not_absent _ _ _ Hkt Ha).
  - intros relationships mdia w w' mdia' H. unfold build_links in H.
    step_ok H. now apply place_relationships_ok in H.
  - intros self text H ns. split; [apply generate_keys|].
    destruct (generate_text self text H) as (body & edges & He & ->).
    exists body. now rewrite (render_links_edges _ _ _ He).
Qed.

(** ** Comparisons and [sorted] *)

(** Induction on values through the items of lists and dictionaries. *)
Lemma value_nested_ind (P : value -> Prop) :
  P VNone -> (forall b, P (VBool b)) -> (forall z, P (VInt z)) ->
  (forall s, P (VStr s)) ->
  (forall l, Forall P l -> P (VList l)) ->
  (forall d, Forall (fun kv => P (snd kv)) d -> P (VDict d)) ->
  forall v, P v.
Proof.
  intros HNone HBool HInt HStr HList HDict. fix IH 1. intros [|b|z|s|l|d].
  - exact HNone.
  - apply HBool.
  - apply HInt.
  - apply HStr.
  - apply HList. induction l as [|x r IHr]; constructor; [apply IH | exact IHr].
  - apply HDict. induction d as [|[k x] r IHr]; constructor;
      [apply IH | exact IHr].
Qed.

Section Comparisons.

Lemma py_eqb_cons x xs y ys :
  py_eqb (VList (x :: xs)) (VList (y :: ys))
  = py_eqb x y && py_eqb (VList xs) (VList ys).
Proof. reflexivity. Qed.

Lemma py_lt_cons x xs y ys :
  py_lt (VList (x :: xs)) (VList (y :: ys))
  = if py_eqb x y then py_lt (VList xs) (VList ys) else py_lt x y.
Proof. reflexivity. Qed.

Lemma ascii_compare_refl (a : ascii) : Ascii.compare a a = Eq.
Proof. unfold Ascii.compare. apply N.compare_refl. Qed.

Lemma string_compare_refl (s : string) : String.compare s s = Eq.
Proof.
  induction s as [|a s IH]; simpl; [reflexivity|].
  now rewrite ascii_compare_refl.
Qed.

Lemma string_ltb_irrefl (s : string) : String.ltb s s = false.
Proof. unfold String.ltb. now rewrite string_compare_refl. Qed.

Lemma string_compare_le_trans (x y z : string) :
  String.compare x y <> Gt -> String.compare y z <> Gt ->
  String.compare x z <> Gt.
Proof.
  revert y z. induction x as [|a x IH]; intros [|b y] [|c z]; simpl;
    try congruence.
  unfold Ascii.compare.
  destruct (N.compare_spec (N_of_ascii a) (N_of_ascii b)) as [Eab|Lab|Gab];
    destruct (N.compare_spec (N_of_ascii b) (N_of_ascii c)) as [Ebc|Lbc|Gbc];
    destruct (N.compare_spec (N_of_ascii a) (N_of_ascii c)) as [Eac|Lac|Gac];
    intros H1 H2; try congruence; try lia.
  now apply IH with y.
Qed.

Lemma string_ltb_asym (x y : string) :
  String.ltb x y = true -> String.ltb y x = false.
Proof.
  unfold String.ltb. rewrite (String.compare_antisym x y).
  destruct (String.compare y x); simpl; congruence.
Qed.

Lemma string_ltb_negtrans (a b c : string) :
  String.ltb b a = false -> String.ltb c b = false -> String.ltb c a = false.
Proof.
  unfold String.ltb. intros Hba Hcb.
  assert (Hab : String.compare a b <> Gt).
  { rewrite (String.compare_antisym a b). destruct (String.compare b a);
      simpl in *; congruence. }
  assert (Hbc : String.compare b c <> Gt).
  { rewrite (String.compare_antisym b c). destruct (String.compare c b);
      simpl in *; congruence. }
  pose proof (string_compare_le_trans a b c Hab Hbc) as Hac.
  rewrite (String.compare_antisym c a).
  destruct (String.compare a c); simpl in *; congruence.
Qed.

(** The number a key stands for. *)
Lemma key_ltb_numbers (a b : value) :
  is_number a = true -> is_number b = true ->
  exists x y, int_of a = Some x /\ int_of b = Some y /\
              key_ltb a b = Z.ltb x y.
Proof.
  destruct a as [|x|x|x|x|x], b as [|y|y|y|y|y]; try discriminate;
    intros _ _; eexists _, _; repeat split.
Qed.

Lemma key_ltb_asym (a b : value) :
  (is_number a = true /\ is_number b = true) \/
  (is_string a = true /\ is_string b = true) ->
  key_ltb a b = true -> key_ltb b a = false.
Proof.
  intros [[Ha Hb] | [Ha Hb]].
  - destruct (key_ltb_numbers a b Ha Hb) as (x & y & Hx & Hy & ->).
    destruct (key_ltb_numbers b a Hb Ha) as (y' & x' & Hy' & Hx' & ->).
    rewrite Hx in Hx'. rewrite Hy in Hy'. inversion Hx'; inversion Hy'; subst.
    intros H. apply Z.ltb_lt in H. apply Z.ltb_ge. lia.
  - destruct a, b; try discriminate. apply string_ltb_asym.
Qed.

Lemma key_ltb_negtrans (a b c : value) :
  (is_number a = true /\ is_number b = true /\ is_number c = true) \/
  (is_string a = true /\ is_string b = true /\ is_string c = true) ->
  key_ltb b a = false -> key_ltb c b = false -> key_ltb c a = false.
Proof.
  intros [(Ha & Hb & Hc) | (Ha & Hb & Hc)].
  - destruct (key_ltb_numbers b a Hb Ha) as (y & x & Hy & Hx & ->).
    destruct (key_ltb_numbers c b Hc Hb) as (z & y' & Hz & Hy' & ->).
    destruct (key_ltb_numbers c a Hc Ha) as (z' & x' & Hz' & Hx' & ->).
    rewrite Hx in Hx'. rewrite Hy in Hy'. rewrite Hz in Hz'.
    inversion Hx'; inversion Hy'; inversion Hz'; subst.
    intros H1 H2. apply Z.ltb_ge in H1, H2. apply Z.ltb_ge. lia.
  - destruct a, b, c; try discriminate. apply string_ltb_negtrans.
Qed.

(** Keys equal to one value are not smaller than one another. *)
Lemma py_eqb_not_lt (k : value) :
  forall a b, py_eqb a k = true -> py_eqb b k = true -> key_ltb b a = false.
Proof.
  induction k as [|kb|kz|ks|kl IH|kd IH] using value_nested_ind;
    intros a b Ha Hb.
  - destruct a, b; try discriminate. reflexivity.
  - destruct a as [|x|x|x|x|x], b as [|y|y|y|y|y]; try discriminate;
      unfold key_ltb; simpl in *;
      try (apply Bool.eqb_prop in Ha); try (apply Bool.eqb_prop in Hb);
      try (apply Z.eqb_eq in Ha); try (apply Z.eqb_eq in Hb);
      apply Z.ltb_ge; subst; lia.
  - destruct a as [|x|x|x|x|x], b as [|y|y|y|y|y]; try discriminate;
      unfold key_ltb; simpl in *;
      try (apply Z.eqb_eq in Ha); try (apply Z.eqb_eq in Hb);
      apply Z.ltb_ge; subst; lia.
  - destruct a, b; try discriminate. simpl in Ha, Hb.
    apply String.eqb_eq in Ha, Hb. subst. apply string_ltb_irrefl.
  - destruct a as [| | | |al|], b as [| | | |bl|]; try discriminate;
      try reflexivity.
    revert al bl Ha Hb. induction IH as [|k1 kr Hk1 _ IHr]; intros al bl Ha Hb.
    + destruct al, bl; try discriminate. reflexivity.
    + destruct al as [|a1 ar], bl as [|b1 br]; try discriminate.
      rewrite py_eqb_cons in Ha, Hb.
      apply andb_true_iff in Ha, Hb. destruct Ha as [Ha1 Har], Hb as [Hb1 Hbr].
      unfold key_ltb. rewrite py_lt_cons.
      destruct (py_eqb b1 a1).
      * exact (IHr ar br Har Hbr).
      * exact (Hk1 a1 b1 Ha1 Hb1).
  - destruct a, b; try discriminate; reflexivity.
Qed.

End Comparisons.

Section Sorting.

Context {A : Type}.
Implicit Types (x : value * A) (l : list (value * A)).

Lemma insert_by_key_perm x l : Permutation (x :: l) (insert_by_key x l).
Proof.
  induction l as [|y r IH]; simpl; [reflexivity|].
  destruct (key_ltb (fst y) (fst x)); [|reflexivity].
  rewrite perm_swap. now constructor.
Qed.

Lemma sort_by_key_perm l : Permutation l (sort_by_key l).
Proof.
  induction l as [|x r IH]; simpl; [constructor|].
  rewrite <- insert_by_key_perm. now constructor.
Qed.

(** Sortedness, for keys on which [<] is asymmetric and negatively
    transitive. *)
Section Ordered.

Variable D : value -> Prop.
Hypothesis D_asym :
  forall a b, D a -> D b -> key_ltb a b = true -> key_ltb b a = false.
Hypothesis D_negtrans :
  forall a b c, D a -> D b -> D c ->
    key_ltb b a = false -> key_ltb c b = false -> key_ltb c a = false.

Let le_pair (p q : value * A) : Prop := key_le (fst p) (fst q).

Lemma insert_by_key_sorted x l :
  D (fst x) -> Forall (fun p => D (fst p)) l ->
  StronglySorted le_pair l -> StronglySorted le_pair (insert_by_key x l).
Proof.
  intros Hx Hl Hs. induction Hs as [|y r Hr IH Hall]; simpl.
  - constructor; constructor.
  - inversion Hl as [|? ? Hy Hrest]; subst.
    destruct (key_ltb (fst y) (fst x)) eqn:E.
    + constructor; [now apply IH|].
      rewrite <- insert_by_key_perm. constructor; [|assumption].
      unfold le_pair, key_le. now apply D_asym.
    + constructor; [now constructor|].
      constructor; [exact E|].
      rewrite Forall_forall in *. intros z Hz.
      unfold le_pair, key_le in *.
      apply (D_negtrans (fst x) (fst y) (fst z)); auto.
Qed.

Lemma sort_by_key_sorted l :
  Forall (fun p => D (fst p)) l -> StronglySorted le_pair (sort_by_key l).
Proof.
  induction 1 as [|x r Hx Hr IH]; simpl; [constructor|].
  apply insert_by_key_sorted; [assumption| |assumption].
  eapply Permutation_Forall; [apply sort_by_key_perm | exact Hr].
Qed.

End Ordered.

(** Stability: the items whose keys satisfy [P] keep their order, when no
    key satisfying [P] is smaller than another one. *)
Section Stable.

Variable P : value -> bool.
Hypothesis P_flat :
  forall a b, P a = true -> P b = true -> key_ltb b a = false.

Lemma insert_by_key_filter x l :
  filter (fun p => P (fst p)) (insert_by_key x l)
  = filter (fun p => P (fst p)) (x :: l).
Proof.
  induction l as [|y r IH]; [reflexivity|].
  cbn [insert_by_key].
  destruct (key_ltb (fst y) (fst x)) eqn:E; [|reflexivity].
  cbn [filter] in *. rewrite IH.
  destruct (P (fst x)) eqn:Ex; [|reflexivity].
  destruct (P (fst y)) eqn:Ey; [|reflexivity].
  rewrite (P_flat (fst x) (fst y) Ex Ey) in E. discriminate.
Qed.

Lemma sort_by_key_filter l :
  filter (fun p => P (fst p)) (sort_by_key l)
  = filter (fun p => P (fst p)) l.
Proof.
  induction l as [|x r IH]; [reflexivity|].
  cbn [sort_by_key]. rewrite insert_by_key_filter. cbn [filter].
  now rewrite IH.
Qed.

End Stable.

Lemma filter_map_snd {X} (g : A -> bool) (ps : list (X * A)) :
  filter g (map snd ps) = map snd (filter (fun p => g (snd p)) ps).
Proof.
  induction ps as [|p r IH]; [reflexivity|]. cbn [map filter].
  destruct (g (snd p)); cbn [map]; now rewrite IH.
Qed.

End Sorting.

Section PySorted.

Context {A : Type}.
Variable key : A -> result value.

Lemma rmap_length {X Y} (f : X -> result Y) l ys :
  rmap f l = Ok ys -> List.length ys = List.length l.
Proof.
  revert ys. induction l as [|a r IH]; intros ys H; simpl in H.
  - now inversion H.
  - step_ok H. inversion H. simpl. f_equal. now apply IH.
Qed.

Lemma rmap_Forall {X Y} (f : X -> result Y) l ys :
  rmap f l = Ok ys -> Forall (fun a => exists b, f a = Ok b) l.
Proof.
  revert ys. induction l as [|a r IH]; intros ys H; simpl in H;
    [constructor|].
  step_ok H. constructor; eauto.
Qed.

Lemma map_snd_combine {X Y} (xs : list X) (ys : list Y) :
  List.length xs = List.length ys -> map snd (combine xs ys) = ys.
Proof.
  revert ys. induction xs as [|x r IH]; intros [|y ys] H; simpl in *;
    try discriminate; [reflexivity|].
  f_equal. apply IH. now inversion H.
Qed.

Lemma keys_of_items l keys :
  rmap key l = Ok keys ->
  Forall (fun p => fst p = key_of key (snd p)) (combine keys l).
Proof.
  revert keys. induction l as [|a r IH]; intros keys Hk; simpl in Hk.
  - inversion Hk; subst. constructor.
  - step_ok Hk. inversion Hk; subst keys. clear Hk.
    simpl. constructor; [|now apply IH].
    simpl. unfold key_of. now rewrite Hc.
Qed.

Lemma rmap_keys l keys :
  rmap key l = Ok keys -> keys = map (key_of key) l.
Proof.
  revert keys. induction l as [|a r IH]; intros keys Hk; simpl in Hk.
  - now inversion Hk.
  - step_ok Hk. inversion Hk; subst keys. simpl. unfold key_of at 1.
    rewrite Hc. f_equal. now apply IH.
Qed.

(** What [sorted] returns, when it returns: either the list has at most
    one item, or the items sorted by their keys. *)
Lemma py_sorted_ok l sorted :
  py_sorted key l = Ok sorted ->
  Forall (fun a => exists k, key a = Ok k) l /\
  (sorted = l /\ List.length l <= 1 \/
   sorted = map snd (sort_by_key (combine (map (key_of key) l) l))).
Proof.
  unfold py_sorted. intros H. apply rbind_ok in H.
  destruct H as (keys & Hkeys & H). cbv beta in H.
  split; [now apply rmap_Forall with keys|].
  destruct (Nat.leb_spec (List.length l) 1) as [Hlen|Hlen].
  - left. split; [congruence | exact Hlen].
  - destruct (forallb _ keys); [|discriminate].
    right. rewrite <- (rmap_keys l keys Hkeys). congruence.
Qed.

Lemma combine_keys_length l :
  List.length (map (key_of key) l) = List.length l.
Proof. apply length_map. Qed.

Lemma combine_keys l :
  Forall (fun p => fst p = key_of key (snd p))
         (combine (map (key_of key) l) l).
Proof. induction l as [|a r IH]; simpl; constructor; auto. Qed.

(** [sorted] returns a rearrangement of the list. *)
Lemma py_sorted_perm l sorted :
  py_sorted key l = Ok sorted -> Permutation l sorted.
Proof.
  intros H. apply py_sorted_ok in H.
  destruct H as [_ [[-> _] | ->]]; [reflexivity|].
  rewrite <- (map_snd_combine (map (key_of key) l) l (combine_keys_length l))
    at 1.
  apply Permutation_map, sort_by_key_perm.
Qed.

(** With keys that are numbers, or keys that are strings, the result is in
    ascending order of the keys. *)
Lemma py_sorted_ascending l sorted :
  py_sorted key l = Ok sorted ->
  scalar_keys (map (key_of key) l) = true ->
  StronglySorted (fun a b => key_le (key_of key a) (key_of key b)) sorted.
Proof.
  intros H Hsc. apply py_sorted_ok in H.
  destruct H as [_ [[-> Hlen] | ->]].
  - destruct l as [|a [|b r]]; simpl in Hlen; try lia; repeat constructor.
  - set (ps := combine (map (key_of key) l) l).
    assert (Hfst : Forall (fun p => fst p = key_of key (snd p)) (sort_by_key ps)).
    { eapply Permutation_Forall; [apply sort_by_key_perm | apply combine_keys]. }
    assert (Hkeys : forall D : value -> bool,
               forallb D (map (key_of key) l) = true ->
               Forall (fun p => D (fst p) = true) ps).
    { intros D HD. rewrite forallb_forall in HD. apply Forall_forall.
      intros [k a] Hp. apply HD. exact (in_combine_l _ _ _ _ Hp). }
    assert (Hs : StronglySorted (fun p q => key_le (fst p) (fst q))
                                (sort_by_key ps)).
    { unfold scalar_keys in Hsc. apply orb_true_iff in Hsc.
      destruct Hsc as [Hn|Hn].
      - apply (sort_by_key_sorted (fun v => is_number v = true));
          [| |now apply Hkeys].
        + intros a b Ha Hb. apply key_ltb_asym. auto.
        + intros a b c Ha Hb Hc. apply key_ltb_negtrans. auto.
      - apply (sort_by_key_sorted (fun v => is_string v = true));
          [| |now apply Hkeys].
        + intros a b Ha Hb. apply key_ltb_asym. auto.
        + intros a b c Ha Hb Hc. apply key_ltb_negtrans. auto. }
    clear Hkeys. induction Hs as [|p r Hr IH Hle]; simpl; [constructor|].
    inversion Hfst as [|? ? Hp Hrest]; subst.
    constructor; [now apply IH|].
    rewrite Forall_forall in *. intros b Hb. apply in_map_iff in Hb.
    destruct Hb as (q & <- & Hq).
    specialize (Hle q Hq). specialize (Hrest q Hq).
    now rewrite <- Hp, <- Hrest.
Qed.

(** [sorted] is stable: the items whose key equals a given value keep
    their order. *)
Lemma py_sorted_stable l sorted k :
  py_sorted key l = Ok sorted -> with_key key k sorted = with_key key k l.
Proof.
  unfold with_key. intros H. apply py_sorted_ok in H.
  destruct H as [_ [[-> _] | ->]]; [reflexivity|].
  set (ps := combine (map (key_of key) l) l).
  assert (Hfst : Forall (fun p => fst p = key_of key (snd p)) (sort_by_key ps)).
  { eapply Permutation_Forall; [apply sort_by_key_perm | apply combine_keys]. }
  rewrite filter_map_snd.
  rewrite (filter_ext_in _ (fun p => py_eqb (fst p) k)).
  2:{ intros p Hp. rewrite Forall_forall in Hfst. now rewrite (Hfst p Hp). }
  rewrite (sort_by_key_filter (fun v => py_eqb v k) (py_eqb_not_lt k)).
  rewrite (filter_ext_in _ (fun p => py_eqb (key_of key (snd p)) k)).
  2:{ intros p Hp. pose proof (combine_keys l) as Hc.
      rewrite Forall_forall in Hc. now rewrite (Hc p Hp). }
  rewrite <- (filter_map_snd (fun a => py_eqb (key_of key a) k)).
  unfold ps. now rewrite (map_snd_combine _ l (combine_keys_length l)).
Qed.

End PySorted.

(** ** The sequence renderer *)

Section SequenceFacts.

Import Sequence.





Lemma vdict_set_absent {X} key (v : X) d :
  vdict_lookup key d = None -> vdict_set key v d = d ++ [(key, v)].
Proof.
  induction d as [|[k0 v0] r IH]; simpl; [reflexivity|].
  destruct (py_eqb key k0); [discriminate|]. intros H. now rewrite IH.
Qed.

Lemma add_participant_first_seen seq p seq' :
  add_participant seq p = Ok seq' ->
  sequence_steps seq' = sequence_steps seq /\
  match vdict_lookup (participant_id p) (participants seq) with
  | Some _ => participants seq' = participants seq
  | None => participants seq' = participants seq ++ [(participant_id p, p)]
  end.
Proof.
  unfold add_participant, vdict_mem.
  destruct (hashable (participant_id p)); simpl; [|discriminate].
  destruct (vdict_lookup (participant_id p) (participants seq)) eqn:E;
    intros H; inversion H; subst; simpl; split; try reflexivity.
  now apply vdict_set_absent.
Qed.


Variables (net : network) (flow : value).




End SequenceFacts.


(** ** The hierarchy pass *)

Section Hierarchy.

Import Diagram.

Variable od : list (string * value).

Lemma ensure_parent_ensured p mdia mdia1 :
  ensure_parent (VDict od) p mdia = Ok mdia1 -> ensured od p mdia mdia1.
Proof.
  unfold ensure_parent, ensured.
  destruct (truthy p) eqn:Et.
  - intros H. step_ok H. destruct v.
    + (* already a node *)
      inversion H; subst. left. auto.
    + cbn [negb] in H. step_ok H. cbn [py_contains] in Hc0. destruct v.
      * step_ok H. apply add_node_call_ok in H.
        destruct H as (ps & pn & -> & -> & ->).
        right. exists ps, v, pn, v1. simpl in Hc, Hc1.
        assert (Hm : dict_mem ps (nodes mdia) = false) by congruence.
        repeat split; try assumption.
        destruct (dict_lookup ps od); now inversion Hc1.
      * inversion H; subst. left. split; [reflexivity|]. intros _ Hin. congruence.
  - intros H. inversion H. left. split; [reflexivity|]. discriminate.
Qed.

Lemma add_node_mem self id name parent_id x :
  dict_mem x (nodes (add_node self id name parent_id))
  = String.eqb x id || dict_mem x (nodes self).
Proof. apply dict_mem_set. Qed.

Lemma key_in_dict_add_node self id name parent_id v :
  key_in_dict v (nodes self) = Ok true ->
  key_in_dict v (nodes (add_node self id name parent_id)) = Ok true.
Proof.
  destruct v; simpl; try discriminate. intros H. inversion H as [Hm].
  rewrite dict_mem_set, Hm. now rewrite orb_true_r.
Qed.

Lemma ensured_mem p mdia mdia1 x :
  ensured od p mdia mdia1 ->
  dict_mem x (nodes mdia) = true -> dict_mem x (nodes mdia1) = true.
Proof.
  intros [[-> _] | (ps & pd & pn & pp & _ & _ & _ & _ & ->)] H; [assumption|].
  rewrite add_node_mem, H. apply orb_true_r.
Qed.

Lemma ensured_key p mdia mdia1 v :
  ensured od p mdia mdia1 ->
  key_in_dict v (nodes mdia) = Ok true -> key_in_dict v (nodes mdia1) = Ok true.
Proof.
  intros [[-> _] | (ps & pd & pn & pp & _ & _ & _ & _ & ->)] H; [assumption|].
  now apply key_in_dict_add_node.
Qed.

Lemma ensured_parent p mdia mdia1 :
  ensured od p mdia mdia1 ->
  truthy p = true -> key_in_dict p od = Ok true ->
  key_in_dict p (nodes mdia1) = Ok true.
Proof.
  intros [[-> H] | (ps & pd & pn & pp & -> & _ & _ & _ & ->)] Ht Hin; [auto|].
  simpl. now rewrite dict_mem_set, String.eqb_refl.
Qed.

Lemma ensured_inv done p mdia mdia1 :
  ensured od p mdia mdia1 ->
  hierarchy_inv od done mdia -> hierarchy_inv od done mdia1.
Proof.
  intros He (Hkeys & Hdone & Hpar).
  destruct He as [[-> _] | (ps & pd & pn & pp & -> & Hnew & Hpd & Hpp & ->)];
    [now repeat split|].
  repeat split.
  - intros n. rewrite add_node_mem.
    destruct (String.eqb_spec n ps) as [->|Hn]; simpl; [|apply Hkeys].
    intros _. unfold dict_mem. now rewrite Hpd.
  - intros n data Hin Hr. rewrite add_node_mem, (Hdone n data Hin Hr).
    apply orb_true_r.
  - intros n nd Hn Ht Hin.
    destruct (String.eqb_spec n ps) as [->|Hne].
    + rewrite add_node_lookup_same in Hn. inversion Hn; subst nd. simpl in *.
      right. exists pd. split; [assumption|]. split; [assumption|].
      intros Hd. destruct (renderable pd) eqn:Er; [|reflexivity].
      rewrite (Hdone ps pd Hd Er) in Hnew. discriminate.
    + rewrite add_node_lookup_other in Hn by assumption.
      destruct (Hpar n nd Hn Ht Hin) as [H|H]; [|now right].
      left. now apply key_in_dict_add_node.
Qed.

Lemma place_object_ok net dia_to_model mdia k kd w w' mdia' :
  place_object net (VDict od) dia_to_model mdia (k, kd) w = (w', Ok mdia') ->
  (renderable kd = false /\ mdia' = mdia) \/
  (renderable kd = true /\
   exists p mdia1,
     ensured od p mdia mdia1 /\
     ((exists name, mdia' = add_node mdia1 k name p) \/
      (dict_mem k (nodes mdia1) = true /\ mdia' = mdia1 /\
       py_get kd "parentId" VNone = Ok p))).
Proof.
  unfold place_object. intros H. step_ok H.
  apply py_get_field_ok in Hc. destruct Hc as [-> Hdict].
  unfold renderable.
  destruct (truthy (field kd "modelId")) eqn:Em.
  - (* model-backed *)
    step_ok H. right. split; [reflexivity|].
    apply add_node_call_ok in H. destruct H as (i & n & Hi & -> & ->).
    inversion Hi; subst i.
    eexists _, _. split; [eapply ensure_parent_ensured; eassumption|].
    left. eauto.
  - (* group *)
    step_ok H. cbn [orb].
    match goal with
    | Hname : py_get kd "name" VNone = Ok ?name |- _ =>
        apply py_get_field_ok in Hname; destruct Hname as [-> _]
    end.
    match goal with
    | Hx : _ = (_, Ok ?y) |- _ =>
        match type of y with
        | option value => rename y into named; rename Hx into Hsel
        end
    end.
    assert (Hnamed :
              match named with
              | Some _ => truthy (field kd "name")
                          || py_eqb (field kd "type") (VStr "boundary")
                          || dict_has kd "style" = true
              | None => truthy (field kd "name")
                        || py_eqb (field kd "type") (VStr "boundary")
                        || dict_has kd "style" = false
              end).
    { destruct (truthy (field kd "name")); cbn [negb orb] in *.
      - apply ret_ok in Hsel. destruct Hsel as [_ ->]. reflexivity.
      - step_ok Hsel.
        match goal with
        | Htype : py_get kd "type" VNone = Ok ?t |- _ =>
            apply py_get_field_ok in Htype; destruct Htype as [-> _]
        end.
        destruct (py_eqb (field kd "type") (VStr "boundary")); cbn [orb].
        + apply ret_ok in Hsel. destruct Hsel as [_ ->]. reflexivity.
        + step_ok Hsel.
          match goal with
          | Hst : py_contains (VStr "style") kd = Ok ?b |- _ =>
              assert (Hb : b = dict_has kd "style")
                by (destruct kd; simpl in *; try discriminate; congruence);
              rewrite <- Hb; destruct b
          end; apply ret_ok in Hsel; destruct Hsel as [_ ->]; reflexivity. }
    destruct named as [name|].
    + right. split; [assumption|]. step_ok H.
      eexists _, _. split; [eapply ensure_parent_ensured; eassumption|].
      match goal with
      | |- context [dict_mem k (nodes ?m)] =>
          destruct (dict_mem k (nodes m)) eqn:Ek
      end.
      * apply ret_ok in H. destruct H as [_ ->]. right. auto.
      * apply lift_ok in H. destruct H as [_ H].
        apply add_node_call_ok in H. destruct H as (i & n & Hi & -> & ->).
        inversion Hi; subst i. left. eauto.
    + left. apply ret_ok in H. destruct H as [_ ->]. auto.
Qed.

Lemma write_inv done k kd p mdia1 name :
  hierarchy_inv od done mdia1 ->
  dict_lookup k od = Some kd ->
  (truthy p = true -> key_in_dict p od = Ok true ->
   key_in_dict p (nodes mdia1) = Ok true) ->
  hierarchy_inv od (done ++ [(k, kd)]) (add_node mdia1 k name p).
Proof.
  intros (Hkeys & Hdone & Hpar) Hk Hp. repeat split.
  - intros n. rewrite add_node_mem.
    destruct (String.eqb_spec n k) as [->|Hn]; simpl; [|apply Hkeys].
    intros _. unfold dict_mem. now rewrite Hk.
  - intros n data Hin Hr. rewrite add_node_mem. apply in_app_or in Hin.
    destruct Hin as [Hin|[Hin|[]]].
    + rewrite (Hdone n data Hin Hr). apply orb_true_r.
    + inversion Hin; subst. now rewrite String.eqb_refl.
  - intros n nd Hn Ht Hin.
    destruct (String.eqb_spec n k) as [->|Hne].
    + rewrite add_node_lookup_same in Hn. inversion Hn; subst nd. simpl in *.
      left. apply key_in_dict_add_node. auto.
    + rewrite add_node_lookup_other in Hn by assumption.
      destruct (Hpar n nd Hn Ht Hin) as [H|(data & Hd & Hg & Hnr)].
      * left. now apply key_in_dict_add_node.
      * right. exists data. split; [assumption|]. split; [assumption|].
        intros Hin'. apply in_app_or in Hin'.
        destruct Hin' as [Hin'|[Hin'|[]]]; [auto|].
        inversion Hin'. congruence.
Qed.

Lemma keep_inv done k kd p mdia1 :
  hierarchy_inv od done mdia1 ->
  dict_lookup k od = Some kd ->
  dict_mem k (nodes mdia1) = true ->
  py_get kd "parentId" VNone = Ok p ->
  (truthy p = true -> key_in_dict p od = Ok true ->
   key_in_dict p (nodes mdia1) = Ok true) ->
  hierarchy_inv od (done ++ [(k, kd)]) mdia1.
Proof.
  intros (Hkeys & Hdone & Hpar) Hk Hmem Hget Hp. repeat split.
  - assumption.
  - intros n data Hin Hr. apply in_app_or in Hin.
    destruct Hin as [Hin|[Hin|[]]]; [eauto|]. now inversion Hin; subst.
  - intros n nd Hn Ht Hin.
    destruct (Hpar n nd Hn Ht Hin) as [H|(data & Hd & Hg & Hnr)]; [now left|].
    destruct (String.eqb_spec n k) as [->|Hne].
    + left. rewrite Hk in Hd. inversion Hd; subst data.
      rewrite Hget in Hg. inversion Hg; subst p. auto.
    + right. exists data. split; [assumption|]. split; [assumption|].
      intros Hin'. apply in_app_or in Hin'.
      destruct Hin' as [Hin'|[Hin'|[]]]; [auto|].
      inversion Hin'. congruence.
Qed.

Lemma skip_inv done k kd mdia :
  hierarchy_inv od done mdia ->
  renderable kd = false ->
  hierarchy_inv od (done ++ [(k, kd)]) mdia.
Proof.
  intros (Hkeys & Hdone & Hpar) Hr. repeat split.
  - assumption.
  - intros n data Hin Hr'. apply in_app_or in Hin.
    destruct Hin as [Hin|[Hin|[]]]; [eauto|]. inversion Hin; subst. congruence.
  - intros n nd Hn Ht Hin.
    destruct (Hpar n nd Hn Ht Hin) as [H|(data & Hd & Hg & Hnr)]; [now left|].
    right. exists data. split; [assumption|]. split; [assumption|].
    intros Hin'. apply in_app_or in Hin'.
    destruct Hin' as [Hin'|[Hin'|[]]]; [auto|]. now inversion Hin'; subst.
Qed.

Lemma place_object_inv net dia_to_model done mdia k kd w w' mdia' :
  hierarchy_inv od done mdia ->
  dict_lookup k od = Some kd ->
  place_object net (VDict od) dia_to_model mdia (k, kd) w = (w', Ok mdia') ->
  hierarchy_inv od (done ++ [(k, kd)]) mdia'.
Proof.
  intros Hinv Hk H. apply place_object_ok in H.
  destruct H as [[Hr ->] | (Hr & p & mdia1 & He & H)].
  - now apply skip_inv.
  - pose proof (ensured_inv done p mdia mdia1 He Hinv) as Hinv1.
    pose proof (ensured_parent p mdia mdia1 He) as Hp.
    destruct H as [(name & ->) | (Hmem & -> & Hget)].
    + now apply write_inv.
    + now apply keep_inv with p.
Qed.

Lemma place_objects_inv net dia_to_model items :
  forall done mdia w w' mdia',
    (forall k kd, In (k, kd) items -> dict_lookup k od = Some kd) ->
    hierarchy_inv od done mdia ->
    for_each (place_object net (VDict od) dia_to_model) items mdia w
    = (w', Ok mdia') ->
    hierarchy_inv od (done ++ items) mdia'.
Proof.
  induction items as [|[k kd] rest IH]; intros done mdia w w' mdia' Hitems Hinv H;
    cbn [for_each] in H.
  - apply ret_ok in H. destruct H as [_ ->]. now rewrite app_nil_r.
  - apply bind_ok in H. destruct H as (mdia1 & w1 & Hstep & H).
    replace (done ++ (k, kd) :: rest) with ((done ++ [(k, kd)]) ++ rest)
      by now rewrite <- app_assoc.
    apply (IH (done ++ [(k, kd)]) mdia1 w1 w' mdia'); [| |assumption].
    + intros k0 kd0 Hin. apply Hitems. now right.
    + apply (place_object_inv net dia_to_model done mdia k kd w w1 mdia1);
        [assumption| |assumption].
      apply Hitems. now left.
Qed.

Lemma build_children_roots items :
  forall ns roots ns1 roots1,
    build_children items ns roots = (ns1, Ok roots1) ->
    incl roots roots1 /\
    forall k nd, In (k, nd) items -> truthy (node_parent nd) = false ->
                 In k roots1.
Proof.
  induction items as [|[k0 n0] rest IH]; intros ns roots ns1 roots1 H;
    simpl in H.
  - inversion H; subst. split; [apply incl_refl | intros ? ? []].
  - destruct (truthy (node_parent n0)) eqn:Et.
    + destruct (key_in_dict (node_parent n0) ns) as [[|]|e]; [| |discriminate];
        apply IH in H; destruct H as [Hincl Hrest]; (split;
          [intros x Hx; apply Hincl; try (apply in_or_app; left); exact Hx|]);
        intros k nd [Hin|Hin] Hf; try (inversion Hin; subst; congruence);
        eauto.
    + apply IH in H. destruct H as [Hincl Hrest]. split.
      * intros x Hx. apply Hincl. apply in_or_app. now left.
      * intros k nd [Hin|Hin] Hf; [|eauto].
        inversion Hin; subst. apply Hincl. apply in_or_app. right. now left.
Qed.

Lemma roots_of_detached self roots n nd :
  roots_of self = Ok roots ->
  dict_lookup n (nodes self) = Some nd ->
  truthy (node_parent nd) = false -> In n roots.
Proof.
  unfold roots_of. intros H Hn Hf.
  destruct (build_children _ _ _) as [ns1 r] eqn:Eb. simpl in H. subst r.
  apply build_children_roots in Eb. destruct Eb as [_ Hroots].
  apply (Hroots n (set_children nd [])); [|assumption].
  apply dict_lookup_Some_In in Hn. unfold reset_children.
  apply in_map_iff. exists (n, nd). auto.
Qed.

End Hierarchy.

(** ** The theorems at sample inputs *)

Lemma get_diagram_data_never_caches_at_d1 :
  hashable (VStr "d1") = true /\
  diagram_cache initial_world = [] /\
  let w1 := fst (get_diagram_data net_complete (VStr "d1") initial_world) in
  diagram_cache w1 = [] /\
  exists sent,
    requests_log (fst (get_diagram_data net_complete (VStr "d1") w1))
    = requests_log w1 ++ GetDiagram "d1" "" :: sent.
Proof.
  split; [reflexivity|]. split; [reflexivity|].
  apply (get_diagram_data_never_caches net_complete (VStr "d1") initial_world);
    reflexivity.
Defined.

(** Two calls in a row send the request for the diagram twice. *)
Example get_diagram_data_two_calls :
  requests_log
    (fst (get_diagram_data net_complete (VStr "d1")
            (fst (get_diagram_data net_complete (VStr "d1") initial_world))))
  = [GetDiagram "d1" ""; GetDiagram "d1" ""].
Proof. reflexivity. Qed.

Lemma net_complete_well_shaped : answers_well_shaped net_complete (VStr "d1").
Proof.
  intros log suffix. destruct suffix as [|c s]; simpl.
  - intros _. eexists. split; reflexivity.
  - discriminate.
Defined.

Lemma get_diagram_data_result_at_d1 :
  hashable (VStr "d1") = true /\
  diagram_cache initial_world = [] /\
  answers_well_shaped net_complete (VStr "d1") /\
  exists w' v,
    get_diagram_data net_complete (VStr "d1") initial_world = (w', Ok v) /\
    if (status_code (net_complete (requests_log initial_world)
                                  (GetDiagram "d1" "")) =? 200)%Z
    then exists d objs rels,
        v = VDict d /\
        dict_lookup "objects" d = Some (VDict objs) /\
        dict_lookup "relationships" d = Some (VList rels)
    else v = VNone.
Proof.
  split; [reflexivity|]. split; [reflexivity|].
  split; [exact net_complete_well_shaped|].
  apply (get_diagram_data_result net_complete (VStr "d1") initial_world);
    [reflexivity | reflexivity | exact net_complete_well_shaped].
Defined.

Lemma get_model_object_sentinels_at_m1 :
  vdict_lookup VNone (model_objects initial_world) = None /\
  get_model_object net_not_found VNone initial_world
  = (initial_world, Ok unknown_object) /\
  exists w',
    get_model_object net_not_found (VStr "m1") initial_world
    = (w', Ok (dummy_object (VStr "m1"))) /\
    vdict_lookup (VStr "m1") (model_objects w') = Some (dummy_object (VStr "m1")) /\
    requests_log w' = requests_log initial_world ++ [GetModelObject "m1"].
Proof.
  split; [reflexivity|].
  destruct (get_model_object_sentinels net_not_found initial_world) as [H1 H2].
  split; [apply H1; reflexivity|].
  apply (H2 (VStr "m1") (VDict [])); reflexivity.
Defined.

Lemma infer_relationships_at_two_connections :
  let od := [("o1", VDict [("modelId", VStr "M1")]);
             ("g", VDict [("name", VStr "Group")]);
             ("o2", VDict [("modelId", VStr "M2")])] in
  NoDup (dict_keys od) /\
  build_dia_to_model (VDict od) = Ok [("o1", VStr "M1"); ("o2", VStr "M2")] /\
  hashable (VStr "d1") = true /\
  forallb hashable (dict_values (model_ids_of od)) = true /\
  snd (infer_relationships net_connections (VStr "d1") (model_ids_of od)
                           (VList []) initial_world)
  = Ok (VList [VDict [("sourceId", VStr "o1"); ("targetId", VStr "o2");
                      ("label", VStr "uses"); ("modelId", VStr "c1")]]).
Proof.
  intros od.
  assert (Hnd : NoDup (dict_keys od)).
  { repeat constructor; simpl; intuition discriminate. }
  destruct (infer_relationships_both_endpoints net_connections (VStr "d1")
              initial_world) as (_ & H & Hmap & _).
  split; [exact Hnd|]. split; [reflexivity|].
  split; [reflexivity|]. split; [reflexivity|].
  pose proof (Hmap od _ Hnd eq_refl) as E.
  rewrite (H (model_ids_of od) _ _ eq_refl eq_refl eq_refl eq_refl eq_refl
             eq_refl).
  reflexivity.
Defined.

Lemma generate_twice_same_text_at_group :
  let self := Diagram.add_node diagram_with_group "C" "Service" (VStr "P") in
  NoDup (dict_keys (nodes self)) /\
  snd (Diagram.generate self) <> inl OutOfFuel /\
  snd (Diagram.generate (fst (Diagram.generate self)))
  = snd (Diagram.generate self).
Proof.
  intros self.
  assert (Hnd : NoDup (dict_keys (nodes self))).
  { repeat constructor; simpl; intuition discriminate. }
  destruct (generate_twice_same_text self) as (H1 & _ & H3).
  split; [exact Hnd|]. split; [exact (H3 Hnd) | exact H1].
Defined.

Lemma unresolved_endpoint_no_edge_at_unknown_source :
  let objects := VDict [("o1", VDict [("name", VStr "Orders")])] in
  let mdia := Diagram.add_node (Diagram.new "d") "o1" "Orders" VNone in
  let rel := VDict [("sourceId", VStr "zz"); ("targetId", VStr "o1")] in
  absent objects (nodes mdia) (VStr "zz") /\
  snd (place_relationship net_not_found objects mdia rel initial_world)
  = Ok mdia.
Proof.
  intros objects mdia rel.
  assert (Habs : absent objects (nodes mdia) (VStr "zz")) by (split; reflexivity).
  split; [exact Habs|].
  destruct (unresolved_endpoint_no_edge net_not_found objects) as [H _].
  destruct (place_relationship net_not_found objects mdia rel initial_world)
    as [w' [mdia'|e]] eqn:E.
  - simpl. f_equal.
    apply (H mdia rel initial_world w' mdia' (VStr "zz") (VStr "o1"));
      [reflexivity | reflexivity | now left | exact E].
  - vm_compute in E. discriminate E.
Defined.

Lemma add_node_last_write_wins_at_group :
  dict_mem "P" (nodes diagram_with_group) = true /\
  dict_lookup "P"
    (nodes (Diagram.add_node diagram_with_group "P" "Payments" VNone))
  = Some (mkNode "P" "Payments" VNone []) /\
  exists w' mdia',
    place_object net_service (VDict [("P", VDict [("modelId", VStr "M1")])])
                 [("P", VStr "M1")] diagram_with_group
                 ("P", VDict [("modelId", VStr "M1")]) initial_world
    = (w', Ok mdia') /\
    option_map node_name (dict_lookup "P" (nodes mdia')) = Some "Service".
Proof.
  split; [reflexivity|].
  destruct (add_node_last_write_wins diagram_with_group "P" "Payments" VNone
              eq_refl) as (H1 & _ & _ & _ & H5).
  split; [exact H1|].
  eexists _, _. split; [vm_compute; reflexivity|].
  match goal with
  | |- option_map _ (dict_lookup _ (nodes ?m)) = _ =>
      destruct (H5 net_service
                   (VDict [("P", VDict [("modelId", VStr "M1")])])
                   [("P", VStr "M1")] (VDict [("modelId", VStr "M1")])
                   (VStr "M1") initial_world _ m eq_refl eq_refl eq_refl)
        as (model_obj & model_name & fp & w1 & Hg & Hn & Hl)
  end.
  rewrite Hl. vm_compute in Hg. inversion Hg; subst.
  vm_compute in Hn. now inversion Hn.
Defined.


(** * Further properties of the code *)

(** ** The cache of model objects *)

Section ModelObjectCache.

Lemma vdict_lookup_app {A} key (d d' : list (value * A)) v :
  vdict_lookup key d = Some v -> vdict_lookup key (d ++ d') = Some v.
Proof.
  induction d as [|[k0 v0] r IH]; cbn [vdict_lookup app]; [discriminate|].
  destruct (py_eqb key k0); auto.
Qed.

Lemma get_model_object_cases net id w :
  let r := get_model_object net id w in
  (* the id cannot be hashed *)
  (hashable id = false /\ r = (w, Raise TypeError)) \/
  (* cached *)
  (exists v, hashable id = true /\
             vdict_lookup id (model_objects w) = Some v /\ r = (w, Ok v)) \/
  (* None *)
  (is_none id = true /\ vdict_lookup id (model_objects w) = None /\
   r = (w, Ok unknown_object)) \/
  (* fetched *)
  (hashable id = true /\ is_none id = false /\
   vdict_lookup id (model_objects w) = None /\
   let w1 := mkWorld (model_objects w) (diagram_cache w)
                     (requests_log w ++ [GetModelObject (py_str id)]) in
   ((exists e, r = (w1, Raise e)) \/
    (exists v, r = (mkWorld (model_objects w ++ [(id, v)]) (diagram_cache w)
                            (requests_log w ++ [GetModelObject (py_str id)]), Ok v)))).
Proof.
  intros r. subst r. unfold get_model_object, bind, read, vdict_mem.
  destruct (hashable id) eqn:Hh; [|now left].
  right. destruct (vdict_lookup id (model_objects w)) as [v|] eqn:Ec;
    cbv beta iota.
  { left. exists v. rewrite Ec. auto. }
  right. destruct (is_none id) eqn:En.
  { left. auto. }
  right. split; [reflexivity|]. split; [reflexivity|]. split; [reflexivity|].
  unfold requests_get, lift, response_json, ret, store_model_object.
  cbn [body fst snd model_objects diagram_cache requests_log].
  destruct (body _) as [j|]; [|left; eauto].
  destruct (py_contains (VStr "modelObject") j) as [[|]|e]; [| |left; eauto].
  - destruct (py_getitem j (VStr "modelObject")) as [v|e]; [|left; eauto].
    right. exists v. cbn [model_objects diagram_cache requests_log].
    now rewrite (vdict_set_absent id v _ Ec).
  - destruct (py_contains (VStr "id") j) as [[|]|e]; [| |left; eauto];
      right; eexists; cbn [model_objects diagram_cache requests_log];
      now rewrite (vdict_set_absent id _ _ Ec).
Qed.

Lemma keeps_cache_get_model_object net id : keeps_cache (get_model_object net id).
Proof.
  intros w id' v' Hc.
  destruct (get_model_object_cases net id w)
    as [[_ ->] | [(v & _ & _ & ->) | [(_ & _ & ->) |
        (_ & _ & _ & [(e & ->) | (v & ->)])]]]; simpl; try assumption.
  now apply vdict_lookup_app.
Qed.

End ModelObjectCache.

(** X1.  [get_model_object] memoizes: once a call for an id has returned an
    object, a later call for the same id returns that object and leaves the
    process state as it is (no request), whatever the service would
    answer. *)
Theorem get_model_object_memoized
  (net net' : network) (id : value) (w w1 : world) (v : value) :
  get_model_object net id w = (w1, Ok v) ->
  get_model_object net' id w1 = (w1, Ok v).
Proof.
  intros H.
  destruct (get_model_object_cases net id w)
    as [[_ E] | [(v0 & Hh & Hc & E) | [(Hn & Hc & E) |
        (Hh & Hn & Hc & [(e & E) | (v0 & E)])]]];
    cbv zeta in E; rewrite E in H; inversion H; subst; clear H.
  - unfold get_model_object, bind, read, vdict_mem. rewrite Hh, Hc.
    cbv beta iota. now rewrite Hc.
  - unfold get_model_object, bind, read, vdict_mem.
    destruct id; try discriminate. cbn [hashable]. rewrite Hc.
    reflexivity.
  - assert (Hl : vdict_lookup id (model_objects w ++ [(id, v)]) = Some v).
    { rewrite <- (vdict_set_absent id v _ Hc). now apply vdict_lookup_set_same. }
    unfold get_model_object, bind, read, vdict_mem. rewrite Hh.
    cbv beta. cbn [model_objects]. rewrite Hl. cbv beta iota.
    cbn [model_objects]. now rewrite Hl.
Qed.

(** X2.  The footprint of one call of [get_model_object]: it sends no
    request or the single request for that id, the latter only for an id
    that is neither cached nor [None]; it never touches [diagram_cache];
    and when it raises, [model_objects] is exactly as before, nothing is
    cached for a failed fetch. *)
Theorem get_model_object_footprint (net : network) (id : value) (w : world) :
  let w1 := fst (get_model_object net id w) in
  diagram_cache w1 = diagram_cache w /\
  (requests_log w1 = requests_log w \/
   (requests_log w1 = requests_log w ++ [GetModelObject (py_str id)] /\
    is_none id = false /\ vdict_lookup id (model_objects w) = None)) /\
  (forall e, snd (get_model_object net id w) = Raise e ->
             model_objects w1 = model_objects w).
Proof.
  destruct (get_model_object_cases net id w)
    as [[_ E] | [(v0 & Hh & Hc & E) | [(Hn & Hc & E) |
        (Hh & Hn & Hc & [(e & E) | (v0 & E)])]]];
    cbv zeta in E |- *; rewrite E; cbn [fst snd diagram_cache requests_log
                                        model_objects];
    (split; [reflexivity|]); split; auto; intros e' He; try reflexivity;
    discriminate He.
Qed.

Section KeepsCache.

Lemma keeps_cache_ret {A} (a : A) : keeps_cache (ret a).
Proof. now intros w id v H. Qed.

Lemma keeps_cache_lift {A} (r : result A) : keeps_cache (lift r).
Proof. now intros w id v H. Qed.

Lemma keeps_cache_read {A} (f : world -> result A) : keeps_cache (read f).
Proof. now intros w id v H. Qed.

Lemma keeps_cache_requests_get net req : keeps_cache (requests_get net req).
Proof. now intros w id v H. Qed.

Lemma keeps_cache_bind {A B} (c : M A) (k : A -> M B) :
  keeps_cache c -> (forall a, keeps_cache (k a)) -> keeps_cache (bind c k).
Proof.
  intros Hc Hk w id v H. unfold bind. specialize (Hc w id v H).
  destruct (c w) as [w1 [a|e]]; simpl in *; [|assumption].
  now apply Hk.
Qed.

Lemma keeps_cache_for_each {A S} (body : S -> A -> M S) l :
  (forall s a, keeps_cache (body s a)) ->
  forall s, keeps_cache (for_each body l s).
Proof.
  intros Hb. induction l as [|a rest IH]; intros s; cbn [for_each].
  - apply keeps_cache_ret.
  - apply keeps_cache_bind; [apply Hb | intros s'; apply IH].
Qed.

End KeepsCache.

Create HintDb keeps.

#[local] Hint Resolve keeps_cache_ret keeps_cache_lift keeps_cache_read
  keeps_cache_requests_get keeps_cache_get_model_object : keeps.

(** Proves [keeps_cache] for a program built from the steps above. *)
Ltac keeps_tac :=
  repeat first
    [ progress eauto with keeps
    | apply keeps_cache_bind; [|intros ?]
    | apply keeps_cache_for_each; intros ? ?
    | match goal with
      | |- keeps_cache (if ?b then _ else _) => destruct b
      | |- keeps_cache (match ?x with _ => _ end) => destruct x
      end ].

Section KeepsCachePrograms.

Variable net : network.

Lemma keeps_cache_scan_sub_resources id subs :
  forall objects relationships,
    keeps_cache (scan_sub_resources net id subs objects relationships).
Proof.
  induction subs as [|[suffix keys] rest IH]; intros objects relationships;
    cbn [scan_sub_resources]; keeps_tac.
Qed.

Lemma keeps_cache_get_diagram_data id : keeps_cache (get_diagram_data net id).
Proof.
  unfold get_diagram_data.
  pose proof (keeps_cache_scan_sub_resources id) as Hscan.
  keeps_tac.
Qed.

Lemma keeps_cache_get_diagram_object id object_id :
  keeps_cache (get_diagram_object net id object_id).
Proof.
  unfold get_diagram_object.
  pose proof (keeps_cache_get_diagram_data id) as Hdata.
  keeps_tac.
Qed.

Lemma keeps_cache_place_object objects dia_to_model mdia item :
  keeps_cache (place_object net objects dia_to_model mdia item).
Proof. unfold place_object. destruct item. keeps_tac. Qed.

Lemma keeps_cache_place_relationship objects mdia rel :
  keeps_cache (place_relationship net objects mdia rel).
Proof. unfold place_relationship. keeps_tac. Qed.

Lemma keeps_cache_build_diagram dia_id name :
  keeps_cache (build_diagram net dia_id name).
Proof.
  unfold build_diagram, build_hierarchy, build_links, infer_relationships.
  pose proof (keeps_cache_get_diagram_data dia_id) as Hdata.
  pose proof keeps_cache_place_object as Hobj.
  pose proof keeps_cache_place_relationship as Hrel.
  keeps_tac.
Qed.

Lemma keeps_cache_place_step flow seq step :
  keeps_cache (place_step net flow seq step).
Proof.
  unfold place_step. destruct step.
  pose proof keeps_cache_get_diagram_object as Hobj.
  keeps_tac.
Qed.

Lemma keeps_cache_build_sequence flow : keeps_cache (build_sequence net flow).
Proof.
  unfold build_sequence. pose proof keeps_cache_place_step as Hstep.
  keeps_tac.
Qed.

End KeepsCachePrograms.

Section RunKeepsCache.

Variable net : network.

Lemma run_keeps_cache_and_then {A} (c : M A)
  (k : A -> world -> world * run_result) :
  keeps_cache c -> (forall a, run_keeps_cache (k a)) ->
  run_keeps_cache (and_then c k).
Proof.
  intros Hc Hk w id v H. unfold and_then. specialize (Hc w id v H).
  destruct (c w) as [w1 [a|e]]; simpl in *; [|assumption].
  now apply Hk.
Qed.

Lemma run_keeps_cache_finish r : run_keeps_cache (finish r).
Proof. now intros w id v H. Qed.

Lemma keeps_cache_find_flow_by_name name :
  keeps_cache (find_flow_by_name net name).
Proof. unfold find_flow_by_name. keeps_tac. Qed.

Lemma keeps_cache_find_diagram_by_name name :
  keeps_cache (find_diagram_by_name net name).
Proof. unfold find_diagram_by_name. keeps_tac. Qed.

Lemma run_keeps_cache_main_diagram name : run_keeps_cache (main_diagram net name).
Proof.
  unfold main_diagram.
  apply run_keeps_cache_and_then; [apply keeps_cache_find_diagram_by_name|].
  intros dia_id. destruct (is_none dia_id); [apply run_keeps_cache_finish|].
  apply run_keeps_cache_and_then; [apply keeps_cache_build_diagram|].
  intros [mdia|]; apply run_keeps_cache_finish.
Qed.

Lemma run_keeps_cache_main_flow name : run_keeps_cache (main_flow net name).
Proof.
  unfold main_flow.
  apply run_keeps_cache_and_then; [apply keeps_cache_find_flow_by_name|].
  intros flow_id. destruct (is_none flow_id); [apply run_keeps_cache_finish|].
  apply run_keeps_cache_and_then; [apply keeps_cache_requests_get|].
  intros rflow. apply run_keeps_cache_and_then; [keeps_tac|].
  intros [|].
  - apply run_keeps_cache_and_then; [keeps_tac|].
    intros j. apply run_keeps_cache_finish.
  - apply run_keeps_cache_and_then.
    + pose proof (keeps_cache_build_sequence net) as Hseq. keeps_tac.
    + intros seq. apply run_keeps_cache_finish.
Qed.

End RunKeepsCache.

(** X3.  Entries of [model_objects] are never changed or removed: every
    model object cached before a run of [main] is cached with the same
    value after it, in both modes and also when the run ends with an
    exception. *)
Theorem main_keeps_model_objects
  (net : network) (flow_name diagram_name : option string)
  (w : world) (id v : value) :
  vdict_lookup id (model_objects w) = Some v ->
  vdict_lookup id (model_objects (fst (main net flow_name diagram_name w)))
  = Some v.
Proof.
  revert w id v. change (run_keeps_cache (main net flow_name diagram_name)).
  unfold main.
  destruct diagram_name as [dn|], flow_name as [fn|];
    try destruct (negb (String.eqb dn EmptyString));
    auto using run_keeps_cache_main_diagram, run_keeps_cache_main_flow,
               run_keeps_cache_finish.
Qed.

(** ** No model object is requested twice *)

Section OnSuccess.

Variable I : world -> Prop.

Lemma on_success_ret {A} (a : A) : on_success I (ret a).
Proof. intros w w' a' Hw H. apply ret_ok in H. now destruct H as [-> _]. Qed.

Lemma on_success_lift {A} (r : result A) : on_success I (lift r).
Proof. intros w w' a' Hw H. apply lift_ok in H. now destruct H as [-> _]. Qed.

Lemma on_success_read {A} (f : world -> result A) : on_success I (read f).
Proof. intros w w' a' Hw H. unfold read in H. now inversion H; subst. Qed.

Lemma on_success_bind {A B} (c : M A) (k : A -> M B) :
  on_success I c -> (forall a, on_success I (k a)) -> on_success I (bind c k).
Proof.
  intros Hc Hk w w' b Hw H. apply bind_ok in H.
  destruct H as (a & w1 & H1 & H2). eapply Hk; [|eassumption]. eauto.
Qed.

Lemma on_success_for_each {A S} (body : S -> A -> M S) l :
  (forall s a, on_success I (body s a)) ->
  forall s, on_success I (for_each body l s).
Proof.
  intros Hb. induction l as [|a rest IH]; intros s; cbn [for_each].
  - apply on_success_ret.
  - apply on_success_bind; [apply Hb | intros s'; apply IH].
Qed.

Lemma run_on_success_and_then {A} (c : M A)
  (k : A -> world -> world * run_result) :
  on_success I c -> (forall a, run_on_success I (k a)) ->
  run_on_success I (and_then c k).
Proof.
  intros Hc Hk w w' o Hw H. unfold and_then in H.
  destruct (c w) as [w1 [a|e]] eqn:E; [|discriminate].
  eapply Hk; [|eassumption]. eauto.
Qed.

Lemma run_on_success_finish r : run_on_success I (finish r).
Proof. intros w w' o Hw H. unfold finish in H. now inversion H; subst. Qed.

End OnSuccess.

Section FetchedOnce.

Variable base : list request.

Lemma filter_model_request_app sent req :
  filter is_model_request (sent ++ [req])
  = filter is_model_request sent
    ++ (if is_model_request req then [req] else []).
Proof. rewrite filter_app. reflexivity. Qed.

Lemma fetched_once_other_request net req :
  is_model_request req = false ->
  on_success (fetched_once base) (requests_get net req).
Proof.
  intros Hreq w w' a (sent & Hl & Hinv) H.
  unfold requests_get in H. inversion H; subst. clear H.
  exists (sent ++ [req]). cbn [requests_log model_objects].
  split; [now rewrite Hl, app_assoc|]. intros Hk.
  destruct (Hinv Hk) as [Hnd Hc]. split.
  - rewrite filter_model_request_app, Hreq. now rewrite app_nil_r.
  - intros id Hin. apply in_app_or in Hin. destruct Hin as [Hin|[Hin|[]]].
    + now apply Hc.
    + subst req. discriminate.
Qed.

Lemma fetched_once_get_model_object net id :
  on_success (fetched_once base) (get_model_object net id).
Proof.
  intros w w' a (sent & Hl & Hinv) H.
  destruct (get_model_object_cases net id w)
    as [[_ E] | [(v0 & Hh & Hv & E) | [(Hn & Hv & E) |
        (Hh & Hn & Hv & [(e & E) | (v0 & E)])]]];
    cbv zeta in E; rewrite E in H; inversion H; subst; clear H;
    try (now exists sent).
  exists (sent ++ [GetModelObject (py_str id)]).
  cbn [requests_log model_objects].
  split; [now rewrite Hl, app_assoc|]. intros Hk.
  unfold string_keys in Hk. rewrite forallb_app in Hk.
  apply andb_true_iff in Hk. destruct Hk as [Hk Hid].
  destruct (Hinv Hk) as [Hnd Hc].
  destruct id as [| | |s| |]; try discriminate Hid. cbn [py_str].
  split.
  - rewrite filter_model_request_app. cbn [is_model_request].
    apply NoDup_app; [assumption | repeat constructor; intros [] |].
    intros r Hin [<-|[]]. apply filter_In in Hin. destruct Hin as [Hin _].
    now apply (Hc s).
  - intros id' Hin. apply in_app_or in Hin. destruct Hin as [Hin|[Hin|[]]].
    + specialize (Hc id' Hin).
      destruct (vdict_lookup (VStr id') (model_objects w)) as [x|] eqn:Ex;
        [|contradiction].
      now rewrite (vdict_lookup_app (VStr id') _ [(VStr s, a)] x Ex).
    + inversion Hin; subst id'.
      rewrite <- (vdict_set_absent (VStr s) a _ Hv), vdict_lookup_set_same
        by assumption.
      discriminate.
Qed.

End FetchedOnce.

(** Proves [on_success (fetched_once base)] for a program built from
    monadic steps. *)
Ltac once_tac :=
  repeat first
    [ assumption
    | apply on_success_ret
    | apply on_success_lift
    | apply on_success_read
    | apply fetched_once_get_model_object
    | apply fetched_once_other_request; reflexivity
    | match goal with
      | H : forall _, on_success _ _ |- _ => apply H
      | H : forall _ _, on_success _ _ |- _ => apply H
      | H : forall _ _ _, on_success _ _ |- _ => apply H
      | H : forall _ _ _ _, on_success _ _ |- _ => apply H
      end
    | apply on_success_bind; [|intros ?]
    | apply on_success_for_each; intros ? ?
    | match goal with
      | |- on_success _ (if ?b then _ else _) => destruct b
      | |- on_success _ (match ?x with _ => _ end) => destruct x
      end ].

Section FetchedOncePrograms.

Variables (net : network) (base : list request).

Lemma once_scan_sub_resources id subs :
  forall objects relationships,
    on_success (fetched_once base)
               (scan_sub_resources net id subs objects relationships).
Proof.
  induction subs as [|[suffix keys] rest IH]; intros objects relationships;
    cbn [scan_sub_resources]; once_tac.
Qed.

Lemma once_get_diagram_data id :
  on_success (fetched_once base) (get_diagram_data net id).
Proof.
  unfold get_diagram_data. pose proof (once_scan_sub_resources id) as Hscan.
  once_tac.
Qed.

Lemma once_get_diagram_object id object_id :
  on_success (fetched_once base) (get_diagram_object net id object_id).
Proof.
  unfold get_diagram_object. pose proof once_get_diagram_data as Hdata.
  once_tac.
Qed.

Lemma once_place_object objects dia_to_model mdia item :
  on_success (fetched_once base)
             (place_object net objects dia_to_model mdia item).
Proof. unfold place_object. destruct item. once_tac. Qed.

Lemma once_place_relationship objects mdia rel :
  on_success (fetched_once base) (place_relationship net objects mdia rel).
Proof. unfold place_relationship. once_tac. Qed.

Lemma once_build_diagram dia_id name :
  on_success (fetched_once base) (build_diagram net dia_id name).
Proof.
  unfold build_diagram, build_hierarchy, build_links, infer_relationships.
  pose proof once_get_diagram_data as Hdata.
  pose proof once_place_object as Hobj.
  pose proof once_place_relationship as Hrel.
  once_tac.
Qed.

Lemma once_place_step flow seq step :
  on_success (fetched_once base) (place_step net flow seq step).
Proof.
  unfold place_step. destruct step.
  pose proof once_get_diagram_object as Hobj.
  once_tac.
Qed.

Lemma once_build_sequence flow :
  on_success (fetched_once base) (build_sequence net flow).
Proof.
  unfold build_sequence. pose proof once_place_step as Hstep. once_tac.
Qed.

Lemma once_find_flow_by_name name :
  on_success (fetched_once base) (find_flow_by_name net name).
Proof. unfold find_flow_by_name. once_tac. Qed.

Lemma once_find_diagram_by_name name :
  on_success (fetched_once base) (find_diagram_by_name net name).
Proof. unfold find_diagram_by_name. once_tac. Qed.

Lemma once_main_diagram name :
  run_on_success (fetched_once base) (main_diagram net name).
Proof.
  unfold main_diagram.
  apply run_on_success_and_then; [apply once_find_diagram_by_name|].
  intros dia_id. destruct (is_none dia_id); [apply run_on_success_finish|].
  apply run_on_success_and_then; [apply once_build_diagram|].
  intros [mdia|]; apply run_on_success_finish.
Qed.

Lemma once_main_flow name :
  run_on_success (fetched_once base) (main_flow net name).
Proof.
  unfold main_flow.
  apply run_on_success_and_then; [apply once_find_flow_by_name|].
  intros flow_id. destruct (is_none flow_id); [apply run_on_success_finish|].
  apply run_on_success_and_then; [once_tac|].
  intros rflow. apply run_on_success_and_then; [once_tac|].
  intros [|].
  - apply run_on_success_and_then; [once_tac|].
    intros j. apply run_on_success_finish.
  - apply run_on_success_and_then.
    + pose proof once_build_sequence as Hseq. once_tac.
    + intros seq. apply run_on_success_finish.
Qed.

End FetchedOncePrograms.

(** X4.  In a run of [main] that ends without exception and with strings
    as ids of all the cached model objects (as the API gives them), no
    model object is requested twice: the requests the run sends contain
    each model-object request at most once, the cache of model objects
    answering the later lookups. *)
Theorem main_requests_model_objects_once
  (net : network) (flow_name diagram_name : option string)
  (w w' : world) (o : outcome) :
  main net flow_name diagram_name w = (w', inr o) ->
  string_keys (model_objects w') = true ->
  exists sent,
    requests_log w' = requests_log w ++ sent /\
    NoDup (filter is_model_request sent).
Proof.
  intros H Hk.
  assert (Hstart : fetched_once (requests_log w) w).
  { exists []. rewrite app_nil_r. split; [reflexivity|]. intros _.
    split; [constructor | intros id []]. }
  assert (Hrun : run_on_success (fetched_once (requests_log w))
                                (main net flow_name diagram_name)).
  { unfold main.
    destruct diagram_name as [dn|], flow_name as [fn|];
      try destruct (negb (String.eqb dn EmptyString));
      auto using once_main_diagram, once_main_flow, run_on_success_finish. }
  destruct (Hrun w w' o Hstart H) as (sent & Hl & Hinv).
  exists sent. split; [exact Hl | now apply Hinv].
Qed.

(** The ids [1] and ["1"] are two keys of the cache and one URL: the model
    object is requested twice. *)
Example model_object_url_requested_twice :
  requests_log
    (fst (get_model_object net_not_found (VStr "1")
            (fst (get_model_object net_not_found (VInt 1) initial_world))))
  = [GetModelObject "1"; GetModelObject "1"].
Proof. reflexivity. Qed.

(** ** The requests of [get_diagram_data] *)

Section DiagramRequests.

Variables (net : network) (id : value).

Lemma scan_sub_resources_log subs :
  forall objects relationships w,
    let w' := fst (scan_sub_resources net id subs objects relationships w) in
    model_objects w' = model_objects w /\
    exists n,
      n <= List.length subs /\
      requests_log w'
      = requests_log w ++ map (GetDiagram (py_str id)) (firstn n (map fst subs)).
Proof.
  induction subs as [|[suffix keys] rest IH]; intros objects relationships w;
    cbn [scan_sub_resources]; cbv zeta.
  - split; [reflexivity|]. exists 0. simpl. now rewrite app_nil_r.
  - unfold bind, requests_get, lift.
    set (w1 := mkWorld _ _ _).
    assert (Hrest : forall o r,
               model_objects (fst (scan_sub_resources net id rest o r w1))
               = model_objects w /\
               exists n,
                 n <= List.length ((suffix, keys) :: rest) /\
                 requests_log (fst (scan_sub_resources net id rest o r w1))
                 = requests_log w
                   ++ map (GetDiagram (py_str id))
                          (firstn n (map fst ((suffix, keys) :: rest)))).
    { intros o r. destruct (IH o r w1) as (Hm & n & Hn & Hl).
      split; [exact Hm|].
      exists (S n). split; [simpl; lia|]. rewrite Hl. unfold w1. simpl.
      now rewrite <- app_assoc. }
    assert (Hstop : forall (x : result (value * value)),
               model_objects (fst (w1, x)) = model_objects w /\
               exists n,
                 n <= List.length ((suffix, keys) :: rest) /\
                 requests_log (fst (w1, x))
                 = requests_log w
                   ++ map (GetDiagram (py_str id))
                          (firstn n (map fst ((suffix, keys) :: rest)))).
    { intros x. split; [reflexivity|]. exists 1.
      split; [simpl; lia | reflexivity]. }
    destruct (Z.eqb (status_code _) 200); [|apply Hrest].
    destruct (response_json _) as [data|e]; [|apply Hstop].
    destruct (scan_sub_resource suffix keys data objects relationships)
      as [[o r]|e]; [|apply Hstop].
    destruct (truthy o && truthy r); [apply Hstop | apply Hrest].
Qed.

End DiagramRequests.

(** X5.  The requests of one call of [get_diagram_data], whatever its
    outcome, exceptions included.  When the id cannot be hashed or is
    cached, none.  Otherwise the request for the diagram, followed by
    requests for the first [n] of its sub-resources [/content],
    [/objects], [/elements], [/relationships], in this order and without
    gap, for some [n] from 0 to 4; a diagram that is refused (a status
    other than 200) is followed by none.  The call leaves [model_objects]
    as it is. *)
Theorem get_diagram_data_requests_in_order
  (net : network) (id : value) (w : world) :
  sub_resource_suffixes
  = ["/content"; "/objects"; "/elements"; "/relationships"] /\
  model_objects (fst (get_diagram_data net id w)) = model_objects w /\
  match vdict_mem id (diagram_cache w) with
  | Ok false =>
      exists n,
        n <= 4 /\
        requests_log (fst (get_diagram_data net id w))
        = requests_log w ++ diagram_requests id n /\
        (status_code (net (requests_log w) (GetDiagram (py_str id) ""))
         <> 200%Z -> n = 0)
  | _ => requests_log (fst (get_diagram_data net id w)) = requests_log w
  end.
Proof.
  split; [reflexivity|].
  unfold get_diagram_data, bind, read, requests_get, lift, ret.
  destruct (vdict_mem id (diagram_cache w)) as [[|]|e];
    [split; reflexivity | | split; reflexivity].
  cbv beta iota.
  set (w1 := mkWorld _ _ _).
  destruct (Z.eqb_spec (status_code (net (requests_log w)
                                         (GetDiagram (py_str id) ""))) 200)
    as [Es|Es]; cbn [negb].
  { set (Q := fun w' : world =>
                model_objects w' = model_objects w /\
                exists n,
                  n <= 4 /\
                  requests_log w' = requests_log w ++ diagram_requests id n /\
                  (status_code (net (requests_log w)
                                    (GetDiagram (py_str id) ""))
                   <> 200%Z -> n = 0)).
    match goal with |- _ /\ _ => idtac end.
    match goal with
    | |- model_objects (fst ?run) = _ /\ _ => change (Q (fst run))
    end.
    assert (Q1 : Q w1).
    { split; [reflexivity|]. exists 0. split; [lia|].
      split; [reflexivity | intros Hne; contradiction]. }
    assert (Hscan : forall o r,
               Q (fst (scan_sub_resources net id sub_resources o r w1))).
    { intros o r.
      destruct (scan_sub_resources_log net id sub_resources o r w1)
        as (Hm & n & Hn & Hl).
      split; [exact Hm|]. exists n. split; [exact Hn|].
      split; [|intros Hne; contradiction].
      rewrite Hl. unfold w1, diagram_requests.
      cbn [requests_log]. now rewrite <- app_assoc. }
    clearbody w1.
    repeat first
      [ assumption
      | progress cbv beta iota zeta
      | progress cbn [fst]
      | match goal with
        | |- context [scan_sub_resources net id sub_resources ?o ?r w1] =>
            let H := fresh "Q2" in
            pose proof (Hscan o r) as H;
            destruct (scan_sub_resources net id sub_resources o r w1)
              as [? [[? ?]|?]];
            cbn [fst] in H
        | |- context [if ?b then _ else _] =>
            lazymatch b with
            | context [match _ with Ok _ => _ | Raise _ => _ end] => fail
            | _ => destruct b
            end
        | |- context [match ?x with Ok _ => _ | Raise _ => _ end] =>
            lazymatch x with
            | context [match _ with Ok _ => _ | Raise _ => _ end] => fail
            | context [if _ then _ else _] => fail
            | _ => destruct x
            end
        end ]. }
  split; [reflexivity|]. exists 0. split; [lia|].
  split; [reflexivity | reflexivity].
Qed.

(** ** What the resolver keeps of the primary response *)

Section PrimaryPayload.

Lemma scan_sub_resource_keeps_objects suffix keys data objects relationships o r :
  scan_sub_resource suffix keys data objects relationships = Ok (o, r) ->
  truthy objects = true -> o = objects.
Proof.
  unfold scan_sub_resource. intros H Ht. step_ok H.
  destruct (drill_down keys data) as [temp_obj valid_path].
  rewrite Ht in H. cbn [negb] in H.
  replace (if valid_path && is_dict temp_obj && truthy temp_obj
           then objects else objects) with objects in H
    by (now destruct (valid_path && is_dict temp_obj && truthy temp_obj)).
  rewrite Ht in H. cbn [negb andb] in H.
  rewrite andb_false_r in H. cbn [andb] in H. now inversion H.
Qed.

Lemma scan_sub_resources_keeps_objects net id subs :
  forall objects relationships w w' o r,
    scan_sub_resources net id subs objects relationships w = (w', Ok (o, r)) ->
    truthy objects = true -> o = objects.
Proof.
  induction subs as [|[suffix keys] rest IH];
    intros objects relationships w w' o r H Ht; cbn [scan_sub_resources] in H.
  - apply ret_ok in H. destruct H as [_ H]. now inversion H.
  - apply bind_ok in H. destruct H as (r_sub & w1 & _ & H).
    destruct (Z.eqb (status_code r_sub) 200); [|now apply IH in H].
    apply bind_ok in H. destruct H as (data & w2 & _ & H).
    apply bind_ok in H. destruct H as ([o1 r1] & w3 & Hs & H).
    apply lift_ok in Hs. destruct Hs as [_ Hs].
    apply scan_sub_resource_keeps_objects in Hs; [|assumption]. subst o1.
    destruct (truthy objects && truthy r1).
    + apply ret_ok in H. destruct H as [_ H]. now inversion H.
    + now apply IH in H.
Qed.

End PrimaryPayload.

(** X6.  Objects found in the primary response win: when the diagram
    request is answered with status 200 and a non-empty [objects] under
    [diagram], every successful call returns exactly these objects,
    whatever the sub-resources answer. *)
Theorem get_diagram_data_keeps_primary_objects
  (net : network) (id : value) (w w' : world) (b dia o v : value) :
  vdict_mem id (diagram_cache w) = Ok false ->
  status_code (net (requests_log w) (GetDiagram (py_str id) "")) = 200%Z ->
  body (net (requests_log w) (GetDiagram (py_str id) "")) = Some b ->
  py_get b "diagram" (VDict []) = Ok dia ->
  py_get dia "objects" VNone = Ok o ->
  truthy o = true ->
  get_diagram_data net id w = (w', Ok v) ->
  py_getitem v (VStr "objects") = Ok o.
Proof.
  intros Hc Hs Hb Hdia Ho Ht H. unfold get_diagram_data in H.
  apply bind_ok in H. destruct H as (cached & w0 & Hr & H).
  unfold read in Hr. rewrite Hc in Hr. inversion Hr; subst cached w0. clear Hr.
  apply bind_ok in H. destruct H as (rdia & w1 & Hreq & H).
  unfold requests_get in Hreq. inversion Hreq; subst rdia. clear Hreq.
  rewrite Hs in H. cbn [Z.eqb Pos.eqb negb] in H.
  apply bind_ok in H. destruct H as (b' & w2 & Hj & H). step_ok Hj.
  unfold response_json in Hj. rewrite Hb in Hj. inversion Hj; subst b'.
  apply bind_ok in H. destruct H as (dia' & w3 & Hd & H). step_ok Hd.
  rewrite Hdia in Hd. inversion Hd; subst dia'.
  apply bind_ok in H. destruct H as (o' & w4 & Ho' & H). step_ok Ho'.
  rewrite Ho in Ho'. inversion Ho'; subst o'.
  apply bind_ok in H. destruct H as (r & w5 & _ & H).
  rewrite Ht in H. cbn [negb andb] in H.
  apply bind_ok in H. destruct H as (o1 & w6 & Ho1 & H).
  apply ret_ok in Ho1. destruct Ho1 as [-> ->].
  apply bind_ok in H. destruct H as (r1 & w7 & _ & H).
  apply bind_ok in H. destruct H as ([o2 r2] & w8 & Hscan & H).
  assert (Eo : o2 = o).
  { destruct (negb (truthy o) || negb (truthy r1)).
    - now apply scan_sub_resources_keeps_objects in Hscan.
    - apply ret_ok in Hscan. destruct Hscan as [_ Hscan]. now inversion Hscan. }
  subst o2. cbv zeta in H.
  replace (if is_none o then VDict [] else o) with o in H
    by (destruct o; simpl in *; try reflexivity; discriminate).
  step_ok H.
  destruct dia as [| | | | |dd]; try discriminate.
  cbn [py_setitem] in *.
  match goal with
  | H1 : Ok (VDict (dict_set "objects" o dd)) = Ok ?x,
    H2 : py_setitem ?x "relationships" _ = Ok _ |- _ =>
      inversion H1; subst x; cbn [py_setitem] in H2; inversion H2
  end.
  cbn [py_getitem].
  rewrite dict_lookup_set_other by discriminate.
  now rewrite dict_lookup_set_same.
Qed.

(** X7.  A complete primary response ends the resolution at once: when the
    diagram request is answered with status 200 and [diagram] holds
    non-empty [objects] and [relationships], the call sends this one
    request, raises nothing, and returns the diagram with these objects and
    with the relationships, a keyed mapping of relationships being replaced
    by the list of its values. *)
Theorem get_diagram_data_complete_primary
  (net : network) (id : value) (w : world) (b dia o r : value) :
  vdict_mem id (diagram_cache w) = Ok false ->
  status_code (net (requests_log w) (GetDiagram (py_str id) "")) = 200%Z ->
  body (net (requests_log w) (GetDiagram (py_str id) "")) = Some b ->
  py_get b "diagram" (VDict []) = Ok dia ->
  py_get dia "objects" VNone = Ok o -> truthy o = true ->
  py_get dia "relationships" (VList []) = Ok r -> truthy r = true ->
  exists v,
    get_diagram_data net id w
    = (mkWorld (model_objects w) (diagram_cache w)
               (requests_log w ++ [GetDiagram (py_str id) ""]), Ok v) /\
    py_getitem v (VStr "objects") = Ok o /\
    py_getitem v (VStr "relationships")
    = Ok (match r with
          | VDict d => VList (dict_values d)
          | _ => r
          end).
Proof.
  intros Hc Hs Hb Hdia Ho Hto Hr Htr. unfold get_diagram_data.
  unfold bind at 1. unfold read at 1. rewrite Hc. cbv beta iota.
  unfold bind at 1. unfold requests_get at 1. rewrite Hs.
  cbn [Z.eqb Pos.eqb negb].
  unfold bind at 1. unfold lift at 1. unfold response_json at 1. rewrite Hb.
  unfold bind at 1. unfold lift at 1. rewrite Hdia.
  unfold bind at 1. unfold lift at 1. rewrite Ho.
  unfold bind at 1. unfold lift at 1. rewrite Hr.
  rewrite Hto, Htr. cbn [negb andb orb].
  unfold bind at 1. unfold ret at 1.
  unfold bind at 1. unfold ret at 1.
  unfold bind at 1. unfold ret at 1.
  rewrite Hto, Htr. cbn [negb orb]. cbv beta iota zeta.
  destruct dia as [| | | | |dd]; try discriminate.
  replace (if is_none o then VDict [] else o) with o
    by (destruct o; simpl in *; try reflexivity; discriminate).
  set (r' := match r with
             | VDict d => if truthy r then VList (dict_values d) else r
             | _ => r
             end).
  assert (Er' : r' = match r with
                     | VDict d => VList (dict_values d)
                     | _ => r
                     end)
    by (unfold r'; destruct r; try reflexivity; now rewrite Htr).
  assert (Ht' : truthy r' = true).
  { rewrite Er'. destruct r as [| | | | |[|]]; try assumption; discriminate. }
  rewrite Ht'. cbn [negb py_setitem lift bind ret].
  eexists. split; [reflexivity|]. cbn [py_getitem]. split.
  - rewrite dict_lookup_set_other by discriminate.
    now rewrite dict_lookup_set_same.
  - now rewrite dict_lookup_set_same, Er'.
Qed.

(** ** [get_diagram_object] *)

Lemma py_getitem_str_truthy (x v : value) (k : string) :
  py_getitem x (VStr k) = Ok v -> truthy x = true.
Proof.
  destruct x as [|b|z|s|l|d]; simpl; try discriminate.
  destruct d; [discriminate | reflexivity].
Qed.

(** X8.  Looking an object up in a diagram resolves the diagram exactly as
    [get_diagram_data] does and then reads its [objects] mapping: the entry
    stored under the identifier when there is one, [None] when there is
    none; a missing entry is never a [KeyError]. *)
Theorem get_diagram_object_lookup
  (net : network) (did : value) (oid : string) (w w' : world)
  (dia : value) (d : list (string * value)) :
  get_diagram_data net did w = (w', Ok dia) ->
  py_getitem dia (VStr "objects") = Ok (VDict d) ->
  get_diagram_object net did (VStr oid) w
  = (w', Ok (match dict_lookup oid d with
             | Some v => v
             | None => VNone
             end)).
Proof.
  intros Hd Ho. unfold get_diagram_object. cbn [is_none].
  unfold bind at 1. rewrite Hd.
  rewrite (py_getitem_str_truthy _ _ _ Ho). cbn [negb].
  unfold bind at 1. unfold lift at 1. rewrite Ho.
  unfold bind at 1. unfold lift at 1. cbn [py_contains key_in_dict].
  destruct (dict_lookup oid d) as [v|] eqn:El.
  - assert (Hm : dict_mem oid d = true) by (unfold dict_mem; now rewrite El).
    rewrite Hm. cbn [negb]. unfold bind at 1. unfold lift at 1.
    unfold lift. cbn [py_getitem]. now rewrite El.
  - assert (Hm : dict_mem oid d = false) by (unfold dict_mem; now rewrite El).
    rewrite Hm. reflexivity.
Qed.

(** ** The searches by name *)

Lemma find_named_first (name : string) (pre rest : list value)
  (item : value) :
  Forall (named_otherwise name) pre -> named name item ->
  find_named (pre ++ item :: rest) name = py_getitem item (VStr "id").
Proof.
  intros Hpre Hit. induction Hpre as [|x pre [n [Hn Hne]] _ IH]; simpl.
  - rewrite Hit. simpl. now rewrite String.eqb_refl.
  - rewrite Hn. simpl. now rewrite Hne.
Qed.

Lemma find_named_none (name : string) (items : list value) :
  Forall (named_otherwise name) items -> find_named items name = Ok VNone.
Proof.
  induction 1 as [|x l [n [Hn Hne]] _ IH]; simpl; [reflexivity|].
  rewrite Hn. simpl. now rewrite Hne.
Qed.

(** X9.  The search for a diagram sends the one request for the list of
    diagrams and, on status 200, returns the [id] of the first diagram of
    the list that bears the name: diagrams of the same name further down
    the list are not looked at. *)
Theorem find_diagram_by_name_first_match
  (net : network) (name : string) (w : world) (b item id : value)
  (pre rest : list value) :
  status_code (net (requests_log w) GetDiagrams) = 200%Z ->
  body (net (requests_log w) GetDiagrams) = Some b ->
  py_get b "diagrams" (VList []) = Ok (VList (pre ++ item :: rest)) ->
  Forall (named_otherwise name) pre -> named name item ->
  py_getitem item (VStr "id") = Ok id ->
  find_diagram_by_name net name w = (sent w [GetDiagrams], Ok id).
Proof.
  intros Hs Hb Hd Hpre Hit Hid. unfold find_diagram_by_name.
  unfold bind at 1. unfold requests_get at 1. rewrite Hs.
  cbn [Z.eqb Pos.eqb negb].
  unfold bind at 1. unfold lift at 1. unfold response_json at 1. rewrite Hb.
  unfold bind at 1. unfold lift at 1. rewrite Hd.
  unfold bind at 1. unfold lift at 1. cbn [py_iter].
  unfold lift. now rewrite (find_named_first _ _ _ _ Hpre Hit), Hid.
Qed.

(** X10.  A diagram that cannot be found ends the run with a message and
    nothing else: when the list of diagrams is refused (a status other than
    200, whatever the body says), or is served and holds no diagram of that
    name, [main] reports [Unable to find diagram [..]], having sent the one
    request for the list, resolved nothing and written no file. *)
Theorem main_diagram_not_found
  (net : network) (flow_name : option string) (diagram_name : string)
  (w : world) :
  diagram_name <> EmptyString ->
  status_code (net (requests_log w) GetDiagrams) <> 200%Z \/
  (exists b items,
      body (net (requests_log w) GetDiagrams) = Some b /\
      py_get b "diagrams" (VList []) = Ok (VList items) /\
      Forall (named_otherwise diagram_name) items) ->
  main net flow_name (Some diagram_name) w
  = (sent w [GetDiagrams],
     inr (Message ("Unable to find diagram [" +++ diagram_name +++ "]"))).
Proof.
  intros Hne Hcase. unfold main.
  destruct (String.eqb_spec diagram_name EmptyString) as [E|_];
    [contradiction|]. cbn [negb].
  unfold main_diagram, and_then, find_diagram_by_name.
  unfold bind at 1. unfold requests_get at 1.
  destruct Hcase as [Hs|[b [items [Hb [Hd Hall]]]]].
  - apply Z.eqb_neq in Hs. rewrite Hs. reflexivity.
  - destruct (Z.eqb_spec (status_code (net (requests_log w) GetDiagrams)) 200)
      as [_|_]; cbn [negb]; [|reflexivity].
    unfold bind at 1. unfold lift at 1. unfold response_json at 1.
    rewrite Hb.
    unfold bind at 1. unfold lift at 1. rewrite Hd.
    unfold bind at 1. unfold lift at 1. cbn [py_iter].
    unfold lift. rewrite (find_named_none _ _ Hall). reflexivity.
Qed.

(** X11.  The search for a flow does not look at the status: whatever the
    status, the [id] of the first flow of the served list that bears the
    name is returned after the one request for the list. *)
Theorem find_flow_by_name_first_match
  (net : network) (name : string) (w : world) (b item id : value)
  (pre rest : list value) :
  body (net (requests_log w) GetFlows) = Some b ->
  py_getitem b (VStr "flows") = Ok (VList (pre ++ item :: rest)) ->
  Forall (named_otherwise name) pre -> named name item ->
  py_getitem item (VStr "id") = Ok id ->
  find_flow_by_name net name w = (sent w [GetFlows], Ok id).
Proof.
  intros Hb Hd Hpre Hit Hid. unfold find_flow_by_name.
  unfold bind at 1. unfold requests_get at 1.
  unfold bind at 1. unfold lift at 1. unfold response_json at 1. rewrite Hb.
  unfold bind at 1. unfold lift at 1. rewrite Hd.
  unfold bind at 1. unfold lift at 1. cbn [py_iter].
  unfold lift. now rewrite (find_named_first _ _ _ _ Hpre Hit), Hid.
Qed.

(** X12.  In the flow mode an answer to the request for the list of flows
    that is a JSON object without [flows] (an error body, say) is not
    reported as a flow that cannot be found: the run ends with the
    [KeyError] of the subscript, after that one request. *)
Theorem main_flow_list_without_flows
  (net : network) (flow_name : string) (diagram_name : option string)
  (w : world) (d : list (string * value)) :
  flow_mode diagram_name ->
  body (net (requests_log w) GetFlows) = Some (VDict d) ->
  dict_lookup "flows" d = None ->
  main net (Some flow_name) diagram_name w
  = (sent w [GetFlows], inl (PyExn KeyError)).
Proof.
  intros Hmode Hb Hd.
  assert (Hmain : main net (Some flow_name) diagram_name w
                  = main_flow net flow_name w)
    by (destruct Hmode as [-> | ->]; reflexivity).
  rewrite Hmain. unfold main_flow, and_then, find_flow_by_name.
  unfold bind at 1. unfold requests_get at 1.
  unfold bind at 1. unfold lift at 1. unfold response_json at 1. rewrite Hb.
  unfold bind at 1. unfold lift at 1. cbn [py_getitem]. rewrite Hd.
  reflexivity.
Qed.

(** ** Runs of [main] *)

Section NodeKeys.

Import Diagram.

Lemma add_node_keys_distinct self id name parent_id :
  keys_distinct self -> keys_distinct (add_node self id name parent_id).
Proof.
  unfold keys_distinct, add_node. cbn [nodes]. intros Hnd.
  destruct (dict_mem id (nodes self)) eqn:Em.
  - now rewrite dict_keys_set_present.
  - rewrite dict_keys_set_absent by assumption.
    apply NoDup_app; [assumption | repeat constructor; intros [] | ].
    intros x Hx [<-|[]]. apply dict_mem_In in Hx. congruence.
Qed.

Lemma ensured_keys_distinct od p mdia mdia1 :
  ensured od p mdia mdia1 -> keys_distinct mdia -> keys_distinct mdia1.
Proof.
  intros [[-> _] | (ps & pd & pn & pp & _ & _ & _ & _ & ->)] Hnd;
    [assumption | now apply add_node_keys_distinct].
Qed.

Lemma place_object_keys_distinct net od dia_to_model mdia item w w' mdia' :
  place_object net (VDict od) dia_to_model mdia item w = (w', Ok mdia') ->
  keys_distinct mdia -> keys_distinct mdia'.
Proof.
  destruct item as [k kd]. intros H Hnd. apply place_object_ok in H.
  destruct H as [[_ ->] | (_ & p & mdia1 & He & [[name ->] | (_ & -> & _)])];
    [assumption | | ].
  - apply add_node_keys_distinct. eapply ensured_keys_distinct; eassumption.
  - eapply ensured_keys_distinct; eassumption.
Qed.

Lemma place_objects_keys_distinct net od dia_to_model items :
  forall mdia w w' mdia',
    for_each (place_object net (VDict od) dia_to_model) items mdia w
    = (w', Ok mdia') ->
    keys_distinct mdia -> keys_distinct mdia'.
Proof.
  induction items as [|item rest IH]; intros mdia w w' mdia' H Hnd;
    cbn [for_each] in H.
  - apply ret_ok in H. now destruct H as [_ ->].
  - apply bind_ok in H. destruct H as (mdia1 & w1 & Hstep & H).
    eapply IH; [eassumption|].
    eapply place_object_keys_distinct; eassumption.
Qed.

Lemma build_hierarchy_keys_distinct net objects dia_to_model mdia w w' mdia' :
  build_hierarchy net objects dia_to_model mdia w = (w', Ok mdia') ->
  keys_distinct mdia -> keys_distinct mdia'.
Proof.
  unfold build_hierarchy. intros H Hnd.
  apply bind_ok in H. destruct H as (items & w1 & Hitems & H).
  apply lift_ok in Hitems. destruct Hitems as [-> Hitems].
  unfold sorted_items in Hitems. apply rbind_ok in Hitems.
  destruct Hitems as (its & Hits & _).
  destruct objects; try discriminate.
  eapply place_objects_keys_distinct; eassumption.
Qed.

Lemma build_links_nodes net objects relationships mdia w w' mdia' :
  build_links net objects relationships mdia w = (w', Ok mdia') ->
  nodes mdia' = nodes mdia.
Proof.
  unfold build_links. intros H.
  apply bind_ok in H. destruct H as (rels & w1 & _ & H).
  now apply place_relationships_ok in H.
Qed.

Lemma build_diagram_keys_distinct net dia_id name w w' mdia :
  build_diagram net dia_id name w = (w', Ok (Some mdia)) ->
  keys_distinct mdia.
Proof.
  unfold build_diagram. intros H.
  apply bind_ok in H. destruct H as (dia & w1 & _ & H).
  destruct (negb (truthy dia)).
  - apply ret_ok in H. destruct H as [_ H]. discriminate.
  - repeat (apply bind_ok in H;
            let a := fresh "a" in let w2 := fresh "w" in
            let H1 := fresh "H" in
            destruct H as (a & w2 & H1 & H)).
    apply ret_ok in H. destruct H as [_ H]. inversion H; subst.
    unfold keys_distinct.
    match goal with
    | Hl : build_links _ _ _ _ _ = _ |- _ =>
        rewrite (build_links_nodes _ _ _ _ _ _ _ Hl)
    end.
    match goal with
    | Hh : build_hierarchy _ _ _ _ _ = _ |- _ =>
        apply (build_hierarchy_keys_distinct _ _ _ _ _ _ _ Hh)
    end.
    constructor.
Qed.

End NodeKeys.

Lemma write_diagram_not_out_of_fuel mdia name :
  keys_distinct mdia -> write_diagram mdia name <> inl OutOfFuel.
Proof.
  intros Hnd. unfold write_diagram.
  pose proof (generate_fuel_suffices mdia Hnd) as Hf.
  pose proof (generate_again mdia) as Ha.
  destruct (Diagram.generate mdia) as [mdia1 [e|text]] eqn:Eg;
    cbn [fst snd] in *.
  - congruence.
  - rewrite Ha. cbn [snd]. discriminate.
Qed.

Lemma write_diagram_written mdia name printed file content :
  write_diagram mdia name = inr (Written printed file content) ->
  snd (Diagram.generate mdia) = inr printed /\
  file = create_file_name name "mmd" /\ content = printed.
Proof.
  unfold write_diagram.
  pose proof (generate_again mdia) as Ha.
  destruct (Diagram.generate mdia) as [mdia1 [e|text]] eqn:Eg;
    cbn [fst snd] in *; [discriminate|].
  rewrite Ha. cbn [snd]. intros H. inversion H; subst. auto.
Qed.

Lemma and_then_inr {A} (c : M A) (k : A -> world -> world * run_result)
  w w' o :
  and_then c k w = (w', inr o) ->
  exists a w1, c w = (w1, Ok a) /\ k a w1 = (w', inr o).
Proof.
  unfold and_then. destruct (c w) as [w1 [a|e]]; [eauto | discriminate].
Qed.

Lemma and_then_not_out_of_fuel {A} (c : M A)
  (k : A -> world -> world * run_result) w :
  (forall a w1, c w = (w1, Ok a) -> snd (k a w1) <> inl OutOfFuel) ->
  snd (and_then c k w) <> inl OutOfFuel.
Proof.
  unfold and_then. intros Hk.
  destruct (c w) as [w1 [a|e]]; [now apply Hk | discriminate].
Qed.

Lemma main_diagram_not_out_of_fuel net name w :
  snd (main_diagram net name w) <> inl OutOfFuel.
Proof.
  unfold main_diagram. apply and_then_not_out_of_fuel. intros dia_id w1 _.
  destruct (is_none dia_id); [discriminate|].
  apply and_then_not_out_of_fuel. intros [mdia|] w2 Hb; [|discriminate].
  apply build_diagram_keys_distinct in Hb.
  now apply write_diagram_not_out_of_fuel.
Qed.

Lemma main_flow_not_out_of_fuel net name w :
  snd (main_flow net name w) <> inl OutOfFuel.
Proof.
  unfold main_flow. apply and_then_not_out_of_fuel. intros flow_id w1 _.
  destruct (is_none flow_id); [discriminate|].
  apply and_then_not_out_of_fuel. intros rflow w2 _.
  apply and_then_not_out_of_fuel. intros [|] w3 _;
    apply and_then_not_out_of_fuel; intros; discriminate.
Qed.

(** X13.  The rendering of a diagram that [main] has built always comes to
    an end: the keys of its nodes are pairwise distinct, so the descent of
    [render_node] through the children is bounded by the number of nodes.
    A run of [main] therefore ends with a message, with a file written, or
    with a Python exception, whatever the service answers. *)
Theorem main_rendering_terminates
  (net : network) (flow_name diagram_name : option string) (w : world) :
  snd (main net flow_name diagram_name w) <> inl OutOfFuel /\
  forall dia_id name w0 w1 mdia,
    build_diagram net dia_id name w0 = (w1, Ok (Some mdia)) ->
    keys_distinct mdia /\ snd (Diagram.generate mdia) <> inl OutOfFuel.
Proof.
  split.
  - unfold main.
    destruct diagram_name as [dn|]; [destruct (negb (dn =? ""))%string|];
      try apply main_diagram_not_out_of_fuel;
      destruct flow_name; try apply main_flow_not_out_of_fuel; discriminate.
  - intros dia_id name w0 w1 mdia H.
    apply build_diagram_keys_distinct in H. split; [assumption|].
    now apply generate_fuel_suffices.
Qed.

Lemma main_diagram_written net name w w' printed file content :
  main_diagram net name w = (w', inr (Written printed file content)) ->
  file = create_file_name name "mmd" /\ content = printed.
Proof.
  unfold main_diagram. intros H.
  apply and_then_inr in H. destruct H as (dia_id & w1 & _ & H).
  destruct (is_none dia_id); [discriminate|].
  apply and_then_inr in H. destruct H as ([mdia|] & w2 & _ & H);
    [|discriminate].
  unfold finish in H. inversion H as [[Hw Hr]].
  now apply write_diagram_written in Hr.
Qed.

Lemma main_flow_written net name w w' printed file content :
  main_flow net name w = (w', inr (Written printed file content)) ->
  file = create_file_name name "mmd" /\ content = printed.
Proof.
  unfold main_flow. intros H.
  apply and_then_inr in H. destruct H as (flow_id & w1 & _ & H).
  destruct (is_none flow_id); [discriminate|].
  apply and_then_inr in H. destruct H as (rflow & w2 & _ & H).
  apply and_then_inr in H. destruct H as ([|] & w3 & _ & H);
    apply and_then_inr in H; destruct H as (x & w4 & _ & H);
    unfold finish, write_sequence in H; [discriminate|].
  inversion H; subst. auto.
Qed.

(** X14.  Whenever [main] writes a file, the text written is the text it
    printed, although [generate] is called once for each, and the file is
    named after the diagram in the diagram mode and after the flow in the
    flow mode, by [create_file_name] with the extension [mmd]. *)
Theorem main_writes_what_it_prints
  (net : network) (flow_name diagram_name : option string) (w w' : world)
  (printed file content : string) :
  main net flow_name diagram_name w
  = (w', inr (Written printed file content)) ->
  content = printed /\
  exists name,
    output_name flow_name diagram_name = Some name /\
    file = create_file_name name "mmd".
Proof.
  unfold main, output_name. intros H.
  destruct diagram_name as [dn|]; [destruct (negb (dn =? ""))%string|].
  - apply main_diagram_written in H. destruct H as [-> ->]. eauto.
  - destruct flow_name as [fn|]; [|discriminate].
    apply main_flow_written in H. destruct H as [-> ->]. eauto.
  - destruct flow_name as [fn|]; [|discriminate].
    apply main_flow_written in H. destruct H as [-> ->]. eauto.
Qed.

(** ** The requests of each mode *)

Section SendsOnly.

Variable P : request -> Prop.

Lemma sends_only_ret {A} (a : A) : sends_only P (ret a).
Proof. intros w. exists []. now rewrite app_nil_r. Qed.

Lemma sends_only_lift {A} (r : result A) : sends_only P (lift r).
Proof. intros w. exists []. now rewrite app_nil_r. Qed.

Lemma sends_only_read {A} (f : world -> result A) : sends_only P (read f).
Proof. intros w. exists []. now rewrite app_nil_r. Qed.

Lemma sends_only_requests_get net req :
  P req -> sends_only P (requests_get net req).
Proof. intros Hp w. exists [req]. split; [reflexivity | now constructor]. Qed.

Lemma sends_only_bind {A B} (c : M A) (k : A -> M B) :
  sends_only P c -> (forall a, sends_only P (k a)) -> sends_only P (bind c k).
Proof.
  intros Hc Hk w. unfold bind. destruct (Hc w) as (s1 & E1 & H1).
  destruct (c w) as [w1 [a|e]]; cbn [fst] in *; [|eauto].
  destruct (Hk a w1) as (s2 & E2 & H2). exists (s1 ++ s2).
  rewrite E2, E1, app_assoc. split; [reflexivity | now apply Forall_app].
Qed.

Lemma sends_only_for_each {A S} (body : S -> A -> M S) l :
  (forall s a, sends_only P (body s a)) ->
  forall s, sends_only P (for_each body l s).
Proof.
  intros Hb. induction l as [|a rest IH]; intros s; cbn [for_each].
  - apply sends_only_ret.
  - apply sends_only_bind; [apply Hb | intros s'; apply IH].
Qed.

Lemma sends_only_get_model_object net id :
  P (GetModelObject (py_str id)) -> sends_only P (get_model_object net id).
Proof.
  intros Hp w.
  destruct (get_model_object_cases net id w)
    as [[_ E] | [(v0 & _ & _ & E) | [(_ & _ & E) |
        (_ & _ & _ & [(e & E) | (v0 & E)])]]];
    cbv zeta in E; rewrite E; cbn [fst requests_log];
    solve [ exists []; now rewrite app_nil_r
          | exists [GetModelObject (py_str id)];
            split; [reflexivity | now constructor] ].
Qed.

Lemma run_sends_only_and_then {A} (c : M A)
  (k : A -> world -> world * run_result) :
  sends_only P c -> (forall a, run_sends_only P (k a)) ->
  run_sends_only P (and_then c k).
Proof.
  intros Hc Hk w. unfold and_then. destruct (Hc w) as (s1 & E1 & H1).
  destruct (c w) as [w1 [a|e]]; cbn [fst] in *; [|eauto].
  destruct (Hk a w1) as (s2 & E2 & H2). exists (s1 ++ s2).
  rewrite E2, E1, app_assoc. split; [reflexivity | now apply Forall_app].
Qed.

Lemma run_sends_only_finish r : run_sends_only P (finish r).
Proof. intros w. exists []. now rewrite app_nil_r. Qed.

End SendsOnly.

Create HintDb sends.

#[local] Hint Resolve sends_only_ret sends_only_lift sends_only_read : sends.

(** Proves [sends_only] for a program built from the steps above. *)
Ltac sends_tac :=
  repeat first
    [ progress eauto with sends
    | match goal with
      | |- sends_only _ (get_model_object _ _) =>
          apply sends_only_get_model_object; solve [auto]
      | |- sends_only _ (requests_get _ _) =>
          apply sends_only_requests_get; solve [auto]
      end
    | apply sends_only_bind; [|intros ?]
    | apply sends_only_for_each; intros ? ?
    | match goal with
      | |- sends_only _ (if ?b then _ else _) => destruct b
      | |- sends_only _ (match ?x with _ => _ end) => destruct x
      end ].

Section SendsOnlyPrograms.

Variable net : network.
Variable P : request -> Prop.
Hypothesis P_diagram : forall id suffix, P (GetDiagram id suffix).
Hypothesis P_model : forall id, P (GetModelObject id).

Lemma sends_only_scan_sub_resources id subs :
  forall objects relationships,
    sends_only P (scan_sub_resources net id subs objects relationships).
Proof.
  induction subs as [|[suffix keys] rest IH]; intros objects relationships;
    cbn [scan_sub_resources]; sends_tac.
Qed.

Lemma sends_only_get_diagram_data id : sends_only P (get_diagram_data net id).
Proof.
  unfold get_diagram_data.
  pose proof (sends_only_scan_sub_resources id) as Hscan.
  sends_tac.
Qed.

Lemma sends_only_get_diagram_object id object_id :
  sends_only P (get_diagram_object net id object_id).
Proof.
  unfold get_diagram_object.
  pose proof (sends_only_get_diagram_data id) as Hdata.
  sends_tac.
Qed.

Lemma sends_only_place_object objects dia_to_model mdia item :
  sends_only P (place_object net objects dia_to_model mdia item).
Proof. unfold place_object. destruct item. sends_tac. Qed.

Lemma sends_only_place_relationship objects mdia rel :
  sends_only P (place_relationship net objects mdia rel).
Proof. unfold place_relationship. sends_tac. Qed.

Lemma sends_only_build_diagram dia_id name :
  P GetModelConnections -> sends_only P (build_diagram net dia_id name).
Proof.
  intros Hconn.
  unfold build_diagram, build_hierarchy, build_links, infer_relationships.
  pose proof (sends_only_get_diagram_data dia_id) as Hdata.
  pose proof sends_only_place_object as Hobj.
  pose proof sends_only_place_relationship as Hrel.
  sends_tac.
Qed.

Lemma sends_only_place_step flow seq step :
  sends_only P (place_step net flow seq step).
Proof.
  unfold place_step. destruct step.
  pose proof sends_only_get_diagram_object as Hobj.
  sends_tac.
Qed.

Lemma sends_only_build_sequence flow : sends_only P (build_sequence net flow).
Proof.
  unfold build_sequence. pose proof sends_only_place_step as Hstep.
  sends_tac.
Qed.

Lemma run_sends_only_main_diagram name :
  P GetDiagrams -> P GetModelConnections ->
  run_sends_only P (main_diagram net name).
Proof.
  intros Hd Hc. unfold main_diagram.
  apply run_sends_only_and_then;
    [unfold find_diagram_by_name; sends_tac|].
  intros dia_id. destruct (is_none dia_id); [apply run_sends_only_finish|].
  apply run_sends_only_and_then; [now apply sends_only_build_diagram|].
  intros [mdia|]; apply run_sends_only_finish.
Qed.

Lemma run_sends_only_main_flow name :
  P GetFlows -> (forall id, P (GetFlow id)) ->
  run_sends_only P (main_flow net name).
Proof.
  intros Hfs Hf. unfold main_flow.
  apply run_sends_only_and_then; [unfold find_flow_by_name; sends_tac|].
  intros flow_id. destruct (is_none flow_id); [apply run_sends_only_finish|].
  apply run_sends_only_and_then; [now apply sends_only_requests_get|].
  intros rflow. apply run_sends_only_and_then; [sends_tac|].
  intros [|].
  - apply run_sends_only_and_then; [sends_tac|].
    intros j. apply run_sends_only_finish.
  - apply run_sends_only_and_then.
    + pose proof sends_only_build_sequence as Hseq. sends_tac.
    + intros seq. apply run_sends_only_finish.
Qed.

End SendsOnlyPrograms.

(** X15.  The two modes of [main] keep to their own endpoints.  A run only
    appends to the log of requests; with a non-empty diagram name it never
    asks for a flow or for the list of flows, and in the flow mode it never
    asks for the list of diagrams or for the model connections; this also
    holds for the runs that end with an exception. *)
Theorem main_requests_by_mode
  (net : network) (flow_name diagram_name : option string) (w : world) :
  exists sent,
    requests_log (fst (main net flow_name diagram_name w))
    = requests_log w ++ sent /\
    (flow_mode diagram_name ->
     Forall (fun r => flow_mode_request r = true) sent) /\
    (~ flow_mode diagram_name ->
     Forall (fun r => diagram_mode_request r = true) sent).
Proof.
  assert (Hflow : forall fn,
             run_sends_only (fun r => flow_mode_request r = true)
                            (main_flow net fn))
    by (intros fn; apply run_sends_only_main_flow; reflexivity).
  assert (Hdia : forall dn,
             run_sends_only (fun r => diagram_mode_request r = true)
                            (main_diagram net dn))
    by (intros dn; apply run_sends_only_main_diagram; reflexivity).
  unfold main, flow_mode.
  destruct diagram_name as [dn|].
  - destruct (String.eqb_spec dn EmptyString) as [->|Hne]; cbn [negb].
    + destruct flow_name as [fn|].
      * destruct (Hflow fn w) as (s & E & Hs). exists s.
        split; [exact E|]. split; [auto|]. intros Hn. exfalso. auto.
      * exists []. rewrite app_nil_r. split; [reflexivity|]. split; constructor.
    + destruct (Hdia dn w) as (s & E & Hs). exists s.
      split; [exact E|]. split; [|auto].
      intros [H|H]; [discriminate | congruence].
  - destruct flow_name as [fn|].
    + destruct (Hflow fn w) as (s & E & Hs). exists s.
      split; [exact E|]. split; [auto|]. intros Hn. exfalso. auto.
    + exists []. rewrite app_nil_r. split; [reflexivity|]. split; constructor.
Qed.

(** ** The sequences built in the flow mode *)

Section SequenceInvariant.

Import Sequence.

Lemma declared_add_participant seq p seq' id :
  add_participant seq p = Ok seq' -> declared seq id -> declared seq' id.
Proof.
  intros H Hd. apply add_participant_first_seen in H. destruct H as [_ H].
  destruct (vdict_lookup (participant_id p) (participants seq));
    unfold declared in *; rewrite H; [assumption|].
  unfold vdict_mem in *. destruct (hashable id); [|discriminate].
  destruct (vdict_lookup id (participants seq)) as [x|] eqn:E;
    [|discriminate].
  now rewrite (vdict_lookup_app _ _ _ _ E).
Qed.

Lemma added_participant_declared seq p seq' :
  add_participant seq p = Ok seq' -> declared seq' (participant_id p).
Proof.
  intros H. pose proof H as H0. unfold add_participant in H0.
  apply rbind_ok in H0. destruct H0 as (present & Hm & _).
  assert (Hh : hashable (participant_id p) = true)
    by (unfold vdict_mem in Hm; destruct (hashable _);
        [reflexivity | discriminate]).
  apply add_participant_first_seen in H. destruct H as [_ H].
  unfold declared, vdict_mem. rewrite Hh.
  destruct (vdict_lookup (participant_id p) (participants seq)) eqn:E;
    rewrite H.
  - now rewrite E.
  - rewrite <- (vdict_set_absent _ p _ E).
    now rewrite vdict_lookup_set_same.
Qed.

Lemma arrows_declared_add_participant seq p seq' :
  add_participant seq p = Ok seq' ->
  arrows_declared seq -> arrows_declared seq'.
Proof.
  intros H Ha. unfold arrows_declared in *.
  destruct (add_participant_first_seen _ _ _ H) as [-> _].
  eapply Forall_impl; [|exact Ha]. intros i [Hs Ht]. split.
  - eapply declared_add_participant; eassumption.
  - destruct Ht as [Ht|Ht]; [now left | right].
    eapply declared_add_participant; eassumption.
Qed.

Lemma declared_once_add_participant seq p seq' :
  add_participant seq p = Ok seq' -> declared_once seq -> declared_once seq'.
Proof.
  intros H Ho. apply add_participant_first_seen in H. destruct H as [_ H].
  destruct (vdict_lookup (participant_id p) (participants seq)) eqn:E.
  - unfold declared_once in *. now rewrite H.
  - intros pre k q post Hsplit. rewrite H in Hsplit.
    destruct post as [|x post'] using rev_ind.
    + apply app_inj_tail in Hsplit. destruct Hsplit as [<- Hq].
      inversion Hq; subst. auto.
    + clear IHpost'. rewrite app_comm_cons, app_assoc in Hsplit.
      apply app_inj_tail in Hsplit. destruct Hsplit as [Hsplit _].
      now apply (Ho pre k q post').
Qed.

Lemma declared_once_new name : declared_once (new name).
Proof. intros [|x pre] k p post H; discriminate H. Qed.

Lemma arrows_declared_add_sequence_step seq i :
  arrows_declared seq -> declared seq (source_id i) ->
  target_id i = VNone \/ declared seq (target_id i) ->
  arrows_declared (add_sequence_step seq i).
Proof.
  intros Ha Hs Ht. unfold arrows_declared, add_sequence_step. cbn.
  apply Forall_app. split; [exact Ha | constructor; [|constructor]]. auto.
Qed.

Variables (net : network) (flow : value).

Lemma place_step_declared seq step w w' seq' :
  place_step net flow seq step w = (w', Ok seq') ->
  arrows_declared seq /\ declared_once seq ->
  arrows_declared seq' /\ declared_once seq'.
Proof.
  unfold place_step. destruct step as [k v]. intros H [Ha Ho].
  apply bind_ok in H. destruct H as (diagram_id & w0 & _ & H).
  apply bind_ok in H. destruct H as (origin_id & w1 & _ & H).
  apply bind_ok in H. destruct H as (dia_obj_ori & w2 & _ & H).
  destruct (is_none dia_obj_ori).
  { apply ret_ok in H. destruct H as [_ ->]. auto. }
  apply bind_ok in H. destruct H as (target & w3 & _ & H).
  apply bind_ok in H. destruct H as (dia_obj_tar & w4 & _ & H).
  apply bind_ok in H. destruct H as (ori_model_id & w5 & _ & H).
  apply bind_ok in H. destruct H as (model_obj_ori & w6 & _ & H).
  apply bind_ok in H. destruct H as (model_obj_tar & w7 & _ & H).
  apply bind_ok in H. destruct H as (ori_id & w8 & _ & H).
  apply bind_ok in H. destruct H as (ori_name & w9 & _ & H).
  apply bind_ok in H. destruct H as (seq1 & w10 & Hadd1 & H). step_ok Hadd1.
  apply bind_ok in H. destruct H as ([seq2 participant_tar] & w11 & Hpt & H).
  pose proof (added_participant_declared _ _ _ Hadd1) as Hori.
  cbn [participant_id] in Hori.
  assert (H2 : arrows_declared seq2 /\ declared_once seq2 /\
               declared seq2 ori_id /\
               match participant_tar with
               | Some q => declared seq2 (participant_id q)
               | None => True
               end).
  { destruct (is_none model_obj_tar); cbn [negb] in Hpt.
    - apply ret_ok in Hpt. destruct Hpt as [_ Hpt]. inversion Hpt; subst.
      split; [|split; [|split]]; [ | | assumption | exact I].
      + eapply arrows_declared_add_participant; eassumption.
      + eapply declared_once_add_participant; eassumption.
    - step_ok Hpt. inversion Hpt; subst.
      match goal with
      | Hadd : add_participant seq1 _ = Ok _ |- _ => rename Hadd into Hadd2
      end.
      split; [|split; [|split]].
      + eapply arrows_declared_add_participant; [exact Hadd2|].
        eapply arrows_declared_add_participant; eassumption.
      + eapply declared_once_add_participant; [exact Hadd2|].
        eapply declared_once_add_participant; eassumption.
      + eapply declared_add_participant; eassumption.
      + exact (added_participant_declared _ _ _ Hadd2). }
  destruct H2 as (Ha2 & Ho2 & Hs2 & Ht2).
  step_ok H. split; [|exact Ho2].
  apply arrows_declared_add_sequence_step; cbn; try assumption.
  destruct participant_tar; [now right | now left].
Qed.

Lemma place_steps_declared steps :
  forall seq w w' seq',
    for_each (place_step net flow) steps seq w = (w', Ok seq') ->
    arrows_declared seq /\ declared_once seq ->
    arrows_declared seq' /\ declared_once seq'.
Proof.
  induction steps as [|step rest IH]; intros seq w w' seq' H Hinv;
    cbn [for_each] in H.
  - apply ret_ok in H. now destruct H as [_ ->].
  - apply bind_ok in H. destruct H as (seq1 & w1 & Hstep & H).
    eapply IH; [eassumption|]. eapply place_step_declared; eassumption.
Qed.

End SequenceInvariant.

(** X16.  The sequence built for a flow is well formed: every arrow starts
    at a declared participant and, unless it is a self-arrow without
    target, ends at one; every participant is stored under its own id; and
    no participant is declared a second time, however many steps refer to
    it. *)
Theorem build_sequence_declares_participants
  (net : network) (flow : value) (w w' : world) (seq : MermaidSequence) :
  build_sequence net flow w = (w', Ok seq) ->
  arrows_declared seq /\ declared_once seq.
Proof.
  unfold build_sequence. intros H.
  apply bind_ok in H. destruct H as (name & w1 & _ & H).
  apply bind_ok in H. destruct H as (steps & w2 & _ & H).
  eapply place_steps_declared; [eassumption|].
  split; [constructor | apply declared_once_new].
Qed.

(** ** The order of the objects and of the steps *)

Lemma two_keys_sorted {A} (f : A -> Z) (l : list A) :
  StronglySorted (fun a b => (f a <= f b)%Z) l ->
  Forall (fun a => f a = 0%Z \/ f a = 1%Z) l ->
  l = filter (fun a => Z.eqb (f a) 0) l ++ filter (fun a => Z.eqb (f a) 1) l.
Proof.
  induction 1 as [|x r Hr IH Hle]; intros Hall; [reflexivity|].
  inversion Hall as [|? ? Hx Hrest]; subst. cbn [filter].
  destruct Hx as [Hx|Hx]; rewrite Hx; cbn [Z.eqb Pos.eqb app].
  - f_equal. now apply IH.
  - assert (Hones : Forall (fun a => f a = 1%Z) r).
    { rewrite Forall_forall in *. intros a Ha.
      specialize (Hle a Ha). destruct (Hrest a Ha); lia. }
    assert (H0 : filter (fun a => Z.eqb (f a) 0) r = []).
    { clear -Hones. induction Hones as [|a r Ha Hones IH]; [reflexivity|].
      cbn [filter]. now rewrite Ha. }
    assert (H1 : filter (fun a => Z.eqb (f a) 1) r = r).
    { clear -Hones. induction Hones as [|a r Ha Hones IH]; [reflexivity|].
      cbn [filter]. rewrite Ha. cbn [Z.eqb Pos.eqb]. now rewrite IH. }
    now rewrite H0, H1.
Qed.

(** X17.  The hierarchy pass takes the objects of the diagram in this
    order: first every object without model object (the groups), then every
    model-backed object, both in the order of the diagram's [objects]; hence
    a group written in the diagram is a node before any object that may
    need it as parent is placed. *)
Theorem sorted_items_groups_first
  (objects : value) (items : list (string * value)) :
  sorted_items objects = Ok items ->
  exists od,
    objects = VDict od /\
    items = filter (fun kv => negb (model_backed (snd kv))) od
            ++ filter (fun kv => model_backed (snd kv)) od.
Proof.
  unfold sorted_items. intros H. apply rbind_ok in H.
  destruct H as (od & Hitems & H). cbv beta in H.
  destruct objects as [|b|z|s|l|d]; try discriminate.
  inversion Hitems; subst od. clear Hitems.
  exists d. split; [reflexivity|].
  set (key := fun item : string * value =>
                (m <-- py_get (snd item) "modelId" VNone ;
                 Ok (VInt (if truthy m then 1 else 0)))%result) in H.
  set (rank := fun kv : string * value =>
                 (if model_backed (snd kv) then 1 else 0)%Z).
  assert (Hkey : forall kv b, key kv = Ok b -> key_of key kv = VInt (rank kv)).
  { intros [k v] b Hb. unfold key_of, rank. unfold key in *. cbn [snd] in *.
    destruct v as [| | | | |vd]; try discriminate. unfold model_backed.
    cbn [py_get rbind field].
    destruct (truthy _); reflexivity. }
  destruct (py_sorted_ok key d items H) as [Hok _].
  assert (Hd : Forall (fun kv => key_of key kv = VInt (rank kv)) d).
  { eapply Forall_impl; [|exact Hok]. intros kv [b Hb]. now apply Hkey with b. }
  pose proof (py_sorted_perm key d items H) as Hperm.
  assert (Hitems : Forall (fun kv => key_of key kv = VInt (rank kv)) items)
    by (eapply Permutation_Forall; eassumption).
  assert (Hscalar : scalar_keys (map (key_of key) d) = true).
  { unfold scalar_keys. apply orb_true_iff. left. apply forallb_forall.
    intros x Hx. apply in_map_iff in Hx. destruct Hx as (kv & <- & Hin).
    rewrite Forall_forall in Hd. now rewrite (Hd kv Hin). }
  pose proof (py_sorted_ascending key d items H Hscalar) as Hsorted.
  assert (Hrank : StronglySorted (fun a b => (rank a <= rank b)%Z) items).
  { clear -Hsorted Hitems.
    induction Hsorted as [|x r Hr IH Hle]; [constructor|].
    inversion Hitems as [|? ? Hx Hrest]; subst.
    constructor; [now apply IH|].
    rewrite Forall_forall in *. intros y Hy. specialize (Hle y Hy).
    unfold key_le, key_ltb in Hle. rewrite Hx, (Hrest y Hy) in Hle.
    cbn [py_lt] in Hle. now apply Z.ltb_ge in Hle. }
  rewrite (two_keys_sorted rank items Hrank).
  2:{ apply Forall_forall. intros kv _. unfold rank.
      destruct (model_backed (snd kv)); auto. }
  assert (Hfilter : forall (z : Z) (l : list (string * value)),
             Forall (fun kv => key_of key kv = VInt (rank kv)) l ->
             filter (fun kv => Z.eqb (rank kv) z) l = with_key key (VInt z) l).
  { intros z l Hl. unfold with_key. apply filter_ext_in. intros kv Hin.
    rewrite Forall_forall in Hl. now rewrite (Hl kv Hin). }
  rewrite !Hfilter by assumption.
  rewrite !(py_sorted_stable key d items _ H).
  rewrite <- !Hfilter by assumption.
  f_equal; apply filter_ext; intros kv; unfold rank;
    destruct (model_backed (snd kv)); reflexivity.
Qed.

(** X18.  The steps of a flow are taken in ascending order of their
    [index], numbers by value and strings by code points, and steps that
    carry equal indexes are taken in the order of the flow's [steps]: the
    sort is stable. *)
Theorem sorted_steps_stable
  (flow : value) (steps : list (string * value)) :
  sorted_steps flow = Ok steps ->
  exists d,
    py_getitem flow (VStr "steps") = Ok (VDict d) /\
    Permutation d steps /\
    (scalar_keys (map step_index d) = true ->
     StronglySorted (fun a b => key_le (step_index a) (step_index b)) steps) /\
    forall k,
      filter (fun s => py_eqb (step_index s) k) steps
      = filter (fun s => py_eqb (step_index s) k) d.
Proof.
  unfold sorted_steps. intros H.
  apply rbind_ok in H. destruct H as (sv & Hsv & H). cbv beta in H.
  apply rbind_ok in H. destruct H as (d & Hd & H). cbv beta in H.
  destruct sv as [|b|z|s|l|sd]; try discriminate.
  inversion Hd; subst d. clear Hd. exists sd.
  split; [exact Hsv|]. split; [exact (py_sorted_perm _ _ _ H)|]. split.
  - exact (py_sorted_ascending _ _ _ H).
  - intros k. exact (py_sorted_stable _ _ _ k H).
Qed.

(** ** Every node gets one place *)

Section Places.

Import Diagram.

Lemma children_dict_set p pn k ns :
  dict_lookup p ns = Some pn ->
  Permutation
    (flat_map (fun kn => node_children (snd kn))
       (dict_set p (set_children pn (node_children pn ++ [k])) ns))
    (k :: flat_map (fun kn => node_children (snd kn)) ns).
Proof.
  induction ns as [|[k0 n0] r IH]; simpl; [discriminate|].
  destruct (String.eqb p k0).
  - intros H. inversion H; subst. simpl.
    rewrite <- app_assoc. cbn [app]. symmetry. apply Permutation_middle.
  - intros H. simpl. rewrite (IH H). now rewrite <- Permutation_middle.
Qed.

Lemma build_children_places items :
  forall ns roots ns1 roots1,
    build_children items ns roots = (ns1, Ok roots1) ->
    Permutation (placed ns1 roots1) (placed ns roots ++ map fst items).
Proof.
  induction items as [|[k n] rest IH]; intros ns roots ns1 roots1 H;
    simpl in H.
  - inversion H; subst. now rewrite app_nil_r.
  - assert (Hroot : build_children rest ns (roots ++ [k]) = (ns1, Ok roots1) ->
                    Permutation (placed ns1 roots1)
                                (placed ns roots ++ map fst ((k, n) :: rest))).
    { intros Hb. rewrite (IH _ _ _ _ Hb). unfold placed. cbn [map fst].
      etransitivity; [|apply Permutation_middle].
      apply (Permutation_app_tail (map fst rest)
               (l' := k :: roots ++ _)).
      apply (Permutation_app_tail _ (l' := k :: roots)).
      symmetry. apply Permutation_cons_append. }
    destruct (truthy (node_parent n)); [|now apply Hroot].
    destruct (key_in_dict (node_parent n) ns) as [[|]|e] eqn:Ek;
      [|now apply Hroot|discriminate].
    rewrite (IH _ _ _ _ H). unfold placed. cbn [map fst].
    destruct (node_parent n) as [|b|z|p|l|d]; simpl in Ek; try discriminate.
    assert (Hm : dict_mem p ns = true) by congruence.
    unfold dict_mem in Hm. unfold append_child.
    destruct (dict_lookup p ns) as [pn|] eqn:Ep; [|discriminate].
    rewrite (children_dict_set p pn k ns Ep).
    etransitivity; [|apply Permutation_middle].
    apply (Permutation_app_tail (map fst rest) (l' := k :: roots ++ _)).
    symmetry. apply Permutation_middle.
Qed.

Lemma reset_children_no_children ns :
  flat_map (fun kn => node_children (snd kn)) (reset_children ns) = [].
Proof. induction ns as [|[k n] r IH]; [reflexivity | exact IH]. Qed.

End Places.

(** X19.  [generate] gives every node exactly one place: the roots together
    with the children lists of all nodes are a rearrangement of the keys of
    the nodes, so a node is a root or is listed as child by one node, and
    by no second one. *)
Theorem generate_places_every_node_once
  (self : MermaidDiagram) (roots : list string) :
  roots_of self = Ok roots ->
  Permutation (placed (nodes (fst (Diagram.generate self))) roots)
              (dict_keys (nodes self)) /\
  (keys_distinct self ->
   NoDup (placed (nodes (fst (Diagram.generate self))) roots)).
Proof.
  unfold roots_of. intros H.
  assert (Hp : Permutation (placed (nodes (fst (Diagram.generate self))) roots)
                           (dict_keys (nodes self))).
  { rewrite generate_fst. cbn [nodes Diagram.with_nodes].
    destruct (Diagram.build_children _ _ _) as [ns1 r] eqn:Eb.
    cbn [fst snd] in *. subst r.
    rewrite (build_children_places _ _ _ _ _ Eb). unfold placed.
    rewrite reset_children_no_children. cbn [app].
    change (map fst ?d) with (dict_keys d).
    now rewrite reset_children_keys. }
  split; [exact Hp|]. intros Hnd.
  eapply Permutation_NoDup; [symmetry; exact Hp | exact Hnd].
Qed.

(** ** The sanitized fields of a node *)

Section Sanitized.

Import Diagram.

Lemma chars_append (a b : string) : chars (a +++ b) = chars a ++ chars b.
Proof.
  unfold chars. induction a as [|c a IH]; simpl; [reflexivity|].
  now rewrite IH.
Qed.

Lemma filter_all {X} (f : X -> bool) (l : list X) :
  forallb f l = true -> filter f l = l.
Proof.
  induction l as [|x r IH]; simpl; [reflexivity|].
  destruct (f x); simpl; [|discriminate]. intros H. now rewrite IH.
Qed.

Lemma safe_id_chars id : Forall (fun c => id_char c = true) (chars (safe_id id)).
Proof.
  unfold safe_id. rewrite chars_join. apply Forall_forall.
  intros c Hc. now apply filter_In in Hc.
Qed.

Lemma safe_id_clean id : forallb id_char (chars id) = true -> safe_id id = id.
Proof.
  intros H. unfold safe_id.
  change (fun c => isalnum c || Ascii.eqb c "_"%char) with id_char.
  rewrite (filter_all _ _ H). apply string_of_list_ascii_of_string.
Qed.

Lemma safe_name_no_quote name : ~ In DQUOTE (chars (safe_name name)).
Proof.
  unfold safe_name. induction name as [|c r IH]; simpl; [tauto|].
  rewrite chars_append. intros H. apply in_app_or in H.
  destruct H as [H|H]; [|contradiction].
  destruct (Ascii.eqb_spec c DQUOTE) as [->|Hc].
  - vm_compute in H. repeat (destruct H as [H|H]; [discriminate|]).
    contradiction.
  - destruct H as [H|[]]. congruence.
Qed.

Lemma safe_name_clean name :
  ~ In DQUOTE (chars name) -> safe_name name = name.
Proof.
  unfold safe_name. induction name as [|c r IH]; simpl; [reflexivity|].
  intros H. destruct (Ascii.eqb_spec c DQUOTE) as [->|Hc]; [tauto|].
  simpl. f_equal. apply IH. tauto.
Qed.

End Sanitized.

(** X20.  What [add_node] stores is safe to print: the id of the node is
    the given id without the characters that are neither alphanumeric nor
    an underscore, so an id made of such characters only is stored as it
    is; the name of the node holds no double quote, and a name without
    double quote is stored as it is. *)
Theorem add_node_sanitizes
  (self : MermaidDiagram) (id name : string) (parent_id : value) :
  exists n,
    dict_lookup id (nodes (Diagram.add_node self id name parent_id)) = Some n /\
    chars (node_id n) = filter id_char (chars id) /\
    Forall (fun c => id_char c = true) (chars (node_id n)) /\
    (forallb id_char (chars id) = true -> node_id n = id) /\
    ~ In DQUOTE (chars (node_name n)) /\
    (~ In DQUOTE (chars name) -> node_name n = name).
Proof.
  eexists. split; [apply add_node_lookup_same|]. cbn [node_id node_name].
  split; [apply chars_join|]. split; [apply safe_id_chars|].
  split; [apply safe_id_clean|]. split; [apply safe_name_no_quote|].
  apply safe_name_clean.
Qed.

(** ** Runs that end with a message *)

(** X21.  A flow that is found by name but not served ends the run with a
    message that quotes the answer instead of the flow: when the request
    for the flow is answered with a status other than 200, or with a JSON
    value in which [flow] is not found, [main] reports
    [Unable to find flow [..]] with the text of that JSON value between the
    brackets, and writes no file. *)
Theorem main_flow_not_served
  (net : network) (flow_name : string) (diagram_name : option string)
  (w w1 : world) (flow_id j : value) :
  flow_mode diagram_name ->
  find_flow_by_name net flow_name w = (w1, Ok flow_id) ->
  is_none flow_id = false ->
  body (net (requests_log w1) (GetFlow (py_str flow_id))) = Some j ->
  status_code (net (requests_log w1) (GetFlow (py_str flow_id))) <> 200%Z \/
  py_contains (VStr "flow") j = Ok false ->
  main net (Some flow_name) diagram_name w
  = (sent w1 [GetFlow (py_str flow_id)],
     inr (Message ("Unable to find flow [" +++ py_str j +++ "]"))).
Proof.
  intros Hmode Hfind Hid Hb Hcase.
  assert (Hmain : main net (Some flow_name) diagram_name w
                  = main_flow net flow_name w)
    by (destruct Hmode as [-> | ->]; reflexivity).
  rewrite Hmain. unfold main_flow, and_then. rewrite Hfind, Hid.
  unfold requests_get at 1.
  set (rflow := net (requests_log w1) (GetFlow (py_str flow_id))) in *.
  assert (Hmissing :
            (if negb (Z.eqb (status_code rflow) 200) then ret true
             else
               flow_json <- lift (response_json rflow) ;;
               has_flow <- lift (py_contains (VStr "flow") flow_json) ;;
               ret (negb has_flow))
              (sent w1 [GetFlow (py_str flow_id)])
            = (sent w1 [GetFlow (py_str flow_id)], Ok true)).
  { destruct (Z.eqb_spec (status_code rflow) 200) as [E|E]; cbn [negb];
      [|reflexivity].
    destruct Hcase as [Hs|Hc]; [contradiction|].
    unfold bind, lift, response_json, ret. now rewrite Hb, Hc. }
  unfold sent in *. rewrite Hmissing.
  unfold lift, response_json, finish. now rewrite Hb.
Qed.

(** X22.  A diagram that is found by name but whose data is refused ends
    the run with a message: when the request for the diagram is answered
    with a status other than 200, [main] reports
    [Unable to fetch diagram data], having asked for no sub-resource, no
    model object and no connection, and writes no file. *)
Theorem main_diagram_not_fetched
  (net : network) (flow_name : option string) (diagram_name : string)
  (w w1 : world) (dia_id : value) :
  diagram_name <> EmptyString ->
  find_diagram_by_name net diagram_name w = (w1, Ok dia_id) ->
  is_none dia_id = false ->
  vdict_mem dia_id (diagram_cache w1) = Ok false ->
  status_code (net (requests_log w1) (GetDiagram (py_str dia_id) "")) <> 200%Z ->
  main net flow_name (Some diagram_name) w
  = (sent w1 [GetDiagram (py_str dia_id) ""],
     inr (Message "Unable to fetch diagram data")).
Proof.
  intros Hne Hfind Hid Hc Hs. unfold main.
  destruct (String.eqb_spec diagram_name EmptyString) as [E|_];
    [contradiction|]. cbn [negb].
  unfold main_diagram, and_then. rewrite Hfind, Hid.
  unfold build_diagram. unfold bind at 1.
  assert (Hdata : get_diagram_data net dia_id w1
                  = (sent w1 [GetDiagram (py_str dia_id) ""], Ok VNone)).
  { unfold get_diagram_data. unfold bind at 1. unfold read at 1. rewrite Hc.
    cbv beta iota. unfold bind at 1. unfold requests_get at 1.
    apply Z.eqb_neq in Hs. rewrite Hs. reflexivity. }
  rewrite Hdata. reflexivity.
Qed.

(** ** The labels of links *)

(** X23.  The label of the link added for a relationship: the
    relationship's own [label], else its own [name], and in both cases no
    model object is looked up; only a relationship without either that
    refers to a model connection takes the [name] of that model object,
    resolved by [get_model_object]. *)
Theorem place_relationship_label
  (net : network) (objects : value) (mdia mdia' : MermaidDiagram)
  (rel : value) (w w' : world) (l : link) :
  place_relationship net objects mdia rel w = (w', Ok mdia') ->
  links mdia' = links mdia ++ [l] ->
  if truthy (own_label rel) || negb (truthy (field rel "modelId"))
  then link_label l = own_label rel /\ w' = w
  else exists m,
         get_model_object net (field rel "modelId") w = (w', Ok m) /\
         py_get m "name" VNone = Ok (link_label l).
Proof.
  unfold place_relationship. intros H Hl.
  apply bind_ok in H. destruct H as (s & w1 & Hs & H).
  apply lift_ok in Hs. destruct Hs as [-> _].
  apply bind_ok in H. destruct H as (t & w2 & Ht & H).
  apply lift_ok in Ht. destruct Ht as [-> _].
  apply bind_ok in H. destruct H as (lab0 & w3 & Hl0 & H).
  apply lift_ok in Hl0. destruct Hl0 as [-> Hl0].
  apply py_get_field_ok in Hl0. destruct Hl0 as [-> Hdict].
  apply bind_ok in H. destruct H as (lab1 & w4 & Hl1 & H).
  assert (Hown : lab1 = own_label rel /\ w4 = w).
  { unfold own_label, py_or. destruct (truthy (field rel "label")).
    - apply ret_ok in Hl1. now destruct Hl1 as [-> ->].
    - apply lift_ok in Hl1. destruct Hl1 as [-> Hl1].
      apply py_get_field_ok in Hl1. now destruct Hl1 as [-> _]. }
  destruct Hown as [-> ->]. clear Hl1.
  apply bind_ok in H. destruct H as (mid & w5 & Hm & H).
  apply lift_ok in Hm. destruct Hm as [-> Hm].
  apply py_get_field_ok in Hm. destruct Hm as [-> _].
  apply bind_ok in H. destruct H as (lab2 & w6 & Hl2 & H).
  apply bind_ok in H. destruct H as (sk & w7 & Hsk & H).
  apply lift_ok in Hsk. destruct Hsk as [-> _].
  apply bind_ok in H. destruct H as (sok & w8 & Hsok & H).
  assert (E8 : w8 = w6)
    by (destruct sk; [apply ret_ok in Hsok | apply lift_ok in Hsok];
        now destruct Hsok).
  subst w8. clear Hsok.
  apply bind_ok in H. destruct H as (both & w9 & Hboth & H).
  assert (E9 : w9 = w6).
  { destruct sok.
    - apply bind_ok in Hboth. destruct Hboth as (tk & w10 & Htk & Hboth).
      apply lift_ok in Htk. destruct Htk as [-> _].
      destruct tk; [apply ret_ok in Hboth | apply lift_ok in Hboth];
        now destruct Hboth.
    - apply ret_ok in Hboth. now destruct Hboth. }
  subst w9. clear Hboth.
  assert (Hadded : mdia' = Diagram.add_link mdia s t lab2 /\ w' = w6).
  { destruct both; apply ret_ok in H; destruct H as [-> ->];
      [auto|]. exfalso.
    apply (f_equal (@List.length link)) in Hl.
    rewrite length_app in Hl. simpl in Hl. lia. }
  destruct Hadded as [-> ->].
  cbn [links Diagram.add_link] in Hl. apply app_inv_head in Hl.
  inversion Hl; subst l. cbn [link_label].
  destruct (truthy (own_label rel)); cbn [negb andb orb] in *.
  - apply ret_ok in Hl2. destruct Hl2 as [-> ->]. auto.
  - destruct (truthy (field rel "modelId")); cbn [negb] in *.
    + apply bind_ok in Hl2. destruct Hl2 as (m & w10 & Hget & Hname).
      apply lift_ok in Hname. destruct Hname as [-> Hname]. eauto.
    + apply ret_ok in Hl2. destruct Hl2 as [-> ->]. auto.
Qed.

(** ** The node of a model-backed object *)

Lemma filter_head_find {X} (f : X -> bool) (l : list X) :
  match filter f l with x :: _ => Some x | [] => None end = find f l.
Proof.
  induction l as [|x r IH]; simpl; [reflexivity|].
  destruct (f x); [reflexivity | exact IH].
Qed.

Lemma resolve_parent_resolved dia_to_model parent_dia_id model_obj p name :
  resolve_parent dia_to_model parent_dia_id model_obj = Ok p ->
  py_getitem model_obj (VStr "name") = Ok name ->
  p = resolved_parent dia_to_model parent_dia_id model_obj.
Proof.
  unfold resolve_parent, resolved_parent. intros H Hname.
  destruct (truthy parent_dia_id); cbn [negb] in H; [now inversion H|].
  destruct model_obj as [|b|z|s|l|md]; try discriminate Hname.
  cbn [py_contains key_in_dict rbind] in H. unfold dict_mem in H.
  destruct (dict_lookup "parentId" md) as [ps|] eqn:Ep.
  - cbn [py_getitem rbind] in H. rewrite Ep in H. cbn [rbind] in H.
    rewrite <- filter_head_find.
    destruct (filter _ dia_to_model); now inversion H.
  - now inversion H.
Qed.

Lemma find_model_ids_of (od : list (string * value)) (ps : value) :
  match find (fun kv => py_eqb (snd kv) ps) (model_ids_of od) with
  | Some kv => Some (fst kv)
  | None => None
  end
  = match find (fun kv => model_backed (snd kv)
                          && py_eqb (field (snd kv) "modelId") ps) od with
    | Some kv => Some (fst kv)
    | None => None
    end.
Proof.
  induction od as [|[k v] rest IH]; [reflexivity|].
  rewrite model_ids_of_cons. cbn [find snd fst].
  destruct (model_backed v); cbn [app find snd fst andb]; [|exact IH].
  destruct (py_eqb (field v "modelId") ps); [reflexivity | exact IH].
Qed.

Lemma resolved_parent_structural od parent m :
  resolved_parent (model_ids_of od) parent m = structural_parent od parent m.
Proof.
  unfold resolved_parent, structural_parent.
  destruct (truthy parent); [reflexivity|].
  destruct m as [| | | | |md]; try reflexivity.
  destruct (dict_lookup "parentId" md) as [ps|]; [|reflexivity].
  pose proof (find_model_ids_of od ps) as H.
  destruct (find _ (model_ids_of od)), (find _ od); inversion H;
    reflexivity.
Qed.

(** ** The node of a model-backed object *)

Lemma place_object_model_backed_general
  (net : network) (objects : value) (dia_to_model : list (string * value))
  (mdia mdia' : MermaidDiagram) (k : string) (kd : value) (w w' : world) :
  model_backed kd = true ->
  place_object net objects dia_to_model mdia (k, kd) w = (w', Ok mdia') ->
  exists m name mdia_p,
    get_model_object net (field kd "modelId") w = (w', Ok m) /\
    py_getitem m (VStr "name") = Ok (VStr name) /\
    ensure_parent objects
                  (resolved_parent dia_to_model (field kd "parentId") m) mdia
    = Ok mdia_p /\
    mdia' = Diagram.add_node mdia_p k name
              (resolved_parent dia_to_model (field kd "parentId") m).
Proof.
  unfold model_backed, place_object. intros Hm H.
  apply bind_ok in H. destruct H as (mid & w1 & Hmid & H).
  apply lift_ok in Hmid. destruct Hmid as [-> Hmid].
  apply py_get_field_ok in Hmid. destruct Hmid as [-> _].
  apply bind_ok in H. destruct H as (pid & w2 & Hpid & H).
  apply lift_ok in Hpid. destruct Hpid as [-> Hpid].
  apply py_get_field_ok in Hpid. destruct Hpid as [-> _].
  rewrite Hm in H.
  apply bind_ok in H. destruct H as (m & w3 & Hget & H).
  apply bind_ok in H. destruct H as (p & w4 & Hp & H).
  apply lift_ok in Hp. destruct Hp as [-> Hp].
  apply bind_ok in H. destruct H as (mdia1 & w5 & He & H).
  apply lift_ok in He. destruct He as [-> He].
  apply bind_ok in H. destruct H as (name & w6 & Hname & H).
  apply lift_ok in Hname. destruct Hname as [-> Hname].
  apply lift_ok in H. destruct H as [-> H].
  apply add_node_call_ok in H. destruct H as (i & n & Hi & -> & ->).
  inversion Hi; subst i.
  rewrite (resolve_parent_resolved _ _ _ _ _ Hp Hname) in *.
  exists m, n, mdia1. auto.
Qed.

(** X24.  The node of a model-backed object: it is stored under the id of
    the diagram object with the name of the model object, resolved by
    [get_model_object]; its parent is the [parentId] of the diagram object
    when there is one, else the first object of the diagram, in the order
    of its objects, whose model object is the parent of this model object,
    else none.  The map from diagram objects to model objects is the one
    [main] builds from the objects. *)
Theorem place_object_model_backed
  (net : network) (od dia_to_model : list (string * value))
  (mdia mdia' : MermaidDiagram) (k : string) (kd : value) (w w' : world) :
  NoDup (dict_keys od) ->
  build_dia_to_model (VDict od) = Ok dia_to_model ->
  model_backed kd = true ->
  place_object net (VDict od) dia_to_model mdia (k, kd) w = (w', Ok mdia') ->
  exists m name,
    get_model_object net (field kd "modelId") w = (w', Ok m) /\
    py_getitem m (VStr "name") = Ok (VStr name) /\
    dict_lookup k (nodes mdia')
    = Some (mkNode (Diagram.safe_id k) (Diagram.safe_name name)
                   (structural_parent od (field kd "parentId") m) []).
Proof.
  intros Hnd Hmap Hm H.
  rewrite (build_dia_to_model_ok od dia_to_model Hnd Hmap) in H.
  apply place_object_model_backed_general in H; [|exact Hm].
  destruct H as (m & name & mdia_p & Hget & Hname & _ & ->).
  exists m, name. split; [exact Hget|]. split; [exact Hname|].
  now rewrite add_node_lookup_same, resolved_parent_structural.
Qed.

(** ** The nodes of the hierarchy pass *)

Section HierarchyNodes.

Import Diagram.

Variable od : list (string * value).

Lemma ensure_parent_made p mdia mdia1 :
  ensure_parent (VDict od) p mdia = Ok mdia1 -> parent_made od p mdia mdia1.
Proof.
  unfold ensure_parent, parent_made.
  destruct (truthy p) eqn:Et;
    [|intros H; inversion H; left; split; [reflexivity | now left]].
  intros H. apply rbind_ok in H. destruct H as (is_node & Hnode & H).
  destruct is_node; cbn [negb] in H;
    [inversion H; subst; left; split; [reflexivity | right; now left]|].
  apply rbind_ok in H. destruct H as (known & Hknown & H).
  cbn [py_contains] in Hknown.
  destruct known;
    [|inversion H; subst; left; split; [reflexivity | right; now right]].
  apply rbind_ok in H. destruct H as (p_data & Hdata & H).
  apply rbind_ok in H. destruct H as (p_name & Hpname & H).
  apply rbind_ok in H. destruct H as (p_parent & Hpp & H).
  apply py_get_field_ok in Hpp. destruct Hpp as [-> Hdict].
  apply add_node_call_ok in H. destruct H as (ps & pn & -> & -> & ->).
  right. exists ps, p_data, pn. simpl in Hnode, Hdata.
  split; [reflexivity|]. split; [congruence|].
  destruct (dict_lookup ps od) as [pd|] eqn:El; [|discriminate].
  inversion Hdata; subst pd. split; [reflexivity|]. split; [|reflexivity].
  destruct p_data as [| | | | |d]; try discriminate.
  simpl in Hpname |- *. now inversion Hpname.
Qed.

Lemma parent_made_lookup p mdia mdia1 n :
  parent_made od p mdia mdia1 ->
  dict_lookup n (nodes mdia1) = dict_lookup n (nodes mdia) \/
  (dict_lookup n (nodes mdia) = None /\
   exists pd pn,
     dict_lookup n od = Some pd /\ parent_name pd = VStr pn /\
     dict_lookup n (nodes mdia1)
     = Some (mkNode (safe_id n) (safe_name pn) (field pd "parentId") [])).
Proof.
  intros [[-> _] | (ps & pd & pn & -> & Hm & Hod & Hpn & ->)]; [now left|].
  destruct (String.eqb_spec n ps) as [->|Hne].
  - right. split.
    + unfold dict_mem in Hm. now destruct (dict_lookup ps (nodes mdia)).
    + exists pd, pn. split; [exact Hod|]. split; [exact Hpn|].
      apply add_node_lookup_same.
  - left. now apply add_node_lookup_other.
Qed.

Lemma parent_made_mem p mdia mdia1 n :
  parent_made od p mdia mdia1 ->
  dict_mem n (nodes mdia) = true ->
  dict_lookup n (nodes mdia1) = dict_lookup n (nodes mdia).
Proof.
  intros Hp Hm. destruct (parent_made_lookup p mdia mdia1 n Hp)
    as [E | [E _]]; [exact E|].
  unfold dict_mem in Hm. rewrite E in Hm. discriminate.
Qed.

(** One pass of the loop of the hierarchy pass. *)
Lemma place_object_exact net dia_to_model mdia k kd w w' mdia' :
  place_object net (VDict od) dia_to_model mdia (k, kd) w = (w', Ok mdia') ->
  (renderable kd = false /\ mdia' = mdia /\ w' = w) \/
  (model_backed kd = true /\
   exists m s mdia_p,
     get_model_object net (field kd "modelId") w = (w', Ok m) /\
     py_getitem m (VStr "name") = Ok (VStr s) /\
     parent_made od (resolved_parent dia_to_model (field kd "parentId") m)
                 mdia mdia_p /\
     mdia' = add_node mdia_p k s
               (resolved_parent dia_to_model (field kd "parentId") m)) \/
  (model_backed kd = false /\ renderable kd = true /\ w' = w /\
   exists mdia_p,
     parent_made od (field kd "parentId") mdia mdia_p /\
     ((dict_mem k (nodes mdia_p) = true /\ mdia' = mdia_p) \/
      (dict_mem k (nodes mdia_p) = false /\
       exists s, group_name kd = VStr s /\
                 mdia' = add_node mdia_p k s (field kd "parentId")))).
Proof.
  intros H. destruct (model_backed kd) eqn:Emb.
  - right. left. split; [reflexivity|].
    apply place_object_model_backed_general in H; [|exact Emb].
    destruct H as (m & s & mdia_p & Hget & Hname & He & ->).
    exists m, s, mdia_p. repeat split; try assumption.
    now apply ensure_parent_made.
  - unfold model_backed in Emb. unfold place_object in H.
    apply bind_ok in H. destruct H as (mid & w1 & Hmid & H).
    apply lift_ok in Hmid. destruct Hmid as [-> Hmid].
    apply py_get_field_ok in Hmid. destruct Hmid as [-> Hdict].
    apply bind_ok in H. destruct H as (pid & w2 & Hpid & H).
    apply lift_ok in Hpid. destruct Hpid as [-> _].
    rewrite Emb in H.
    apply bind_ok in H. destruct H as (name & w3 & Hname & H).
    apply lift_ok in Hname. destruct Hname as [-> Hname].
    apply py_get_field_ok in Hname. destruct Hname as [-> _].
    apply bind_ok in H. destruct H as (named & w4 & Hsel & H).
    assert (Hnamed :
              w4 = w /\
              match named with
              | Some name => renderable kd = true /\ name = group_name kd
              | None => renderable kd = false
              end).
    { unfold renderable, group_name. rewrite Emb. cbn [orb].
      destruct (truthy (field kd "name")); cbn [negb orb] in *.
      - apply ret_ok in Hsel. destruct Hsel as [-> ->]. auto.
      - apply bind_ok in Hsel. destruct Hsel as (type & w5 & Htype & Hsel).
        apply lift_ok in Htype. destruct Htype as [-> Htype].
        apply py_get_field_ok in Htype. destruct Htype as [-> _].
        destruct (py_eqb (field kd "type") (VStr "boundary")); cbn [orb].
        + apply ret_ok in Hsel. destruct Hsel as [-> ->]. auto.
        + apply bind_ok in Hsel. destruct Hsel as (styled & w6 & Hst & Hsel).
          apply lift_ok in Hst. destruct Hst as [-> Hst].
          assert (Hb : styled = dict_has kd "style")
            by (destruct kd; simpl in *; try discriminate; congruence).
          rewrite <- Hb.
          destruct styled; apply ret_ok in Hsel; destruct Hsel as [-> ->];
            auto. }
    destruct Hnamed as [-> Hnamed].
    destruct named as [name'|].
    + destruct Hnamed as [Hr ->]. right. right.
      split; [reflexivity|]. split; [exact Hr|].
      apply bind_ok in H. destruct H as (parent_id & w5 & Hpar & H).
      apply lift_ok in Hpar. destruct Hpar as [-> Hpar].
      apply py_get_field_ok in Hpar. destruct Hpar as [-> _].
      apply bind_ok in H. destruct H as (mdia_p & w6 & He & H).
      apply lift_ok in He. destruct He as [-> He].
      apply ensure_parent_made in He.
      destruct (dict_mem k (nodes mdia_p)) eqn:Ek.
      * apply ret_ok in H. destruct H as [-> ->].
        split; [reflexivity|]. exists mdia_p. auto.
      * apply lift_ok in H. destruct H as [-> H].
        apply add_node_call_ok in H. destruct H as (i & n & Hi & Hn & ->).
        inversion Hi; subst i.
        split; [reflexivity|]. exists mdia_p. split; [exact He|].
        right. split; [exact Ek|]. exists n. auto.
    + apply ret_ok in H. destruct H as [-> ->]. left. auto.
Qed.

End HierarchyNodes.

Lemma get_model_object_cached net id w w' m :
  get_model_object net id w = (w', Ok m) -> is_none id = false ->
  vdict_lookup id (model_objects w') = Some m.
Proof.
  intros H Hn.
  pose proof (get_model_object_cases net id w) as C. cbv zeta in C.
  rewrite H in C.
  destruct C as [[_ E] | [(v0 & Hh & Hv & E) | [(Hn' & _ & _) |
                 (Hh & _ & Hv & [(e & E) | (v0 & E)])]]].
  - discriminate.
  - inversion E; subst. exact Hv.
  - congruence.
  - discriminate.
  - inversion E; subst. cbn [model_objects].
    rewrite <- (vdict_set_absent id v0 _ Hv).
    now apply vdict_lookup_set_same.
Qed.

Section NodesInvariant.

Import Diagram.

Variables (net : network) (od dia_to_model : list (string * value)).

Lemma model_node_later w w' n kd nd :
  (forall id v, vdict_lookup id (model_objects w) = Some v ->
                vdict_lookup id (model_objects w') = Some v) ->
  model_node dia_to_model w n kd nd -> model_node dia_to_model w' n kd nd.
Proof.
  intros Hk (m & s & Hm & Hs & ->). exists m, s. auto.
Qed.

Lemma made_parent_plain n pd pn :
  parent_name pd = VStr pn ->
  plain_node n pd (mkNode (safe_id n) (safe_name pn) (field pd "parentId") []).
Proof.
  intros H. repeat split. exists pn. auto.
Qed.

Lemma nodes_inv_step done k kd rest w w' mdia mdia' :
  NoDup (map fst (done ++ (k, kd) :: rest)) ->
  dict_lookup k od = Some kd ->
  nodes_inv od dia_to_model done ((k, kd) :: rest) w mdia ->
  place_object net (VDict od) dia_to_model mdia (k, kd) w = (w', Ok mdia') ->
  nodes_inv od dia_to_model (done ++ [(k, kd)]) rest w' mdia'.
Proof.
  intros Hnd Hk [F1 F2] H.
  assert (Hdone : forall kd0, ~ In (k, kd0) done).
  { intros kd0 Hin. rewrite map_app in Hnd. cbn [map fst] in Hnd.
    apply NoDup_remove_2 in Hnd. apply Hnd. apply in_or_app. left.
    apply in_map_iff. now exists (k, kd0). }
  assert (Hrest : forall kd0, ~ In (k, kd0) rest).
  { intros kd0 Hin. rewrite map_app in Hnd. cbn [map fst] in Hnd.
    apply NoDup_remove_2 in Hnd. apply Hnd. apply in_or_app. right.
    apply in_map_iff. now exists (k, kd0). }
  assert (Hkeep : keeps_cache (place_object net (VDict od) dia_to_model mdia
                                            (k, kd)))
    by apply keeps_cache_place_object.
  assert (Hcache : forall id v,
             vdict_lookup id (model_objects w) = Some v ->
             vdict_lookup id (model_objects w') = Some v).
  { intros id v Hv. specialize (Hkeep w id v Hv). now rewrite H in Hkeep. }
  (* the nodes of the objects done are untouched *)
  assert (Hold : forall mdia_p p,
             parent_made od p mdia mdia_p ->
             forall n kd0,
               In (n, kd0) done -> model_backed kd0 = true ->
               exists nd, dict_lookup n (nodes mdia_p) = Some nd /\
                          model_node dia_to_model w' n kd0 nd).
  { intros mdia_p p Hp n kd0 Hin Hmb.
    destruct (F1 n kd0 Hin Hmb) as (nd & Hn & Hform).
    exists nd. split; [|now apply model_node_later with w].
    rewrite (parent_made_mem od p mdia mdia_p n Hp); [exact Hn|].
    unfold dict_mem. now rewrite Hn. }
  (* the nodes other than [k] after the parent was made *)
  assert (Hplain : forall mdia_p p,
             parent_made od p mdia mdia_p ->
             forall n nd kd0,
               dict_lookup n (nodes mdia_p) = Some nd ->
               dict_lookup n od = Some kd0 ->
               model_backed kd0 = false \/ In (n, kd0) ((k, kd) :: rest) ->
               plain_node n kd0 nd).
  { intros mdia_p p Hp n nd kd0 Hn Hod Hprem.
    destruct (parent_made_lookup od p mdia mdia_p n Hp)
      as [E | (_ & pd & pn & Hpd & Hpn & E)].
    - rewrite E in Hn. now apply (F2 n nd kd0).
    - rewrite E in Hn. inversion Hn; subst nd.
      rewrite Hod in Hpd. inversion Hpd; subst pd.
      now apply made_parent_plain. }
  assert (Hne : forall n kd0, In (n, kd0) done -> n <> k).
  { intros n kd0 Hin ->. exact (Hdone kd0 Hin). }
  destruct (place_object_exact od net dia_to_model mdia k kd w w' mdia' H)
    as [(Hr & -> & ->) | [(Hmb & m & s & mdia_p & Hget & Hs & Hp & ->) |
        (Hmb & Hr & -> & mdia_p & Hp & Hcase)]].
  - (* not rendered *)
    assert (Hmb : model_backed kd = false).
    { unfold renderable in Hr. unfold model_backed.
      destruct (truthy (field kd "modelId")); [discriminate | reflexivity]. }
    split.
    + intros n kd0 Hin Hmb0. apply in_app_or in Hin.
      destruct Hin as [Hin | [Hin | []]]; [now apply F1|].
      inversion Hin; subst. congruence.
    + intros n nd kd0 Hn Hod [Hprem | Hprem];
        apply (F2 n nd kd0 Hn Hod); [now left | right; now right].
  - (* model-backed *)
    split.
    + intros n kd0 Hin Hmb0. apply in_app_or in Hin.
      destruct Hin as [Hin | [Hin | []]].
      * destruct (Hold mdia_p _ Hp n kd0 Hin Hmb0) as (nd & Hn & Hform).
        exists nd. split; [|exact Hform].
        rewrite add_node_lookup_other; [exact Hn | exact (Hne n kd0 Hin)].
      * inversion Hin; subst n kd0.
        eexists. split; [apply add_node_lookup_same|].
        exists m, s. split; [|split; [exact Hs | reflexivity]].
        apply (get_model_object_cached net _ w); [exact Hget|].
        unfold model_backed in Hmb. now destruct (field kd "modelId").
    + intros n nd kd0 Hn Hod Hprem.
      destruct (String.eqb_spec n k) as [->|Hnk].
      * rewrite Hk in Hod. inversion Hod; subst kd0.
        destruct Hprem as [Hprem | Hprem]; [congruence|].
        exfalso. exact (Hrest kd Hprem).
      * rewrite add_node_lookup_other in Hn by exact Hnk.
        apply (Hplain mdia_p _ Hp n nd kd0 Hn Hod).
        destruct Hprem as [Hprem | Hprem]; [now left | right; now right].
  - (* without model object *)
    assert (Hnodes : forall n, n <> k ->
               dict_lookup n (nodes mdia') = dict_lookup n (nodes mdia_p)).
    { intros n Hnk.
      destruct Hcase as [[_ ->] | (_ & s & _ & ->)]; [reflexivity|].
      now apply add_node_lookup_other. }
    split.
    + intros n kd0 Hin Hmb0. apply in_app_or in Hin.
      destruct Hin as [Hin | [Hin | []]].
      * destruct (Hold mdia_p _ Hp n kd0 Hin Hmb0) as (nd & Hn & Hform).
        exists nd. split; [|exact Hform].
        now rewrite (Hnodes n (Hne n kd0 Hin)).
      * inversion Hin; subst. congruence.
    + intros n nd kd0 Hn Hod Hprem.
      destruct (String.eqb_spec n k) as [->|Hnk].
      * rewrite Hk in Hod. inversion Hod; subst kd0.
        destruct Hcase as [[_ ->] | (_ & s & Hs & ->)].
        -- apply (Hplain mdia_p _ Hp k nd kd Hn Hk). now left.
        -- rewrite add_node_lookup_same in Hn. inversion Hn; subst nd.
           repeat split. exists s. auto.
      * rewrite (Hnodes n Hnk) in Hn.
        apply (Hplain mdia_p _ Hp n nd kd0 Hn Hod).
        destruct Hprem as [Hprem | Hprem]; [now left | right; now right].
Qed.

Lemma nodes_inv_loop items :
  forall done w w' mdia mdia',
    NoDup (map fst (done ++ items)) ->
    (forall k kd, In (k, kd) items -> dict_lookup k od = Some kd) ->
    nodes_inv od dia_to_model done items w mdia ->
    for_each (place_object net (VDict od) dia_to_model) items mdia w
    = (w', Ok mdia') ->
    nodes_inv od dia_to_model (done ++ items) [] w' mdia'.
Proof.
  induction items as [|[k kd] rest IH];
    intros done w w' mdia mdia' Hnd Hod Hinv H; cbn [for_each] in H.
  - apply ret_ok in H. destruct H as [-> ->]. now rewrite app_nil_r.
  - apply bind_ok in H. destruct H as (mdia1 & w1 & Hstep & H).
    replace (done ++ (k, kd) :: rest) with ((done ++ [(k, kd)]) ++ rest)
      by now rewrite <- app_assoc.
    apply (IH (done ++ [(k, kd)]) w1 w' mdia1 mdia').
    + now rewrite <- app_assoc.
    + intros k0 kd0 Hin. apply Hod. now right.
    + apply (nodes_inv_step done k kd rest w w1 mdia mdia1);
        [assumption | apply Hod; now left | assumption | assumption].
    + exact H.
Qed.

End NodesInvariant.

(** C7 (as amended).  In the hierarchy pass an object that is not rendered
    leaves the diagram as it is.  For a rendered object, when its resolved
    parent id is not a node yet and is a key of the objects, one node is
    made for that parent from the parent's own entry: its name ("Group" when
    it has none) and its parentId, without making the parent of that parent;
    then the node of the object is written, with the name of its model
    object and the resolved parent when it is model-backed, else with its
    own name ("Group" when that is empty) and its own parentId, and only if
    it is no node yet.  In the resulting diagram every node is a diagram
    object; every renderable object (model-backed, named, boundary or
    styled) is a node; the node of a model-backed object carries the name of
    its model object and the resolved parent, which is the structural parent
    among the objects when the map of model ids is the one built from them;
    every other node carries the name ("Group" by default) and the parentId
    of its own entry; the node of a renderable object whose parent reference
    is a key of the objects has that parent among the nodes; and every node
    without parent reference is a root of the forest [generate] builds. *)
Theorem hierarchy_parents_present
  (net : network) (od : list (string * value))
  (dia_to_model : list (string * value)) (name : string)
  (w w' : world) (mdia : MermaidDiagram) :
  NoDup (dict_keys od) ->
  build_hierarchy net (VDict od) dia_to_model (Diagram.new name) w
  = (w', Ok mdia) ->
  (forall mdia0 k kd w0 w1 mdia1,
      place_object net (VDict od) dia_to_model mdia0 (k, kd) w0
      = (w1, Ok mdia1) ->
      (renderable kd = false /\ mdia1 = mdia0 /\ w1 = w0) \/
      (model_backed kd = true /\
       exists m s mdia_p,
         get_model_object net (field kd "modelId") w0 = (w1, Ok m) /\
         py_getitem m (VStr "name") = Ok (VStr s) /\
         parent_made od (resolved_parent dia_to_model (field kd "parentId") m)
                     mdia0 mdia_p /\
         mdia1 = Diagram.add_node mdia_p k s
                   (resolved_parent dia_to_model (field kd "parentId") m)) \/
      (model_backed kd = false /\ renderable kd = true /\ w1 = w0 /\
       exists mdia_p,
         parent_made od (field kd "parentId") mdia0 mdia_p /\
         ((dict_mem k (nodes mdia_p) = true /\ mdia1 = mdia_p) \/
          (dict_mem k (nodes mdia_p) = false /\
           exists s, group_name kd = VStr s /\
                     mdia1 = Diagram.add_node mdia_p k s
                               (field kd "parentId"))))) /\
  (forall n, dict_mem n (nodes mdia) = true -> dict_mem n od = true) /\
  (forall n data,
      dict_lookup n od = Some data -> renderable data = true ->
      dict_mem n (nodes mdia) = true) /\
  (forall n nd data,
      dict_lookup n (nodes mdia) = Some nd ->
      dict_lookup n od = Some data ->
      if model_backed data then model_node dia_to_model w' n data nd
      else plain_node n data nd) /\
  (build_dia_to_model (VDict od) = Ok dia_to_model ->
   forall parent m,
     resolved_parent dia_to_model parent m = structural_parent od parent m) /\
  (forall n nd data,
      dict_lookup n (nodes mdia) = Some nd ->
      dict_lookup n od = Some data -> renderable data = true ->
      truthy (node_parent nd) = true ->
      key_in_dict (node_parent nd) od = Ok true ->
      key_in_dict (node_parent nd) (nodes mdia) = Ok true) /\
  (forall roots n nd,
      roots_of mdia = Ok roots ->
      dict_lookup n (nodes mdia) = Some nd ->
      truthy (node_parent nd) = false -> In n roots).
Proof.
  intros Hnd H.
  split; [intros mdia0 k kd w0 w1 mdia1; apply place_object_exact|].
  unfold build_hierarchy in H. apply bind_ok in H.
  destruct H as (items & w1 & Hsorted & H).
  apply lift_ok in Hsorted. destruct Hsorted as [-> Hsorted].
  unfold sorted_items in Hsorted. cbn [py_items rbind] in Hsorted.
  apply py_sorted_perm in Hsorted. rename Hsorted into Hperm.
  assert (Hitems : forall k kd, In (k, kd) items -> dict_lookup k od = Some kd).
  { intros k kd Hin. apply dict_lookup_In; [assumption|].
    now apply (Permutation_in _ (Permutation_sym Hperm)). }
  assert (Hinv : hierarchy_inv od ([] ++ items) mdia).
  { apply (place_objects_inv od net dia_to_model items [] (Diagram.new name)
             w w' mdia); [exact Hitems| |assumption].
    split; [|split].
    - intros n Hn. discriminate Hn.
    - intros n data [].
    - intros n nd Hn. discriminate Hn. }
  assert (Hforms : nodes_inv od dia_to_model ([] ++ items) [] w' mdia).
  { apply (nodes_inv_loop net od dia_to_model items [] w w'
             (Diagram.new name) mdia); [|exact Hitems| |assumption].
    - cbn [app]. apply (Permutation_NoDup (Permutation_map fst Hperm)).
      exact Hnd.
    - split.
      + intros n kd [].
      + intros n nd kd Hn. discriminate Hn. }
  simpl in Hinv, Hforms. destruct Hinv as (Hkeys & Hdone & Hpar).
  destruct Hforms as [Hmodel Hplain].
  assert (Hall : forall n data, dict_lookup n od = Some data -> In (n, data) items).
  { intros n data Hn. apply (Permutation_in _ Hperm).
    now apply dict_lookup_Some_In. }
  split; [assumption|]. split; [|split; [|split; [|split]]].
  - intros n data Hn Hr. apply (Hdone n data); auto.
  - intros n nd data Hn Hod.
    destruct (model_backed data) eqn:Emb.
    + destruct (Hmodel n data (Hall n data Hod) Emb) as (nd' & Hn' & Hform).
      rewrite Hn in Hn'. inversion Hn'; subst nd'. exact Hform.
    + apply (Hplain n nd data Hn Hod). now left.
  - intros Hmap parent m.
    rewrite (build_dia_to_model_ok od dia_to_model Hnd Hmap).
    apply resolved_parent_structural.
  - intros n nd data Hn Hod Hr Ht Hin.
    destruct (Hpar n nd Hn Ht Hin) as [Hok | (data' & Hd & _ & Hnr)];
      [assumption|].
    rewrite Hod in Hd. inversion Hd; subst data'.
    rewrite (Hnr (Hall n data Hod)) in Hr. discriminate.
  - intros roots n nd. apply roots_of_detached.
Qed.

(** C7 (as stated) fails: the synthesis of a missing parent is not
    recursive.  For the nested objects ["C"] in ["P"] in ["G"], the node
    made for ["P"] refers to the parent ["G"], which is a diagram object
    and is no node of the result. *)
Lemma hierarchy_grandparent_missing :
  exists w' mdia nd,
    build_hierarchy net_service (VDict objects_nested) [("C", VStr "M1")]
                    (Diagram.new "d") initial_world = (w', Ok mdia) /\
    dict_lookup "P" (nodes mdia) = Some nd /\
    node_parent nd = VStr "G" /\
    dict_mem "G" objects_nested = true /\
    dict_mem "G" (nodes mdia) = false.
Proof.
  eexists _, _, _. split; [vm_compute; reflexivity|].
  split; [vm_compute; reflexivity|]. repeat split.
Qed.


(** ** The further properties at sample inputs *)

Lemma get_model_object_memoized_at_mx :
  exists w1 v,
    get_model_object net_flow (VStr "mx") initial_world = (w1, Ok v) /\
    get_model_object net_not_found (VStr "mx") w1 = (w1, Ok v).
Proof.
  eexists _, _. split; [vm_compute; reflexivity|].
  apply (get_model_object_memoized net_flow net_not_found (VStr "mx")
           initial_world).
  vm_compute; reflexivity.
Defined.

Lemma get_model_object_footprint_at_failed_fetch :
  snd (get_model_object net_service (VStr "zz") initial_world)
  = Raise JSONDecodeError /\
  model_objects (fst (get_model_object net_service (VStr "zz") initial_world))
  = model_objects initial_world.
Proof.
  destruct (get_model_object_footprint net_service (VStr "zz") initial_world)
    as (_ & _ & H).
  split; [vm_compute; reflexivity | exact (H JSONDecodeError eq_refl)].
Defined.

Lemma main_keeps_model_objects_at_overview :
  let w := mkWorld [(VStr "mx", VStr "kept")] [] [] in
  vdict_lookup (VStr "mx") (model_objects w) = Some (VStr "kept") /\
  vdict_lookup (VStr "mx")
    (model_objects (fst (main net_landscape None (Some "Overview") w)))
  = Some (VStr "kept").
Proof.
  intros w. split; [reflexivity|].
  apply (main_keeps_model_objects net_landscape None (Some "Overview") w).
  reflexivity.
Defined.

Lemma main_requests_model_objects_once_at_overview :
  exists w' o,
    main net_landscape None (Some "Overview") initial_world = (w', inr o) /\
    string_keys (model_objects w') = true /\
    exists sent,
      requests_log w' = requests_log initial_world ++ sent /\
      NoDup (filter is_model_request sent).
Proof.
  eexists _, _. split; [vm_compute; reflexivity|].
  split; [vm_compute; reflexivity|].
  eapply (main_requests_model_objects_once net_landscape None
            (Some "Overview") initial_world);
    vm_compute; reflexivity.
Defined.

Lemma get_diagram_data_keeps_primary_objects_at_d2 :
  exists w' v,
    get_diagram_data net_landscape (VStr "d2") initial_world = (w', Ok v) /\
    py_getitem v (VStr "objects")
    = Ok (VDict [("X", VDict [("name", VStr "Shop")])]).
Proof.
  eexists _, _. split; [vm_compute; reflexivity|].
  eapply (get_diagram_data_keeps_primary_objects net_landscape (VStr "d2")
            initial_world);
    [reflexivity | reflexivity | reflexivity | reflexivity | reflexivity
    | reflexivity | vm_compute; reflexivity].
Defined.

Lemma get_diagram_data_complete_primary_at_d1 :
  exists v,
    get_diagram_data net_landscape (VStr "d1") initial_world
    = (sent initial_world [GetDiagram "d1" ""], Ok v) /\
    py_getitem v (VStr "relationships")
    = Ok (VList [VDict [("sourceId", VStr "X"); ("targetId", VStr "Y");
                        ("label", VStr "calls")]]).
Proof.
  edestruct (get_diagram_data_complete_primary net_landscape (VStr "d1")
               initial_world) as (v & Hrun & _ & Hrel);
    [reflexivity | reflexivity | reflexivity | reflexivity | reflexivity
    | reflexivity | reflexivity | reflexivity |].
  exists v. split; [exact Hrun | exact Hrel].
Defined.

Lemma get_diagram_object_lookup_at_missing :
  exists w' dia d,
    get_diagram_data net_landscape (VStr "d1") initial_world = (w', Ok dia) /\
    py_getitem dia (VStr "objects") = Ok (VDict d) /\
    get_diagram_object net_landscape (VStr "d1") (VStr "Z") initial_world
    = (w', Ok VNone).
Proof.
  eexists _, _, _. split; [vm_compute; reflexivity|].
  split; [vm_compute; reflexivity|].
  exact (get_diagram_object_lookup net_landscape (VStr "d1") "Z"
           initial_world _ _ _ eq_refl eq_refl).
Defined.

Lemma find_diagram_by_name_first_match_at_overview :
  find_diagram_by_name net_landscape "Overview" initial_world
  = (sent initial_world [GetDiagrams], Ok (VStr "d1")).
Proof.
  eapply (find_diagram_by_name_first_match net_landscape "Overview"
            initial_world _ _ _
            [VDict [("id", VStr "d0"); ("name", VStr "Context")]] _).
  - reflexivity.
  - reflexivity.
  - reflexivity.
  - repeat constructor. exists (VStr "Context"). split; reflexivity.
  - reflexivity.
  - reflexivity.
Defined.

Lemma main_diagram_not_found_at_refused :
  main net_not_found None (Some "Overview") initial_world
  = (sent initial_world [GetDiagrams],
     inr (Message "Unable to find diagram [Overview]")).
Proof.
  apply (main_diagram_not_found net_not_found None "Overview" initial_world).
  - discriminate.
  - left. intros H. vm_compute in H. discriminate H.
Defined.

Lemma find_flow_by_name_first_match_at_checkout :
  find_flow_by_name net_landscape "Checkout" initial_world
  = (sent initial_world [GetFlows], Ok (VStr "f1")).
Proof.
  eapply (find_flow_by_name_first_match net_landscape "Checkout"
            initial_world _ _ _
            [VDict [("id", VStr "f2"); ("name", VStr "Refund")]] _).
  - reflexivity.
  - reflexivity.
  - repeat constructor. exists (VStr "Refund"). split; reflexivity.
  - reflexivity.
  - reflexivity.
Defined.

Lemma main_flow_list_without_flows_at_refused :
  main net_not_found (Some "Checkout") None initial_world
  = (sent initial_world [GetFlows], inl (PyExn KeyError)).
Proof.
  apply (main_flow_list_without_flows net_not_found "Checkout" None
           initial_world []).
  - left. reflexivity.
  - reflexivity.
  - reflexivity.
Defined.

Lemma main_rendering_terminates_at_overview :
  exists w1 mdia,
    build_diagram net_landscape (VStr "d1") "Overview" initial_world
    = (w1, Ok (Some mdia)) /\
    keys_distinct mdia /\ snd (Diagram.generate mdia) <> inl OutOfFuel.
Proof.
  eexists _, _. split; [vm_compute; reflexivity|].
  destruct (main_rendering_terminates net_landscape None (Some "Overview")
              initial_world) as [_ H].
  eapply (H (VStr "d1") "Overview" initial_world). vm_compute; reflexivity.
Defined.

Lemma main_writes_what_it_prints_at_overview :
  exists w' printed file content,
    main net_landscape None (Some "Overview") initial_world
    = (w', inr (Written printed file content)) /\
    content = printed /\
    exists name,
      output_name None (Some "Overview") = Some name /\
      file = create_file_name name "mmd".
Proof.
  eexists _, _, _, _. split; [vm_compute; reflexivity|].
  eapply (main_writes_what_it_prints net_landscape None (Some "Overview")
            initial_world).
  vm_compute; reflexivity.
Defined.

Lemma main_requests_by_mode_at_checkout :
  exists sent,
    requests_log (fst (main net_landscape (Some "Checkout") None initial_world))
    = requests_log initial_world ++ sent /\
    Forall (fun r => flow_mode_request r = true) sent.
Proof.
  destruct (main_requests_by_mode net_landscape (Some "Checkout") None
              initial_world) as (s & E & Hf & _).
  exists s. split; [exact E | apply Hf; left; reflexivity].
Defined.

Lemma build_sequence_declares_participants_at_two_steps :
  exists w' seq,
    build_sequence net_flow flow_two_steps initial_world = (w', Ok seq) /\
    arrows_declared seq /\ declared_once seq.
Proof.
  eexists _, _. split; [vm_compute; reflexivity|].
  eapply (build_sequence_declares_participants net_flow flow_two_steps
            initial_world).
  vm_compute; reflexivity.
Defined.

Lemma sorted_items_groups_first_at_model_first :
  exists items,
    sorted_items (VDict objects_model_first) = Ok items /\
    exists od,
      VDict objects_model_first = VDict od /\
      items = filter (fun kv => negb (model_backed (snd kv))) od
              ++ filter (fun kv => model_backed (snd kv)) od.
Proof.
  eexists. split; [vm_compute; reflexivity|].
  apply sorted_items_groups_first. vm_compute; reflexivity.
Defined.

Lemma sorted_steps_stable_at_lettered :
  exists steps d,
    sorted_steps flow_lettered = Ok steps /\
    py_getitem flow_lettered (VStr "steps") = Ok (VDict d) /\
    map fst d = ["s1"; "s2"] /\ map fst steps = ["s2"; "s1"] /\
    StronglySorted (fun a b => key_le (step_index a) (step_index b)) steps.
Proof.
  destruct (sorted_steps flow_lettered) as [steps|e] eqn:E;
    [|vm_compute in E; discriminate E].
  destruct (sorted_steps_stable flow_lettered steps E)
    as (d & Hd & _ & Hsorted & _).
  exists steps, d. split; [reflexivity|]. split; [exact Hd|].
  vm_compute in Hd. inversion Hd; subst d.
  split; [reflexivity|].
  split; [vm_compute in E; inversion E; reflexivity|].
  apply Hsorted. reflexivity.
Defined.

Lemma generate_places_every_node_once_at_group :
  let self := Diagram.add_node diagram_with_group "C" "Service" (VStr "P") in
  roots_of self = Ok ["P"] /\
  Permutation (placed (nodes (fst (Diagram.generate self))) ["P"])
              (dict_keys (nodes self)).
Proof.
  intros self. split; [reflexivity|].
  exact (proj1 (generate_places_every_node_once self ["P"] eq_refl)).
Defined.

Lemma add_node_sanitizes_at_clean :
  exists n,
    dict_lookup "Api_1"
      (nodes (Diagram.add_node (Diagram.new "d") "Api_1" "Api" VNone))
    = Some n /\
    node_id n = "Api_1" /\ node_name n = "Api".
Proof.
  destruct (add_node_sanitizes (Diagram.new "d") "Api_1" "Api" VNone)
    as (n & Hl & _ & _ & Hid & _ & Hname).
  exists n. split; [exact Hl|]. split.
  - apply Hid. reflexivity.
  - apply Hname. vm_compute. intuition discriminate.
Defined.

Lemma main_flow_not_served_at_refund :
  exists w1,
    find_flow_by_name net_landscape "Refund" initial_world
    = (w1, Ok (VStr "f2")) /\
    main net_landscape (Some "Refund") None initial_world
    = (sent w1 [GetFlow "f2"],
       inr (Message ("Unable to find flow ["
                     +++ py_str (VDict [("message", VStr "gone")]) +++ "]"))).
Proof.
  eexists. split; [vm_compute; reflexivity|].
  apply (main_flow_not_served net_landscape "Refund" None initial_world _
           (VStr "f2") (VDict [("message", VStr "gone")])).
  - left. reflexivity.
  - vm_compute; reflexivity.
  - reflexivity.
  - reflexivity.
  - left. intros H. vm_compute in H. discriminate H.
Defined.

Lemma main_diagram_not_fetched_at_archive :
  exists w1,
    find_diagram_by_name net_landscape "Archive" initial_world
    = (w1, Ok (VStr "d9")) /\
    main net_landscape None (Some "Archive") initial_world
    = (sent w1 [GetDiagram "d9" ""],
       inr (Message "Unable to fetch diagram data")).
Proof.
  eexists. split; [vm_compute; reflexivity|].
  apply (main_diagram_not_fetched net_landscape None "Archive" initial_world
           _ (VStr "d9")).
  - discriminate.
  - vm_compute; reflexivity.
  - reflexivity.
  - reflexivity.
  - intros H. vm_compute in H. discriminate H.
Defined.

Lemma place_relationship_label_at_named :
  let objects := VDict [("o1", VDict []); ("o2", VDict [])] in
  exists w' mdia' l,
    place_relationship net_not_found objects (Diagram.new "d")
                       relationship_named initial_world = (w', Ok mdia') /\
    links mdia' = links (Diagram.new "d") ++ [l] /\
    link_label l = VStr "uses" /\ w' = initial_world.
Proof.
  intros objects. eexists _, _, _. split; [vm_compute; reflexivity|].
  split; [vm_compute; reflexivity|].
  exact (place_relationship_label net_not_found objects (Diagram.new "d") _
           relationship_named initial_world _ _ eq_refl eq_refl).
Defined.

Lemma hierarchy_parents_present_at_group :
  exists w' mdia,
    NoDup (dict_keys objects_grouped) /\
    build_hierarchy net_service (VDict objects_grouped) [("B", VStr "M1")]
                    (Diagram.new "d") initial_world = (w', Ok mdia) /\
    dict_mem "A" (nodes mdia) = true /\ dict_mem "B" (nodes mdia) = true /\
    (forall nd,
        dict_lookup "A" (nodes mdia) = Some nd ->
        plain_node "A" (VDict [("name", VStr "G")]) nd).
Proof.
  eexists _, _.
  assert (Hnd : NoDup (dict_keys objects_grouped)).
  { repeat constructor; simpl; intuition discriminate. }
  split; [exact Hnd|]. split; [vm_compute; reflexivity|].
  match goal with
  | |- dict_mem _ (nodes ?m) = true /\ _ =>
      destruct (hierarchy_parents_present net_service objects_grouped
                  [("B", VStr "M1")] "d" initial_world _ m Hnd eq_refl)
        as (_ & _ & H & Hform & _)
  end.
  split; [eapply H; reflexivity|]. split; [eapply H; reflexivity|].
  intros nd Hn. exact (Hform "A" nd _ Hn eq_refl).
Defined.

Lemma place_object_model_backed_at_structural_parent :
  let od := [("G", VDict [("modelId", VStr "mg")]);
             ("C", VDict [("modelId", VStr "mc")])] in
  let net : network :=
    fun _ _ =>
      mkResponse 200
        (Some (VDict [("modelObject",
                       VDict [("id", VStr "mc"); ("name", VStr "Cart");
                              ("parentId", VStr "mg")])])) in
  exists dia_to_model w' mdia',
    NoDup (dict_keys od) /\
    build_dia_to_model (VDict od) = Ok dia_to_model /\
    place_object net (VDict od) dia_to_model
                 (Diagram.new "d") ("C", VDict [("modelId", VStr "mc")])
                 initial_world = (w', Ok mdia') /\
    option_map node_parent (dict_lookup "C" (nodes mdia')) = Some (VStr "G").
Proof.
  intros od net. eexists _, _, _.
  assert (Hnd : NoDup (dict_keys od)).
  { repeat constructor; simpl; intuition discriminate. }
  split; [exact Hnd|]. split; [vm_compute; reflexivity|].
  split; [vm_compute; reflexivity|].
  edestruct (place_object_model_backed net od _ (Diagram.new "d") _
               "C" (VDict [("modelId", VStr "mc")]) initial_world _
               Hnd eq_refl eq_refl eq_refl) as (m & name & Hget & _ & Hnode).
  vm_compute in Hget. inversion Hget; subst m.
  exact (f_equal (option_map node_parent) Hnode).
Defined.

Lemma get_diagram_data_requests_in_order_at_objects_only :
  exists n,
    n <= 4 /\
    requests_log (fst (get_diagram_data net_landscape (VStr "d2")
                                        initial_world))
    = requests_log initial_world ++ diagram_requests (VStr "d2") n /\
    requests_log (fst (get_diagram_data net_landscape (VStr "d2")
                                        initial_world))
    = [GetDiagram "d2" ""; GetDiagram "d2" "/content";
       GetDiagram "d2" "/objects"; GetDiagram "d2" "/elements";
       GetDiagram "d2" "/relationships"].
Proof.
  destruct (get_diagram_data_requests_in_order net_landscape (VStr "d2")
              initial_world) as (_ & _ & H).
  assert (E : vdict_mem (VStr "d2") (diagram_cache initial_world) = Ok false)
    by reflexivity.
  rewrite E in H. destruct H as (n & Hn & Hl & _).
  exists n. split; [exact Hn|]. split; [exact Hl|].
  vm_compute. reflexivity.
Defined.

